(** * Component Inspector: value normalisation, class and style generation

    A shallow embedding of the pure core of the PropertyInspector hooks
    (hooks.ts: [normalizeNumericValue], [getTailwindClass],
    [useGeneratedClasses], [useAllBreakpointClasses], [useGeneratedStyles],
    [getEffectiveState], [clearBreakpointOverrides]) and of the Tailwind
    helpers (utils/tailwindUtils.ts: [normalizeNumericValue],
    [isTailwindToken], [getTailwindClass]).

    Conventions of the embedding
    - a JavaScript string is a [string]; its characters stand for the code
      units below 256;
    - a JavaScript number held by the state is a whole number, a [Z] (the
      inspector stores whole degrees, pixels and percentages); JavaScript
      holds and prints a whole number exactly only within the safe range,
      and the statements that are true only of the exact printed form carry
      that bound ([JS.isSafeInteger], [JS.printsExactHundredths]);
    - a [useMemo] hook is the function it memoises;
    - a plain object used as a dictionary ([styles]) is a [gmap] of its own
      properties; an assignment to it goes through [assign], which leaves
      out the one key a plain object does not store (['__proto__']);
    - the hook's [useState] cells are the fields of one record that the
      setters map to a new record. *)

From Stdlib Require Import ZArith String Ascii List Bool.
From Stdlib Require Import Numbers.DecimalString.
From stdpp Require Import base list gmap strings.

Local Open Scope string_scope.
Local Open Scope list_scope.
Local Open Scope Z_scope.

#[local] Arguments String.append : simpl nomatch.

(** ** JavaScript string primitives *)

Module JS.

(** Code units that [String.prototype.trim] strips: TAB, LF, VT, FF, CR,
    SPACE and NBSP (the white space and line terminators below 256). *)
Definition is_space (c : ascii) : bool :=
  let n := nat_of_ascii c in
  ((9 <=? n)%nat && (n <=? 13)%nat) || (n =? 32)%nat || (n =? 160)%nat.

Fixpoint trimStart (s : string) : string :=
  match s with
  | String c s' => if is_space c then trimStart s' else s
  | EmptyString => EmptyString
  end.

Fixpoint trimEnd (s : string) : string :=
  match s with
  | String c s' =>
      match trimEnd s' with
      | EmptyString => if is_space c then EmptyString else String c EmptyString
      | t => String c t
      end
  | EmptyString => EmptyString
  end.

Definition trim (s : string) : string := trimEnd (trimStart s).

(** A string is truthy when it is not empty. *)
Definition truthy (s : string) : bool :=
  match s with EmptyString => false | _ => true end.

(** [s.startsWith(p)] *)
Fixpoint startsWith (s p : string) {struct p} : bool :=
  match p, s with
  | EmptyString, _ => true
  | String a p', String b s' => Ascii.eqb a b && startsWith s' p'
  | String _ _, EmptyString => false
  end.

(** [s.includes(t)] *)
Fixpoint includes (s t : string) : bool :=
  startsWith s t ||
  match s with
  | String _ s' => includes s' t
  | EmptyString => false
  end.

(** [s.split(sep)] for a one-character separator: the pieces between the
    separators, in order; never an empty list. *)
Fixpoint split (sep : ascii) (s : string) : list string :=
  match s with
  | EmptyString => [EmptyString]
  | String c s' =>
      if Ascii.eqb c sep then EmptyString :: split sep s'
      else match split sep s' with
           | piece :: rest => String c piece :: rest
           | [] => [String c EmptyString]
           end
  end.

(** [l.join(sep)] *)
Fixpoint join (sep : string) (l : list string) : string :=
  match l with
  | [] => EmptyString
  | [x] => x
  | x :: rest => x +:+ sep +:+ join sep rest
  end.

(** [l.filter(Boolean)] on an array of strings. *)
Definition filterBoolean (l : list string) : list string :=
  List.filter truthy l.

(** [l.includes(x)] on an array of strings. *)
Definition arrayIncludes (l : list string) (x : string) : bool :=
  existsb (String.eqb x) l.

(** [[...new Set(l)]]: the elements in order of first occurrence. *)
Fixpoint uniqueInOrder (seen : list string) (l : list string) : list string :=
  match l with
  | [] => []
  | x :: rest =>
      if arrayIncludes seen x then uniqueInOrder seen rest
      else x :: uniqueInOrder (x :: seen) rest
  end.

Definition setSpread (l : list string) : list string := uniqueInOrder [] l.

(** [Number.isSafeInteger(n)]: the whole numbers up to 2^53 - 1 in absolute
    value, which JavaScript holds exactly and prints digit for digit. *)
Definition isSafeInteger (n : Z) : bool :=
  Z.abs n <=? 9007199254740991.

(** The whole numbers of at most fifteen digits. For these the quotient
    [n / 100], a decimal of at most fifteen significant digits, is printed
    by JavaScript exactly as that decimal: no two decimals of that length
    share a double. *)
Definition printsExactHundredths (n : Z) : bool :=
  Z.abs n <? 10 ^ 15.

(** [String(n)] and [`${n}`] for a whole number [n] with [isSafeInteger n]:
    its decimal digits, with a minus sign when negative. Outside that range
    the function is not JavaScript's: a double no longer holds every whole
    number there, the digits it prints are the shortest that read back as
    the same double, and from 10^21 on it prints with an exponent. *)
Definition numberToString (n : Z) : string :=
  NilZero.string_of_int (Z.to_int n).

Definition digit (d : Z) : string :=
  String (ascii_of_nat (48 + Z.to_nat d)) EmptyString.

(** [`${n / 100}`] for a whole number [n] with [printsExactHundredths n]:
    the quotient is a decimal with at most two places, and JavaScript prints
    a number by its shortest decimal that reads back as the same double,
    here the quotient itself without trailing zeros. For a longer [n] the
    double nearest to the quotient has a shorter decimal and the function is
    not JavaScript's. *)
Definition hundredthsToString (n : Z) : string :=
  let a := Z.abs n in
  let q := a / 100 in
  let r := a mod 100 in
  let sign := if n <? 0 then "-" else "" in
  let frac :=
    if r =? 0 then ""
    else if r mod 10 =? 0 then "." +:+ digit (r / 10)
    else "." +:+ digit (r / 10) +:+ digit (r mod 10) in
  sign +:+ numberToString q +:+ frac.

Definition is_digit (c : ascii) : bool :=
  let n := nat_of_ascii c in (48 <=? n)%nat && (n <=? 57)%nat.

Definition is_lower (c : ascii) : bool :=
  let n := nat_of_ascii c in (97 <=? n)%nat && (n <=? 122)%nat.

Definition toUpper (c : ascii) : ascii :=
  if is_lower c then ascii_of_nat (nat_of_ascii c - 32) else c.

End JS.

(** ** Values handed to the normaliser *)

(** The argument type of [normalizeNumericValue]:
    [string | number | null | undefined]. A number is a whole number within
    the safe range ([JS.isSafeInteger]); [NaN], the infinities, fractions
    and larger numbers are outside the model. *)
Inductive jsvalue : Type :=
  | JString (s : string)
  | JNumber (n : Z)
  | JNull
  | JUndefined.

(** [!value] *)
Definition falsy (v : jsvalue) : bool :=
  match v with
  | JString s => negb (JS.truthy s)
  | JNumber n => n =? 0
  | JNull | JUndefined => true
  end.

(** [String(value)] *)
Definition toString (v : jsvalue) : string :=
  match v with
  | JString s => s
  | JNumber n => JS.numberToString n
  | JNull => "null"
  | JUndefined => "undefined"
  end.

(** ** Value Normalizer *)

(** The character class [[\d.-]]. *)
Definition is_numeric_char (c : ascii) : bool :=
  JS.is_digit c || Ascii.eqb c "."%char || Ascii.eqb c "-"%char.

(** The greedy run [[\d.-]*] at the start of a string. *)
Fixpoint numeric_run (s : string) : string :=
  match s with
  | String c s' =>
      if is_numeric_char c then String c (numeric_run s') else EmptyString
  | EmptyString => EmptyString
  end.

(** [str.match(/^([\d.-]+)/)]: the captured group, or [None] for [null]. *)
Definition match_numeric (str : string) : option string :=
  match numeric_run str with
  | EmptyString => None
  | run => Some run
  end.

(** hooks.ts and utils/tailwindUtils.ts carry the same function, character
    for character. *)
Definition normalizeNumericValue (value : jsvalue) : string :=
  if falsy value then ""
  else
    let str := JS.trim (toString value) in
    match match_numeric str with
    | Some numMatch => numMatch
    | None => str
    end.

(** ** Data model *)

(** [type Breakpoint]; [X2l] stands for ['2xl']. *)
Inductive Breakpoint : Type := Base | Sm | Md | Lg | Xl | X2l.

#[global] Instance Breakpoint_eq_dec : EqDecision Breakpoint.
Proof. solve_decision. Defined.

(** [breakpoint === 'base'] *)
Definition isBase (breakpoint : Breakpoint) : bool :=
  match breakpoint with Base => true | _ => false end.

Definition breakpointName (bp : Breakpoint) : string :=
  match bp with
  | Base => "base" | Sm => "sm" | Md => "md"
  | Lg => "lg" | Xl => "xl" | X2l => "2xl"
  end.

(** [{ ...a, ...b }] on one key: the later object wins when it has the key. *)
Definition spread {A : Type} (a : A) (b : option A) : A :=
  match b with Some v => v | None => a end.

(** Modelled from the spec: types.ts ([InspectorState] and its groups) is not
    among the sources. The groups and their keys are those of the data model
    (section 3) and of the reads in hooks.ts; a key read with [!== 0], [> 0]
    or [/ 100] holds a number, the others hold strings. Each group comes with
    the shape an override bucket gives it: every key optional ([partial]),
    and with the spread of an override over a full group ([merge]). *)
Module Padding.
Record full : Type := mk { l : string; t : string; r : string; b : string }.
Record partial : Type :=
  mkPartial { l' : option string; t' : option string;
              r' : option string; b' : option string }.
Definition merge (s : full) (o : partial) : full :=
  {| l := spread (l s) (l' o); t := spread (t s) (t' o);
     r := spread (r s) (r' o); b := spread (b s) (b' o) |}.
Definition none : partial := mkPartial None None None None.
End Padding.

Module Margin.
Record full : Type := mk { x : string; y : string }.
Record partial : Type := mkPartial { x' : option string; y' : option string }.
Definition merge (s : full) (o : partial) : full :=
  {| x := spread (x s) (x' o); y := spread (y s) (y' o) |}.
Definition none : partial := mkPartial None None.
End Margin.

Module Position.
Record full : Type :=
  mk { type : string; zIndex : string;
       l : string; t : string; r : string; b : string }.
Record partial : Type :=
  mkPartial { type' : option string; zIndex' : option string;
              l' : option string; t' : option string;
              r' : option string; b' : option string }.
Definition merge (s : full) (o : partial) : full :=
  {| type := spread (type s) (type' o);
     zIndex := spread (zIndex s) (zIndex' o);
     l := spread (l s) (l' o); t := spread (t s) (t' o);
     r := spread (r s) (r' o); b := spread (b s) (b' o) |}.
Definition none : partial := mkPartial None None None None None None.
End Position.

Module Size.
Record full : Type :=
  mk { width : string; height : string;
       maxWidth : string; maxHeight : string;
       minWidth : string; minHeight : string }.
Record partial : Type :=
  mkPartial { width' : option string; height' : option string;
              maxWidth' : option string; maxHeight' : option string;
              minWidth' : option string; minHeight' : option string }.
Definition merge (s : full) (o : partial) : full :=
  {| width := spread (width s) (width' o);
     height := spread (height s) (height' o);
     maxWidth := spread (maxWidth s) (maxWidth' o);
     maxHeight := spread (maxHeight s) (maxHeight' o);
     minWidth := spread (minWidth s) (minWidth' o);
     minHeight := spread (minHeight s) (minHeight' o) |}.
Definition none : partial := mkPartial None None None None None None.
End Size.

Module Typography.
Record full : Type :=
  mk { fontFamily : string; fontWeight : string; fontSize : string;
       letterSpacing : string; lineHeight : string;
       textAlign : string; textColor : string }.
Record partial : Type :=
  mkPartial { fontFamily' : option string; fontWeight' : option string;
              fontSize' : option string; letterSpacing' : option string;
              lineHeight' : option string; textAlign' : option string;
              textColor' : option string }.
Definition merge (s : full) (o : partial) : full :=
  {| fontFamily := spread (fontFamily s) (fontFamily' o);
     fontWeight := spread (fontWeight s) (fontWeight' o);
     fontSize := spread (fontSize s) (fontSize' o);
     letterSpacing := spread (letterSpacing s) (letterSpacing' o);
     lineHeight := spread (lineHeight s) (lineHeight' o);
     textAlign := spread (textAlign s) (textAlign' o);
     textColor := spread (textColor s) (textColor' o) |}.
Definition none : partial := mkPartial None None None None None None None.
End Typography.

Module Transforms.
Record full : Type :=
  mk { rotate : Z; scale : Z; translateX : Z; translateY : Z;
       skewX : Z; skewY : Z }.
Record partial : Type :=
  mkPartial { rotate' : option Z; scale' : option Z;
              translateX' : option Z; translateY' : option Z;
              skewX' : option Z; skewY' : option Z }.
Definition merge (s : full) (o : partial) : full :=
  {| rotate := spread (rotate s) (rotate' o);
     scale := spread (scale s) (scale' o);
     translateX := spread (translateX s) (translateX' o);
     translateY := spread (translateY s) (translateY' o);
     skewX := spread (skewX s) (skewX' o);
     skewY := spread (skewY s) (skewY' o) |}.
Definition none : partial := mkPartial None None None None None None.
End Transforms.

Module Transforms3D.
Record full : Type :=
  mk { rotateX : Z; rotateY : Z; rotateZ : Z; perspective : Z }.
Record partial : Type :=
  mkPartial { rotateX' : option Z; rotateY' : option Z;
              rotateZ' : option Z; perspective' : option Z }.
Definition merge (s : full) (o : partial) : full :=
  {| rotateX := spread (rotateX s) (rotateX' o);
     rotateY := spread (rotateY s) (rotateY' o);
     rotateZ := spread (rotateZ s) (rotateZ' o);
     perspective := spread (perspective s) (perspective' o) |}.
Definition none : partial := mkPartial None None None None.
End Transforms3D.

Module Effects.
Record full : Type :=
  mk { opacity : Z; blur : Z; backdropBlur : Z; hueRotate : Z;
       saturation : Z; brightness : Z; contrast : Z;
       grayscale : Z; invert : Z; sepia : Z; shadow : string }.
Record partial : Type :=
  mkPartial { opacity' : option Z; blur' : option Z;
              backdropBlur' : option Z; hueRotate' : option Z;
              saturation' : option Z; brightness' : option Z;
              contrast' : option Z; grayscale' : option Z;
              invert' : option Z; sepia' : option Z;
              shadow' : option string }.
Definition merge (s : full) (o : partial) : full :=
  {| opacity := spread (opacity s) (opacity' o);
     blur := spread (blur s) (blur' o);
     backdropBlur := spread (backdropBlur s) (backdropBlur' o);
     hueRotate := spread (hueRotate s) (hueRotate' o);
     saturation := spread (saturation s) (saturation' o);
     brightness := spread (brightness s) (brightness' o);
     contrast := spread (contrast s) (contrast' o);
     grayscale := spread (grayscale s) (grayscale' o);
     invert := spread (invert s) (invert' o);
     sepia := spread (sepia s) (sepia' o);
     shadow := spread (shadow s) (shadow' o) |}.
Definition none : partial :=
  mkPartial None None None None None None None None None None None.
End Effects.

Module Radius.
Record full : Type := mk { all : Z; tl : Z; tr : Z; br : Z; bl : Z }.
Record partial : Type :=
  mkPartial { all' : option Z; tl' : option Z; tr' : option Z;
              br' : option Z; bl' : option Z }.
Definition merge (s : full) (o : partial) : full :=
  {| all := spread (all s) (all' o); tl := spread (tl s) (tl' o);
     tr := spread (tr s) (tr' o); br := spread (br s) (br' o);
     bl := spread (bl s) (bl' o) |}.
Definition none : partial := mkPartial None None None None None.
End Radius.

Module Border.
Record full : Type :=
  mk { width : string; style : string; color : string;
       radius : Radius.full }.
Record partial : Type :=
  mkPartial { width' : option string; style' : option string;
              color' : option string; radius' : option Radius.partial }.
Definition none : partial := mkPartial None None None None.
End Border.

Module Appearance.
Record full : Type :=
  mk { backgroundColor : string; backgroundImage : string;
       blendMode : string }.
Record partial : Type :=
  mkPartial { backgroundColor' : option string;
              backgroundImage' : option string;
              blendMode' : option string }.
Definition merge (s : full) (o : partial) : full :=
  {| backgroundColor := spread (backgroundColor s) (backgroundColor' o);
     backgroundImage := spread (backgroundImage s) (backgroundImage' o);
     blendMode := spread (blendMode s) (blendMode' o) |}.
Definition none : partial := mkPartial None None None.
End Appearance.

Record InspectorState : Type := mkState {
  padding : Padding.full;
  margin : Margin.full;
  position : Position.full;
  size : Size.full;
  typography : Typography.full;
  transforms : Transforms.full;
  transforms3D : Transforms3D.full;
  effects : Effects.full;
  border : Border.full;
  appearance : Appearance.full;
  tag : string;
  elementId : string;
  textContent : string;
  link : string;
  inlineCSS : string;
  tailwindClasses : list string
}.

(** [Partial<InspectorState>]: an override bucket. [None] is an absent key. *)
Record PartialState : Type := mkPartialState {
  padding' : option Padding.partial;
  margin' : option Margin.partial;
  position' : option Position.partial;
  size' : option Size.partial;
  typography' : option Typography.partial;
  transforms' : option Transforms.partial;
  transforms3D' : option Transforms3D.partial;
  effects' : option Effects.partial;
  border' : option Border.partial;
  appearance' : option Appearance.partial;
  tag' : option string;
  elementId' : option string;
  textContent' : option string;
  link' : option string;
  inlineCSS' : option string;
  tailwindClasses' : option (list string)
}.

(** The empty object [{}]. *)
Definition emptyOverrides : PartialState :=
  mkPartialState None None None None None None None None None None
                 None None None None None None.

(** [Object.keys(o).length] *)
Definition keyCount (o : PartialState) : nat :=
  let present {A} (k : option A) : nat :=
    match k with Some _ => 1%nat | None => 0%nat end in
  (present (padding' o) + present (margin' o) + present (position' o)
   + present (size' o) + present (typography' o) + present (transforms' o)
   + present (transforms3D' o) + present (effects' o) + present (border' o)
   + present (appearance' o) + present (tag' o) + present (elementId' o)
   + present (textContent' o) + present (link' o) + present (inlineCSS' o)
   + present (tailwindClasses' o))%nat.

(** [type BreakpointStates = Record<Breakpoint, Partial<InspectorState>>] *)
Record BreakpointStates : Type := mkBreakpointStates {
  bucketBase : PartialState;
  bucketSm : PartialState;
  bucketMd : PartialState;
  bucketLg : PartialState;
  bucketXl : PartialState;
  bucket2xl : PartialState
}.

(** [breakpointStates[bp]] *)
Definition bucket (bs : BreakpointStates) (bp : Breakpoint) : PartialState :=
  match bp with
  | Base => bucketBase bs | Sm => bucketSm bs | Md => bucketMd bs
  | Lg => bucketLg bs | Xl => bucketXl bs | X2l => bucket2xl bs
  end.

(** [{ ...prev, [bp]: o }] *)
Definition setBucket (prev : BreakpointStates) (bp : Breakpoint)
    (o : PartialState) : BreakpointStates :=
  match bp with
  | Base => mkBreakpointStates o (bucketSm prev) (bucketMd prev)
              (bucketLg prev) (bucketXl prev) (bucket2xl prev)
  | Sm => mkBreakpointStates (bucketBase prev) o (bucketMd prev)
              (bucketLg prev) (bucketXl prev) (bucket2xl prev)
  | Md => mkBreakpointStates (bucketBase prev) (bucketSm prev) o
              (bucketLg prev) (bucketXl prev) (bucket2xl prev)
  | Lg => mkBreakpointStates (bucketBase prev) (bucketSm prev) (bucketMd prev)
              o (bucketXl prev) (bucket2xl prev)
  | Xl => mkBreakpointStates (bucketBase prev) (bucketSm prev) (bucketMd prev)
              (bucketLg prev) o (bucket2xl prev)
  | X2l => mkBreakpointStates (bucketBase prev) (bucketSm prev) (bucketMd prev)
              (bucketLg prev) (bucketXl prev) o
  end.

(** ** State store: [useInspectorState] *)

(** The three [useState] cells of the hook. *)
Record Store : Type := mkStore {
  state : InspectorState;
  breakpointStates : BreakpointStates;
  currentBreakpoint : Breakpoint
}.

(** [bpState.g || {}] then spread over the base group. *)
Definition mergeGroup {F P : Type} (merge : F -> P -> F) (none : P)
    (s : F) (o : option P) : F :=
  merge s (spread none o).

Definition getEffectiveState (st : Store) (bp : Breakpoint) : InspectorState :=
  let state := state st in
  let bpState := bucket (breakpointStates st) bp in
  {| tag := spread (tag state) (tag' bpState);
     elementId := spread (elementId state) (elementId' bpState);
     textContent := spread (textContent state) (textContent' bpState);
     link := spread (link state) (link' bpState);
     inlineCSS := spread (inlineCSS state) (inlineCSS' bpState);
     tailwindClasses :=
       spread (tailwindClasses state) (tailwindClasses' bpState);
     padding :=
       mergeGroup Padding.merge Padding.none (padding state) (padding' bpState);
     margin :=
       mergeGroup Margin.merge Margin.none (margin state) (margin' bpState);
     position :=
       mergeGroup Position.merge Position.none
         (position state) (position' bpState);
     size := mergeGroup Size.merge Size.none (size state) (size' bpState);
     typography :=
       mergeGroup Typography.merge Typography.none
         (typography state) (typography' bpState);
     transforms :=
       mergeGroup Transforms.merge Transforms.none
         (transforms state) (transforms' bpState);
     transforms3D :=
       mergeGroup Transforms3D.merge Transforms3D.none
         (transforms3D state) (transforms3D' bpState);
     border :=
       let o := spread Border.none (border' bpState) in
       {| Border.width :=
            spread (Border.width (border state)) (Border.width' o);
          Border.style :=
            spread (Border.style (border state)) (Border.style' o);
          Border.color :=
            spread (Border.color (border state)) (Border.color' o);
          Border.radius :=
            (* bpState.border?.radius || {} *)
            mergeGroup Radius.merge Radius.none
              (Border.radius (border state))
              (match border' bpState with
               | Some ob => Border.radius' ob
               | None => None
               end) |};
     effects :=
       mergeGroup Effects.merge Effects.none (effects state) (effects' bpState);
     appearance :=
       mergeGroup Appearance.merge Appearance.none
         (appearance state) (appearance' bpState) |}.

(** [if (bp !== 'base') setBreakpointStates(prev => ({ ...prev, [bp]: {} }))] *)
Definition clearBreakpointOverrides (bp : Breakpoint) (st : Store) : Store :=
  if negb (isBase bp) then
    {| state := state st;
       breakpointStates := setBucket (breakpointStates st) bp emptyOverrides;
       currentBreakpoint := currentBreakpoint st |}
  else st.

(** [Object.keys(breakpointStates[bp] || {}).length > 0] *)
Definition hasBreakpointOverrides (st : Store) (bp : Breakpoint) : bool :=
  (0 <? keyCount (bucket (breakpointStates st) bp))%nat.

(** ** Class Generator: [useGeneratedClasses] *)

(** [breakpoint === 'base' ? '' : `${breakpoint}:`] *)
Definition breakpointPrefix (breakpoint : Breakpoint) : string :=
  if isBase breakpoint then "" else breakpointName breakpoint +:+ ":".

(** [if (c) classes.push(token)], as the tokens it adds. *)
Definition pushIf (c : bool) (token : string) : list string :=
  if c then [token] else [].

Definition isNot (a b : string) : bool := negb (String.eqb a b).

Section ClassGenerator.
Variable prefix : string.
Variable state : InspectorState.

Definition paddingClasses : list string :=
  let paddingL := normalizeNumericValue (JString (Padding.l (padding state))) in
  let paddingT := normalizeNumericValue (JString (Padding.t (padding state))) in
  let paddingR := normalizeNumericValue (JString (Padding.r (padding state))) in
  let paddingB := normalizeNumericValue (JString (Padding.b (padding state))) in
  pushIf (JS.truthy paddingL && isNot paddingL "0")
         (prefix +:+ "pl-[" +:+ paddingL +:+ "px]")
  ++ pushIf (JS.truthy paddingT && isNot paddingT "0")
         (prefix +:+ "pt-[" +:+ paddingT +:+ "px]")
  ++ pushIf (JS.truthy paddingR && isNot paddingR "0")
         (prefix +:+ "pr-[" +:+ paddingR +:+ "px]")
  ++ pushIf (JS.truthy paddingB && isNot paddingB "0")
         (prefix +:+ "pb-[" +:+ paddingB +:+ "px]").

Definition marginClasses : list string :=
  let marginX := normalizeNumericValue (JString (Margin.x (margin state))) in
  let marginY := normalizeNumericValue (JString (Margin.y (margin state))) in
  pushIf (JS.truthy marginX && isNot marginX "0")
         (prefix +:+ "mx-[" +:+ marginX +:+ "px]")
  ++ pushIf (JS.truthy marginY && isNot marginY "0")
         (prefix +:+ "my-[" +:+ marginY +:+ "px]").

Definition positionTypeClass : list string :=
  let p := position state in
  pushIf (isNot (Position.type p) "static") (prefix +:+ Position.type p).

Definition positionOffsetClasses : list string :=
  let p := position state in
  pushIf (JS.truthy (Position.zIndex p))
         (prefix +:+ "z-["
          +:+ normalizeNumericValue (JString (Position.zIndex p)) +:+ "]")
  ++ pushIf (JS.truthy (Position.l p))
         (prefix +:+ "left-["
          +:+ normalizeNumericValue (JString (Position.l p)) +:+ "px]")
  ++ pushIf (JS.truthy (Position.t p))
         (prefix +:+ "top-["
          +:+ normalizeNumericValue (JString (Position.t p)) +:+ "px]")
  ++ pushIf (JS.truthy (Position.r p))
         (prefix +:+ "right-["
          +:+ normalizeNumericValue (JString (Position.r p)) +:+ "px]")
  ++ pushIf (JS.truthy (Position.b p))
         (prefix +:+ "bottom-["
          +:+ normalizeNumericValue (JString (Position.b p)) +:+ "px]").

Definition positionClasses : list string :=
  positionTypeClass ++ positionOffsetClasses.

Definition sizeClasses : list string :=
  let s := size state in
  pushIf (JS.truthy (Size.width s))
         (prefix +:+ "w-[" +:+ Size.width s +:+ "]")
  ++ pushIf (JS.truthy (Size.height s))
         (prefix +:+ "h-[" +:+ Size.height s +:+ "]")
  ++ pushIf (JS.truthy (Size.maxWidth s))
         (prefix +:+ "max-w-[" +:+ Size.maxWidth s +:+ "]")
  ++ pushIf (JS.truthy (Size.maxHeight s))
         (prefix +:+ "max-h-[" +:+ Size.maxHeight s +:+ "]")
  ++ pushIf (JS.truthy (Size.minWidth s))
         (prefix +:+ "min-w-[" +:+ Size.minWidth s +:+ "]")
  ++ pushIf (JS.truthy (Size.minHeight s))
         (prefix +:+ "min-h-[" +:+ Size.minHeight s +:+ "]").

Definition typographyClasses : list string :=
  let t := typography state in
  pushIf (isNot (Typography.fontFamily t) "inter")
         (prefix +:+ "font-" +:+ Typography.fontFamily t)
  ++ pushIf (isNot (Typography.fontWeight t) "normal")
         (prefix +:+ "font-" +:+ Typography.fontWeight t)
  ++ pushIf (JS.truthy (Typography.fontSize t))
         (prefix +:+ "text-[" +:+ Typography.fontSize t +:+ "]")
  ++ pushIf (isNot (Typography.letterSpacing t) "normal")
         (prefix +:+ "tracking-" +:+ Typography.letterSpacing t)
  ++ pushIf (JS.truthy (Typography.lineHeight t))
         (prefix +:+ "leading-[" +:+ Typography.lineHeight t +:+ "]")
  ++ pushIf (isNot (Typography.textAlign t) "left")
         (prefix +:+ "text-" +:+ Typography.textAlign t).

Definition transformsClasses : list string :=
  let t := transforms state in
  pushIf (negb (Transforms.rotate t =? 0))
         (prefix +:+ "rotate-["
          +:+ JS.numberToString (Transforms.rotate t) +:+ "deg]")
  ++ pushIf (negb (Transforms.scale t =? 100))
         (prefix +:+ "scale-["
          +:+ JS.hundredthsToString (Transforms.scale t) +:+ "]")
  ++ pushIf (negb (Transforms.translateX t =? 0))
         (prefix +:+ "translate-x-["
          +:+ JS.numberToString (Transforms.translateX t) +:+ "px]")
  ++ pushIf (negb (Transforms.translateY t =? 0))
         (prefix +:+ "translate-y-["
          +:+ JS.numberToString (Transforms.translateY t) +:+ "px]")
  ++ pushIf (negb (Transforms.skewX t =? 0))
         (prefix +:+ "skew-x-["
          +:+ JS.numberToString (Transforms.skewX t) +:+ "deg]")
  ++ pushIf (negb (Transforms.skewY t =? 0))
         (prefix +:+ "skew-y-["
          +:+ JS.numberToString (Transforms.skewY t) +:+ "deg]").

Definition opacityClass : list string :=
  let e := effects state in
  pushIf (negb (Effects.opacity e =? 100))
         (prefix +:+ "opacity-["
          +:+ JS.hundredthsToString (Effects.opacity e) +:+ "]").

Definition filterClasses : list string :=
  let e := effects state in
  pushIf (0 <? Effects.blur e)
         (prefix +:+ "blur-["
          +:+ JS.numberToString (Effects.blur e) +:+ "px]")
  ++ pushIf (0 <? Effects.backdropBlur e)
         (prefix +:+ "backdrop-blur-["
          +:+ JS.numberToString (Effects.backdropBlur e) +:+ "px]")
  ++ pushIf (negb (Effects.hueRotate e =? 0))
         (prefix +:+ "hue-rotate-["
          +:+ JS.numberToString (Effects.hueRotate e) +:+ "deg]")
  ++ pushIf (negb (Effects.saturation e =? 100))
         (prefix +:+ "saturate-["
          +:+ JS.hundredthsToString (Effects.saturation e) +:+ "]")
  ++ pushIf (negb (Effects.brightness e =? 100))
         (prefix +:+ "brightness-["
          +:+ JS.hundredthsToString (Effects.brightness e) +:+ "]")
  ++ pushIf (negb (Effects.contrast e =? 100))
         (prefix +:+ "contrast-["
          +:+ JS.hundredthsToString (Effects.contrast e) +:+ "]")
  ++ pushIf (0 <? Effects.grayscale e)
         (prefix +:+ "grayscale-["
          +:+ JS.hundredthsToString (Effects.grayscale e) +:+ "]")
  ++ pushIf (0 <? Effects.invert e)
         (prefix +:+ "invert-["
          +:+ JS.hundredthsToString (Effects.invert e) +:+ "]")
  ++ pushIf (0 <? Effects.sepia e)
         (prefix +:+ "sepia-["
          +:+ JS.hundredthsToString (Effects.sepia e) +:+ "]")
  ++ pushIf (isNot (Effects.shadow e) "none")
         (prefix +:+ "shadow-" +:+ Effects.shadow e).

Definition effectsClasses : list string := opacityClass ++ filterClasses.

Definition borderClasses : list string :=
  let b := border state in
  pushIf (0 <? Radius.all (Border.radius b))
         (prefix +:+ "rounded-["
          +:+ JS.numberToString (Radius.all (Border.radius b)) +:+ "px]")
  ++ pushIf (JS.truthy (Border.width b) && isNot (Border.width b) "0")
         (prefix +:+ "border-["
          +:+ normalizeNumericValue (JString (Border.width b)) +:+ "px]")
  ++ pushIf (isNot (Border.style b) "solid" && isNot (Border.style b) "none")
         (prefix +:+ "border-" +:+ Border.style b).

(** The array [classes] when the hook reaches its [return]. *)
Definition classes : list string :=
  paddingClasses ++ marginClasses ++ positionClasses ++ sizeClasses
  ++ typographyClasses ++ transformsClasses ++ effectsClasses
  ++ borderClasses ++ tailwindClasses state.
End ClassGenerator.

Definition useGeneratedClasses (state : InspectorState)
    (breakpoint : Breakpoint) : string :=
  let prefix := breakpointPrefix breakpoint in
  JS.join " " (JS.filterBoolean (classes prefix state)).

(** ** Multi-Breakpoint Aggregator: [useAllBreakpointClasses] *)

Definition breakpoints : list Breakpoint := [Base; Sm; Md; Lg; Xl; X2l].

(** The hook receives the resolver as an argument; [baseState] is only a
    dependency of its memo. *)
Definition useAllBreakpointClasses (baseState : InspectorState)
    (breakpointStates : BreakpointStates)
    (getEffectiveState : Breakpoint -> InspectorState) : string :=
  let allClasses :=
    flat_map (fun bp =>
      if isBase bp || (0 <? keyCount (bucket breakpointStates bp))%nat
      then
        let effectiveState := getEffectiveState bp in
        let prefix := breakpointPrefix bp in
        let l := Padding.l (padding effectiveState) in
        pushIf (JS.truthy l && isNot l "0") (prefix +:+ "pl-" +:+ l)
      else []) breakpoints in
  JS.join " " (JS.setSpread allClasses).

(** ** Style Generator: [useGeneratedStyles] *)

(** [prop.replace(/-([a-z])/g, g => g[1].toUpperCase())] *)
Fixpoint camelCase (s : string) : string :=
  match s with
  | EmptyString => EmptyString
  | String c s' =>
      match s' with
      | String d rest =>
          if Ascii.eqb c "-"%char && JS.is_lower d
          then String (JS.toUpper d) (camelCase rest)
          else String c (camelCase s')
      | EmptyString => String c EmptyString
      end
  end.

(** [styles[key] = value] for a computed key and a string value, on the
    plain object [styles]. The assignment writes an own property, except
    under the key ['__proto__']: that is the accessor a plain object inherits
    from [Object.prototype], and its setter ignores a value that is not an
    object, so [styles] is left as it was. *)
Definition assign (key value : string) (styles : gmap string string)
    : gmap string string :=
  if String.eqb key "__proto__" then styles else <[key := value]> styles.

(** [if (c) styles.key = value] *)
Definition setIf (c : bool) (key value : string)
    (styles : gmap string string) : gmap string string :=
  if c then assign key value styles else styles.

(** The body of [cssLines.forEach]: [[prop, val]] are the first two pieces
    of the line, [undefined] when the line has fewer. *)
Definition parseLine (styles : gmap string string) (line : string)
    : gmap string string :=
  match map JS.trim (JS.split ":" line) with
  | prop :: val :: _ =>
      if JS.truthy prop && JS.truthy val
      then assign (camelCase prop) val styles
      else styles
  | _ => styles
  end.

Definition parseInlineCSS (inlineCSS : string) (styles : gmap string string)
    : gmap string string :=
  if JS.truthy inlineCSS then
    let cssLines := JS.filterBoolean (JS.split ";" inlineCSS) in
    fold_left parseLine cssLines styles
  else styles.

Definition useGeneratedStyles (state : InspectorState) : gmap string string :=
  let styles : gmap string string := ∅ in
  let styles :=
    setIf (JS.truthy (Typography.textColor (typography state)))
          "color" (Typography.textColor (typography state)) styles in
  let styles :=
    setIf (JS.truthy (Appearance.backgroundColor (appearance state)))
          "backgroundColor" (Appearance.backgroundColor (appearance state))
          styles in
  let styles :=
    setIf (JS.truthy (Border.color (border state)))
          "borderColor" (Border.color (border state)) styles in
  let t3 := transforms3D state in
  let transforms3D :=
    pushIf (negb (Transforms3D.rotateX t3 =? 0))
           ("rotateX(" +:+ JS.numberToString (Transforms3D.rotateX t3)
            +:+ "deg)")
    ++ pushIf (negb (Transforms3D.rotateY t3 =? 0))
           ("rotateY(" +:+ JS.numberToString (Transforms3D.rotateY t3)
            +:+ "deg)")
    ++ pushIf (negb (Transforms3D.rotateZ t3 =? 0))
           ("rotateZ(" +:+ JS.numberToString (Transforms3D.rotateZ t3)
            +:+ "deg)")
  in
  let styles :=
    setIf (0 <? length transforms3D)%nat
          "transform" (JS.join " " transforms3D) styles in
  let styles :=
    setIf (0 <? Transforms3D.perspective t3)
          "perspective"
          (JS.numberToString (Transforms3D.perspective t3 * 100) +:+ "px")
          styles in
  let styles :=
    setIf (isNot (Appearance.blendMode (appearance state)) "normal")
          "mixBlendMode" (Appearance.blendMode (appearance state)) styles in
  let styles :=
    setIf (JS.truthy (Appearance.backgroundImage (appearance state)))
          "backgroundImage"
          ("url(" +:+ Appearance.backgroundImage (appearance state) +:+ ")")
          styles in
  parseInlineCSS (inlineCSS state) styles.

(** ** Tailwind helpers *)

Definition spacingTokens : list string :=
  ["0"; "1"; "2"; "3"; "4"; "6"; "8"; "10"; "12"; "14"; "16"; "20"; "24";
   "28"; "32"; "36"; "40"; "44"; "48"; "52"; "56"; "60"; "64"; "72"; "80";
   "96"].

(** [/^\d+$/.test(s)] *)
Fixpoint allDigits (s : string) : bool :=
  match s with
  | EmptyString => true
  | String c s' => JS.is_digit c && allDigits s'
  end.

Definition isDigits (s : string) : bool := JS.truthy s && allDigits s.

(** The helper that hooks.ts keeps next to the class generator. *)
Definition getTailwindClass (property value : string)
    (breakpoint : Breakpoint) : string :=
  let prefix := breakpointPrefix breakpoint in
  if negb (JS.truthy value) || String.eqb value "0" then ""
  else
    let numValue := normalizeNumericValue (JString value) in
    if JS.startsWith property "position-" || JS.startsWith property "size-"
    then prefix +:+ property +:+ "-[" +:+ numValue +:+ "px]"
    else if JS.startsWith property "p-" || JS.startsWith property "m-"
    then
      if isDigits numValue && JS.arrayIncludes spacingTokens numValue
      then prefix +:+ property +:+ "-" +:+ numValue
      else prefix +:+ property +:+ "-[" +:+ numValue +:+ "px]"
    else prefix +:+ property +:+ "-" +:+ value.

(** utils/tailwindUtils.ts *)
Module TailwindUtils.

Definition opacityTokens : list string :=
  ["0"; "5"; "10"; "20"; "25"; "30"; "40"; "50"; "60"; "70"; "75"; "80";
   "90"; "95"; "100"].

Definition isTailwindToken (property value : string) : bool :=
  let numValue := normalizeNumericValue (JString value) in
  if JS.startsWith property "opacity-"
  then JS.arrayIncludes opacityTokens numValue
  else if JS.startsWith property "p-" || JS.startsWith property "m-"
          || JS.startsWith property "gap-"
  then JS.arrayIncludes spacingTokens numValue
  else false.

Section GetTailwindClass.
(** [(Number(numValue) / 100).toFixed(2)] is floating-point arithmetic and
    printing; the helper is embedded for any rendering of it. *)
Variable hundredthToFixed2 : string -> string.

Definition getTailwindClass (property : string) (value : jsvalue)
    (breakpoint : Breakpoint) : string :=
  if falsy value
     || match value with JString v => String.eqb v "0" | _ => false end
  then ""
  else
    let prefix := breakpointPrefix breakpoint in
    let numValue := normalizeNumericValue (JString (toString value)) in
    if JS.startsWith property "p-" || JS.startsWith property "m-" then
      if isTailwindToken property numValue
      then prefix +:+ property +:+ "-" +:+ numValue
      else prefix +:+ property +:+ "-[" +:+ numValue +:+ "px]"
    else if JS.startsWith property "gap-" then
      if isTailwindToken "gap-" numValue
      then prefix +:+ property +:+ "-" +:+ numValue
      else prefix +:+ property +:+ "-[" +:+ numValue +:+ "px]"
    else if JS.startsWith property "opacity-" then
      if isTailwindToken property numValue
      then prefix +:+ property +:+ "-" +:+ numValue
      else prefix +:+ property +:+ "-[" +:+ hundredthToFixed2 numValue +:+ "]"
    else if JS.startsWith property "left-" || JS.startsWith property "top-"
            || JS.startsWith property "right-"
            || JS.startsWith property "bottom-"
            || JS.startsWith property "w-" || JS.startsWith property "h-"
            || JS.startsWith property "max-w-"
            || JS.startsWith property "max-h-"
            || JS.startsWith property "min-w-"
            || JS.startsWith property "min-h-"
    then prefix +:+ property +:+ "-[" +:+ numValue +:+ "px]"
    else prefix +:+ property.
End GetTailwindClass.

End TailwindUtils.

(** ** A sample state *)

(** constants.ts ([DEFAULT_INSPECTOR_STATE]) is not among the sources. This
    state holds, in every field, the value that the generators' guards treat
    as nothing to emit; it only serves as a concrete input. *)
Definition neutralState : InspectorState :=
  {| padding := Padding.mk "" "" "" "";
     margin := Margin.mk "" "";
     position := Position.mk "static" "" "" "" "" "";
     size := Size.mk "" "" "" "" "" "";
     typography := Typography.mk "inter" "normal" "" "normal" "" "left" "";
     transforms := Transforms.mk 0 100 0 0 0 0;
     transforms3D := Transforms3D.mk 0 0 0 0;
     effects := Effects.mk 100 0 0 0 100 100 100 0 0 0 "none";
     border := Border.mk "" "solid" "" (Radius.mk 0 0 0 0 0);
     appearance := Appearance.mk "" "" "normal";
     tag := "div"; elementId := ""; textContent := ""; link := "";
     inlineCSS := ""; tailwindClasses := [] |}.

Definition withMargin (m : Margin.full) (s : InspectorState)
    : InspectorState :=
  {| padding := padding s; margin := m; position := position s;
     size := size s; typography := typography s; transforms := transforms s;
     transforms3D := transforms3D s; effects := effects s;
     border := border s; appearance := appearance s; tag := tag s;
     elementId := elementId s; textContent := textContent s; link := link s;
     inlineCSS := inlineCSS s; tailwindClasses := tailwindClasses s |}.

Definition withPosition (p : Position.full) (s : InspectorState)
    : InspectorState :=
  {| padding := padding s; margin := margin s; position := p;
     size := size s; typography := typography s; transforms := transforms s;
     transforms3D := transforms3D s; effects := effects s;
     border := border s; appearance := appearance s; tag := tag s;
     elementId := elementId s; textContent := textContent s; link := link s;
     inlineCSS := inlineCSS s; tailwindClasses := tailwindClasses s |}.

Definition withSize (z : Size.full) (s : InspectorState) : InspectorState :=
  {| padding := padding s; margin := margin s; position := position s;
     size := z; typography := typography s; transforms := transforms s;
     transforms3D := transforms3D s; effects := effects s;
     border := border s; appearance := appearance s; tag := tag s;
     elementId := elementId s; textContent := textContent s; link := link s;
     inlineCSS := inlineCSS s; tailwindClasses := tailwindClasses s |}.

Definition withEffects (e : Effects.full) (s : InspectorState)
    : InspectorState :=
  {| padding := padding s; margin := margin s; position := position s;
     size := size s; typography := typography s; transforms := transforms s;
     transforms3D := transforms3D s; effects := e;
     border := border s; appearance := appearance s; tag := tag s;
     elementId := elementId s; textContent := textContent s; link := link s;
     inlineCSS := inlineCSS s; tailwindClasses := tailwindClasses s |}.

Definition withInlineCSS (css : string) (s : InspectorState)
    : InspectorState :=
  {| padding := padding s; margin := margin s; position := position s;
     size := size s; typography := typography s; transforms := transforms s;
     transforms3D := transforms3D s; effects := effects s;
     border := border s; appearance := appearance s; tag := tag s;
     elementId := elementId s; textContent := textContent s; link := link s;
     inlineCSS := css; tailwindClasses := tailwindClasses s |}.

Definition noOverrides : BreakpointStates :=
  mkBreakpointStates emptyOverrides emptyOverrides emptyOverrides
                     emptyOverrides emptyOverrides emptyOverrides.

(** [{ ...s, padding: p }] and its siblings. *)
Definition withPadding (p : Padding.full) (s : InspectorState)
    : InspectorState :=
  {| padding := p; margin := margin s; position := position s;
     size := size s; typography := typography s; transforms := transforms s;
     transforms3D := transforms3D s; effects := effects s;
     border := border s; appearance := appearance s; tag := tag s;
     elementId := elementId s; textContent := textContent s; link := link s;
     inlineCSS := inlineCSS s; tailwindClasses := tailwindClasses s |}.

(** ** The contracts in the specification's words *)

(** The longest run of digits that starts a string, and what follows it. *)
Fixpoint digitSpan (s : string) : string * string :=
  match s with
  | String c s' =>
      if JS.is_digit c
      then let '(d, rest) := digitSpan s' in (String c d, rest)
      else (EmptyString, s)
  | EmptyString => (EmptyString, EmptyString)
  end.

(** [s] as a whole is an optionally signed decimal literal,
    [[-]?[0-9]*[.]?[0-9]+]. *)
Definition isNumericLiteral (s : string) : bool :=
  let unsigned :=
    match s with
    | String c s' => if Ascii.eqb c "-"%char then s' else s
    | EmptyString => s
    end in
  let '(whole, rest) := digitSpan unsigned in
  match rest with
  | EmptyString => JS.truthy whole
  | String c fraction =>
      Ascii.eqb c "."%char && isDigits fraction
  end.

(** The longest prefix of [s] that satisfies [P], if any prefix does. *)
Fixpoint longestPrefix (P : string -> bool) (s : string) : option string :=
  match s with
  | EmptyString => if P EmptyString then Some EmptyString else None
  | String c s' =>
      match longestPrefix (fun t => P (String c t)) s' with
      | Some t => Some (String c t)
      | None => if P EmptyString then Some EmptyString else None
      end
  end.

(** Section 4.1 as worded: the longest prefix of the trimmed string form
    that is a numeric literal; a string without one comes back unchanged,
    an absent value gives the empty string. *)
Definition normalizeAsSpecified (value : jsvalue) : string :=
  match longestPrefix isNumericLiteral (JS.trim (toString value)) with
  | Some literal => literal
  | None => match value with JString s => s | _ => "" end
  end.

(** [/\s+/]-free reading of a class string: its tokens between spaces. *)
Definition tokensOf (classString : string) : list string :=
  JS.filterBoolean (JS.split " " classString).

(** Section 4.5 as worded: every breakpoint that is [base] or has overrides
    contributes the Class Generator's whole output for its effective state;
    the outputs are concatenated, deduplicated (first occurrence wins) and
    joined with single spaces. *)
Definition generateAllClassesAsSpecified
    (breakpointStates : BreakpointStates)
    (getEffectiveState : Breakpoint -> InspectorState) : string :=
  let all :=
    flat_map (fun bp =>
      if isBase bp || (0 <? keyCount (bucket breakpointStates bp))%nat
      then tokensOf (useGeneratedClasses (getEffectiveState bp) bp)
      else []) breakpoints in
  JS.join " " (JS.setSpread all).

(** The override bucket [{ padding: { l: v } }]. *)
Definition overridePaddingL (v : string) : PartialState :=
  mkPartialState (Some (Padding.mkPartial (Some v) None None None))
                 None None None None None None None None None
                 None None None None None None.

(** The class list of a state apart from the token of [position.type]. *)
Definition classesBesidePositionType (prefix : string)
    (state : InspectorState) : list string :=
  paddingClasses prefix state ++ marginClasses prefix state
  ++ positionOffsetClasses prefix state ++ sizeClasses prefix state
  ++ typographyClasses prefix state ++ transformsClasses prefix state
  ++ effectsClasses prefix state ++ borderClasses prefix state
  ++ tailwindClasses state.

(** The class list of a state apart from the token of [effects.opacity]. *)
Definition classesBesideOpacity (prefix : string)
    (state : InspectorState) : list string :=
  paddingClasses prefix state ++ marginClasses prefix state
  ++ positionClasses prefix state ++ sizeClasses prefix state
  ++ typographyClasses prefix state ++ transformsClasses prefix state
  ++ filterClasses prefix state ++ borderClasses prefix state
  ++ tailwindClasses state.

(** ** The class generator field by field *)

(** The fields that [useGeneratedClasses] reads, one for each of its
    [classes.push] statements, in the order of the statements. *)
Inductive Field : Type :=
  | PaddingL | PaddingT | PaddingR | PaddingB
  | MarginX | MarginY
  | PositionType | PositionZIndex
  | PositionL | PositionT | PositionR | PositionB
  | SizeWidth | SizeHeight | SizeMaxWidth | SizeMaxHeight
  | SizeMinWidth | SizeMinHeight
  | FontFamily | FontWeight | FontSize | LetterSpacing | LineHeight
  | TextAlign
  | Rotate | Scale | TranslateX | TranslateY | SkewX | SkewY
  | Opacity | Blur | BackdropBlur | HueRotate | Saturation | Brightness
  | Contrast | Grayscale | Invert | Sepia | Shadow
  | RadiusAll | BorderWidth | BorderStyle.

Definition classFields : list Field :=
  [PaddingL; PaddingT; PaddingR; PaddingB; MarginX; MarginY;
   PositionType; PositionZIndex; PositionL; PositionT; PositionR; PositionB;
   SizeWidth; SizeHeight; SizeMaxWidth; SizeMaxHeight; SizeMinWidth;
   SizeMinHeight;
   FontFamily; FontWeight; FontSize; LetterSpacing; LineHeight; TextAlign;
   Rotate; Scale; TranslateX; TranslateY; SkewX; SkewY;
   Opacity; Blur; BackdropBlur; HueRotate; Saturation; Brightness; Contrast;
   Grayscale; Invert; Sepia; Shadow;
   RadiusAll; BorderWidth; BorderStyle].

(** The position of a field in [classFields]. *)
Definition fieldIndex (f : Field) : nat :=
  match f with
  | PaddingL => 0 | PaddingT => 1 | PaddingR => 2 | PaddingB => 3
  | MarginX => 4 | MarginY => 5
  | PositionType => 6 | PositionZIndex => 7
  | PositionL => 8 | PositionT => 9 | PositionR => 10 | PositionB => 11
  | SizeWidth => 12 | SizeHeight => 13 | SizeMaxWidth => 14
  | SizeMaxHeight => 15 | SizeMinWidth => 16 | SizeMinHeight => 17
  | FontFamily => 18 | FontWeight => 19 | FontSize => 20
  | LetterSpacing => 21 | LineHeight => 22 | TextAlign => 23
  | Rotate => 24 | Scale => 25 | TranslateX => 26 | TranslateY => 27
  | SkewX => 28 | SkewY => 29
  | Opacity => 30 | Blur => 31 | BackdropBlur => 32 | HueRotate => 33
  | Saturation => 34 | Brightness => 35 | Contrast => 36
  | Grayscale => 37 | Invert => 38 | Sepia => 39 | Shadow => 40
  | RadiusAll => 41 | BorderWidth => 42 | BorderStyle => 43
  end%nat.

Definition sameField (f g : Field) : bool :=
  (fieldIndex f =? fieldIndex g)%nat.

(** What the state holds in a field. *)
Definition fieldValue (f : Field) (state : InspectorState) : jsvalue :=
  match f with
  | PaddingL => JString (Padding.l (padding state))
  | PaddingT => JString (Padding.t (padding state))
  | PaddingR => JString (Padding.r (padding state))
  | PaddingB => JString (Padding.b (padding state))
  | MarginX => JString (Margin.x (margin state))
  | MarginY => JString (Margin.y (margin state))
  | PositionType => JString (Position.type (position state))
  | PositionZIndex => JString (Position.zIndex (position state))
  | PositionL => JString (Position.l (position state))
  | PositionT => JString (Position.t (position state))
  | PositionR => JString (Position.r (position state))
  | PositionB => JString (Position.b (position state))
  | SizeWidth => JString (Size.width (size state))
  | SizeHeight => JString (Size.height (size state))
  | SizeMaxWidth => JString (Size.maxWidth (size state))
  | SizeMaxHeight => JString (Size.maxHeight (size state))
  | SizeMinWidth => JString (Size.minWidth (size state))
  | SizeMinHeight => JString (Size.minHeight (size state))
  | FontFamily => JString (Typography.fontFamily (typography state))
  | FontWeight => JString (Typography.fontWeight (typography state))
  | FontSize => JString (Typography.fontSize (typography state))
  | LetterSpacing => JString (Typography.letterSpacing (typography state))
  | LineHeight => JString (Typography.lineHeight (typography state))
  | TextAlign => JString (Typography.textAlign (typography state))
  | Rotate => JNumber (Transforms.rotate (transforms state))
  | Scale => JNumber (Transforms.scale (transforms state))
  | TranslateX => JNumber (Transforms.translateX (transforms state))
  | TranslateY => JNumber (Transforms.translateY (transforms state))
  | SkewX => JNumber (Transforms.skewX (transforms state))
  | SkewY => JNumber (Transforms.skewY (transforms state))
  | Opacity => JNumber (Effects.opacity (effects state))
  | Blur => JNumber (Effects.blur (effects state))
  | BackdropBlur => JNumber (Effects.backdropBlur (effects state))
  | HueRotate => JNumber (Effects.hueRotate (effects state))
  | Saturation => JNumber (Effects.saturation (effects state))
  | Brightness => JNumber (Effects.brightness (effects state))
  | Contrast => JNumber (Effects.contrast (effects state))
  | Grayscale => JNumber (Effects.grayscale (effects state))
  | Invert => JNumber (Effects.invert (effects state))
  | Sepia => JNumber (Effects.sepia (effects state))
  | Shadow => JString (Effects.shadow (effects state))
  | RadiusAll => JNumber (Radius.all (Border.radius (border state)))
  | BorderWidth => JString (Border.width (border state))
  | BorderStyle => JString (Border.style (border state))
  end.

(** The statement of [useGeneratedClasses] that reads the field: the tokens
    it pushes, none or one. *)
Definition fieldClass (prefix : string) (state : InspectorState) (f : Field)
    : list string :=
  match f with
  | PaddingL =>
      let paddingL :=
        normalizeNumericValue (JString (Padding.l (padding state))) in
      pushIf (JS.truthy paddingL && isNot paddingL "0")
             (prefix +:+ "pl-[" +:+ paddingL +:+ "px]")
  | PaddingT =>
      let paddingT :=
        normalizeNumericValue (JString (Padding.t (padding state))) in
      pushIf (JS.truthy paddingT && isNot paddingT "0")
             (prefix +:+ "pt-[" +:+ paddingT +:+ "px]")
  | PaddingR =>
      let paddingR :=
        normalizeNumericValue (JString (Padding.r (padding state))) in
      pushIf (JS.truthy paddingR && isNot paddingR "0")
             (prefix +:+ "pr-[" +:+ paddingR +:+ "px]")
  | PaddingB =>
      let paddingB :=
        normalizeNumericValue (JString (Padding.b (padding state))) in
      pushIf (JS.truthy paddingB && isNot paddingB "0")
             (prefix +:+ "pb-[" +:+ paddingB +:+ "px]")
  | MarginX =>
      let marginX :=
        normalizeNumericValue (JString (Margin.x (margin state))) in
      pushIf (JS.truthy marginX && isNot marginX "0")
             (prefix +:+ "mx-[" +:+ marginX +:+ "px]")
  | MarginY =>
      let marginY :=
        normalizeNumericValue (JString (Margin.y (margin state))) in
      pushIf (JS.truthy marginY && isNot marginY "0")
             (prefix +:+ "my-[" +:+ marginY +:+ "px]")
  | PositionType =>
      let p := position state in
      pushIf (isNot (Position.type p) "static") (prefix +:+ Position.type p)
  | PositionZIndex =>
      let p := position state in
      pushIf (JS.truthy (Position.zIndex p))
             (prefix +:+ "z-["
              +:+ normalizeNumericValue (JString (Position.zIndex p)) +:+ "]")
  | PositionL =>
      let p := position state in
      pushIf (JS.truthy (Position.l p))
             (prefix +:+ "left-["
              +:+ normalizeNumericValue (JString (Position.l p)) +:+ "px]")
  | PositionT =>
      let p := position state in
      pushIf (JS.truthy (Position.t p))
             (prefix +:+ "top-["
              +:+ normalizeNumericValue (JString (Position.t p)) +:+ "px]")
  | PositionR =>
      let p := position state in
      pushIf (JS.truthy (Position.r p))
             (prefix +:+ "right-["
              +:+ normalizeNumericValue (JString (Position.r p)) +:+ "px]")
  | PositionB =>
      let p := position state in
      pushIf (JS.truthy (Position.b p))
             (prefix +:+ "bottom-["
              +:+ normalizeNumericValue (JString (Position.b p)) +:+ "px]")
  | SizeWidth =>
      let s := size state in
      pushIf (JS.truthy (Size.width s))
             (prefix +:+ "w-[" +:+ Size.width s +:+ "]")
  | SizeHeight =>
      let s := size state in
      pushIf (JS.truthy (Size.height s))
             (prefix +:+ "h-[" +:+ Size.height s +:+ "]")
  | SizeMaxWidth =>
      let s := size state in
      pushIf (JS.truthy (Size.maxWidth s))
             (prefix +:+ "max-w-[" +:+ Size.maxWidth s +:+ "]")
  | SizeMaxHeight =>
      let s := size state in
      pushIf (JS.truthy (Size.maxHeight s))
             (prefix +:+ "max-h-[" +:+ Size.maxHeight s +:+ "]")
  | SizeMinWidth =>
      let s := size state in
      pushIf (JS.truthy (Size.minWidth s))
             (prefix +:+ "min-w-[" +:+ Size.minWidth s +:+ "]")
  | SizeMinHeight =>
      let s := size state in
      pushIf (JS.truthy (Size.minHeight s))
             (prefix +:+ "min-h-[" +:+ Size.minHeight s +:+ "]")
  | FontFamily =>
      let t := typography state in
      pushIf (isNot (Typography.fontFamily t) "inter")
             (prefix +:+ "font-" +:+ Typography.fontFamily t)
  | FontWeight =>
      let t := typography state in
      pushIf (isNot (Typography.fontWeight t) "normal")
             (prefix +:+ "font-" +:+ Typography.fontWeight t)
  | FontSize =>
      let t := typography state in
      pushIf (JS.truthy (Typography.fontSize t))
             (prefix +:+ "text-[" +:+ Typography.fontSize t +:+ "]")
  | LetterSpacing =>
      let t := typography state in
      pushIf (isNot (Typography.letterSpacing t) "normal")
             (prefix +:+ "tracking-" +:+ Typography.letterSpacing t)
  | LineHeight =>
      let t := typography state in
      pushIf (JS.truthy (Typography.lineHeight t))
             (prefix +:+ "leading-[" +:+ Typography.lineHeight t +:+ "]")
  | TextAlign =>
      let t := typography state in
      pushIf (isNot (Typography.textAlign t) "left")
             (prefix +:+ "text-" +:+ Typography.textAlign t)
  | Rotate =>
      let t := transforms state in
      pushIf (negb (Transforms.rotate t =? 0))
             (prefix +:+ "rotate-["
              +:+ JS.numberToString (Transforms.rotate t) +:+ "deg]")
  | Scale =>
      let t := transforms state in
      pushIf (negb (Transforms.scale t =? 100))
             (prefix +:+ "scale-["
              +:+ JS.hundredthsToString (Transforms.scale t) +:+ "]")
  | TranslateX =>
      let t := transforms state in
      pushIf (negb (Transforms.translateX t =? 0))
             (prefix +:+ "translate-x-["
              +:+ JS.numberToString (Transforms.translateX t) +:+ "px]")
  | TranslateY =>
      let t := transforms state in
      pushIf (negb (Transforms.translateY t =? 0))
             (prefix +:+ "translate-y-["
              +:+ JS.numberToString (Transforms.translateY t) +:+ "px]")
  | SkewX =>
      let t := transforms state in
      pushIf (negb (Transforms.skewX t =? 0))
             (prefix +:+ "skew-x-["
              +:+ JS.numberToString (Transforms.skewX t) +:+ "deg]")
  | SkewY =>
      let t := transforms state in
      pushIf (negb (Transforms.skewY t =? 0))
             (prefix +:+ "skew-y-["
              +:+ JS.numberToString (Transforms.skewY t) +:+ "deg]")
  | Opacity =>
      let e := effects state in
      pushIf (negb (Effects.opacity e =? 100))
             (prefix +:+ "opacity-["
              +:+ JS.hundredthsToString (Effects.opacity e) +:+ "]")
  | Blur =>
      let e := effects state in
      pushIf (0 <? Effects.blur e)
             (prefix +:+ "blur-["
              +:+ JS.numberToString (Effects.blur e) +:+ "px]")
  | BackdropBlur =>
      let e := effects state in
      pushIf (0 <? Effects.backdropBlur e)
             (prefix +:+ "backdrop-blur-["
              +:+ JS.numberToString (Effects.backdropBlur e) +:+ "px]")
  | HueRotate =>
      let e := effects state in
      pushIf (negb (Effects.hueRotate e =? 0))
             (prefix +:+ "hue-rotate-["
              +:+ JS.numberToString (Effects.hueRotate e) +:+ "deg]")
  | Saturation =>
      let e := effects state in
      pushIf (negb (Effects.saturation e =? 100))
             (prefix +:+ "saturate-["
              +:+ JS.hundredthsToString (Effects.saturation e) +:+ "]")
  | Brightness =>
      let e := effects state in
      pushIf (negb (Effects.brightness e =? 100))
             (prefix +:+ "brightness-["
              +:+ JS.hundredthsToString (Effects.brightness e) +:+ "]")
  | Contrast =>
      let e := effects state in
      pushIf (negb (Effects.contrast e =? 100))
             (prefix +:+ "contrast-["
              +:+ JS.hundredthsToString (Effects.contrast e) +:+ "]")
  | Grayscale =>
      let e := effects state in
      pushIf (0 <? Effects.grayscale e)
             (prefix +:+ "grayscale-["
              +:+ JS.hundredthsToString (Effects.grayscale e) +:+ "]")
  | Invert =>
      let e := effects state in
      pushIf (0 <? Effects.invert e)
             (prefix +:+ "invert-["
              +:+ JS.hundredthsToString (Effects.invert e) +:+ "]")
  | Sepia =>
      let e := effects state in
      pushIf (0 <? Effects.sepia e)
             (prefix +:+ "sepia-["
              +:+ JS.hundredthsToString (Effects.sepia e) +:+ "]")
  | Shadow =>
      let e := effects state in
      pushIf (isNot (Effects.shadow e) "none")
             (prefix +:+ "shadow-" +:+ Effects.shadow e)
  | RadiusAll =>
      let b := border state in
      pushIf (0 <? Radius.all (Border.radius b))
             (prefix +:+ "rounded-["
              +:+ JS.numberToString (Radius.all (Border.radius b)) +:+ "px]")
  | BorderWidth =>
      let b := border state in
      pushIf (JS.truthy (Border.width b) && isNot (Border.width b) "0")
             (prefix +:+ "border-["
              +:+ normalizeNumericValue (JString (Border.width b)) +:+ "px]")
  | BorderStyle =>
      let b := border state in
      pushIf (isNot (Border.style b) "solid" && isNot (Border.style b) "none")
             (prefix +:+ "border-" +:+ Border.style b)
  end.

(** The values of a field for which its statement pushes nothing: the value
    that the guard of the statement compares with, the empty string where
    the guard is a truthiness test, and zero where it is [> 0]. *)
Definition neutralDefaults (f : Field) : list jsvalue :=
  match f with
  | PaddingL | PaddingT | PaddingR | PaddingB | MarginX | MarginY
  | BorderWidth => [JString ""; JString "0"]
  | PositionType => [JString "static"]
  | PositionZIndex | PositionL | PositionT | PositionR | PositionB
  | SizeWidth | SizeHeight | SizeMaxWidth | SizeMaxHeight
  | SizeMinWidth | SizeMinHeight | FontSize | LineHeight => [JString ""]
  | FontFamily => [JString "inter"]
  | FontWeight | LetterSpacing => [JString "normal"]
  | TextAlign => [JString "left"]
  | Rotate | TranslateX | TranslateY | SkewX | SkewY | HueRotate
  | Blur | BackdropBlur | Grayscale | Invert | Sepia | RadiusAll =>
      [JNumber 0]
  | Scale | Opacity | Saturation | Brightness | Contrast => [JNumber 100]
  | Shadow => [JString "none"]
  | BorderStyle => [JString "solid"; JString "none"]
  end.

(** The fields guarded by truthiness alone: the string ['0'] is truthy, so
    for these a stored zero is emitted. *)
Definition emittedAtZero : list Field :=
  [PositionZIndex; PositionL; PositionT; PositionR; PositionB;
   SizeWidth; SizeHeight; SizeMaxWidth; SizeMaxHeight; SizeMinWidth;
   SizeMinHeight; FontSize; LineHeight].

(** The token of such a field at the stored value ['0'], without the
    breakpoint prefix. *)
Definition zeroToken (f : Field) : string :=
  match f with
  | PositionZIndex => "z-[0]"
  | PositionL => "left-[0px]"
  | PositionT => "top-[0px]"
  | PositionR => "right-[0px]"
  | PositionB => "bottom-[0px]"
  | SizeWidth => "w-[0]"
  | SizeHeight => "h-[0]"
  | SizeMaxWidth => "max-w-[0]"
  | SizeMaxHeight => "max-h-[0]"
  | SizeMinWidth => "min-w-[0]"
  | SizeMinHeight => "min-h-[0]"
  | FontSize => "text-[0]"
  | LineHeight => "leading-[0]"
  | _ => ""
  end.




(** ** The style generator property by property *)

(** The properties that [useGeneratedStyles] derives from the state. *)
Inductive StyleProperty : Type :=
  | SColor | SBackgroundColor | SBorderColor | STransform | SPerspective
  | SMixBlendMode | SBackgroundImage.

Definition propertyKey (p : StyleProperty) : string :=
  match p with
  | SColor => "color"
  | SBackgroundColor => "backgroundColor"
  | SBorderColor => "borderColor"
  | STransform => "transform"
  | SPerspective => "perspective"
  | SMixBlendMode => "mixBlendMode"
  | SBackgroundImage => "backgroundImage"
  end.

(** The fields a property is derived from hold the values that its guard
    skips. *)
Definition propertyNeutral (p : StyleProperty) (state : InspectorState)
    : Prop :=
  match p with
  | SColor => Typography.textColor (typography state) = ""
  | SBackgroundColor => Appearance.backgroundColor (appearance state) = ""
  | SBorderColor => Border.color (border state) = ""
  | STransform =>
      Transforms3D.rotateX (transforms3D state) = 0
      /\ Transforms3D.rotateY (transforms3D state) = 0
      /\ Transforms3D.rotateZ (transforms3D state) = 0
  | SPerspective => Transforms3D.perspective (transforms3D state) = 0
  | SMixBlendMode => Appearance.blendMode (appearance state) = "normal"
  | SBackgroundImage => Appearance.backgroundImage (appearance state) = ""
  end.

(** What the style generator reads from the state. *)
Definition styleInputs (state : InspectorState)
    : string * Appearance.full * string * Transforms3D.full * string :=
  (Typography.textColor (typography state), appearance state,
   Border.color (border state), transforms3D state, inlineCSS state).


(** ** State store: [updateState] and the resets *)

(** [keyof InspectorState] *)
Inductive Key : Type :=
  | KPadding | KMargin | KPosition | KSize
  | KTypography | KTransforms | KTransforms3D | KEffects
  | KBorder | KAppearance | KTag | KElementId
  | KTextContent | KLink | KInlineCSS | KTailwindClasses.

#[global] Instance Key_eq_dec : EqDecision Key.
Proof. solve_decision. Defined.

(** [InspectorState[K]] *)
Definition valueOf (key : Key) : Type :=
  match key with
  | KPadding => Padding.full
  | KMargin => Margin.full
  | KPosition => Position.full
  | KSize => Size.full
  | KTypography => Typography.full
  | KTransforms => Transforms.full
  | KTransforms3D => Transforms3D.full
  | KEffects => Effects.full
  | KBorder => Border.full
  | KAppearance => Appearance.full
  | KTag | KElementId | KTextContent | KLink | KInlineCSS => string
  | KTailwindClasses => list string
  end.

(** [state[key]] *)
Definition readKey (key : Key) (s : InspectorState) : valueOf key :=
  match key with
  | KPadding => padding s
  | KMargin => margin s
  | KPosition => position s
  | KSize => size s
  | KTypography => typography s
  | KTransforms => transforms s
  | KTransforms3D => transforms3D s
  | KEffects => effects s
  | KBorder => border s
  | KAppearance => appearance s
  | KTag => tag s
  | KElementId => elementId s
  | KTextContent => textContent s
  | KLink => link s
  | KInlineCSS => inlineCSS s
  | KTailwindClasses => tailwindClasses s
  end.

(** [{ ...prev, [key]: value }] on a full state. *)
Definition writeKey (key : Key) (value : valueOf key) (prev : InspectorState)
    : InspectorState :=
  match key return valueOf key -> InspectorState with
  | KPadding => fun v =>
      {| padding := v; margin := margin prev; position := position prev;
         size := size prev; typography := typography prev;
         transforms := transforms prev; transforms3D := transforms3D prev;
         effects := effects prev; border := border prev;
         appearance := appearance prev; tag := tag prev;
         elementId := elementId prev; textContent := textContent prev;
         link := link prev; inlineCSS := inlineCSS prev;
         tailwindClasses := tailwindClasses prev |}
  | KMargin => fun v =>
      {| padding := padding prev; margin := v; position := position prev;
         size := size prev; typography := typography prev;
         transforms := transforms prev; transforms3D := transforms3D prev;
         effects := effects prev; border := border prev;
         appearance := appearance prev; tag := tag prev;
         elementId := elementId prev; textContent := textContent prev;
         link := link prev; inlineCSS := inlineCSS prev;
         tailwindClasses := tailwindClasses prev |}
  | KPosition => fun v =>
      {| padding := padding prev; margin := margin prev; position := v;
         size := size prev; typography := typography prev;
         transforms := transforms prev; transforms3D := transforms3D prev;
         effects := effects prev; border := border prev;
         appearance := appearance prev; tag := tag prev;
         elementId := elementId prev; textContent := textContent prev;
         link := link prev; inlineCSS := inlineCSS prev;
         tailwindClasses := tailwindClasses prev |}
  | KSize => fun v =>
      {| padding := padding prev; margin := margin prev;
         position := position prev; size := v; typography := typography prev;
         transforms := transforms prev; transforms3D := transforms3D prev;
         effects := effects prev; border := border prev;
         appearance := appearance prev; tag := tag prev;
         elementId := elementId prev; textContent := textContent prev;
         link := link prev; inlineCSS := inlineCSS prev;
         tailwindClasses := tailwindClasses prev |}
  | KTypography => fun v =>
      {| padding := padding prev; margin := margin prev;
         position := position prev; size := size prev; typography := v;
         transforms := transforms prev; transforms3D := transforms3D prev;
         effects := effects prev; border := border prev;
         appearance := appearance prev; tag := tag prev;
         elementId := elementId prev; textContent := textContent prev;
         link := link prev; inlineCSS := inlineCSS prev;
         tailwindClasses := tailwindClasses prev |}
  | KTransforms => fun v =>
      {| padding := padding prev; margin := margin prev;
         position := position prev; size := size prev;
         typography := typography prev; transforms := v;
         transforms3D := transforms3D prev; effects := effects prev;
         border := border prev; appearance := appearance prev;
         tag := tag prev; elementId := elementId prev;
         textContent := textContent prev; link := link prev;
         inlineCSS := inlineCSS prev;
         tailwindClasses := tailwindClasses prev |}
  | KTransforms3D => fun v =>
      {| padding := padding prev; margin := margin prev;
         position := position prev; size := size prev;
         typography := typography prev; transforms := transforms prev;
         transforms3D := v; effects := effects prev; border := border prev;
         appearance := appearance prev; tag := tag prev;
         elementId := elementId prev; textContent := textContent prev;
         link := link prev; inlineCSS := inlineCSS prev;
         tailwindClasses := tailwindClasses prev |}
  | KEffects => fun v =>
      {| padding := padding prev; margin := margin prev;
         position := position prev; size := size prev;
         typography := typography prev; transforms := transforms prev;
         transforms3D := transforms3D prev; effects := v;
         border := border prev; appearance := appearance prev;
         tag := tag prev; elementId := elementId prev;
         textContent := textContent prev; link := link prev;
         inlineCSS := inlineCSS prev;
         tailwindClasses := tailwindClasses prev |}
  | KBorder => fun v =>
      {| padding := padding prev; margin := margin prev;
         position := position prev; size := size prev;
         typography := typography prev; transforms := transforms prev;
         transforms3D := transforms3D prev; effects := effects prev;
         border := v; appearance := appearance prev; tag := tag prev;
         elementId := elementId prev; textContent := textContent prev;
         link := link prev; inlineCSS := inlineCSS prev;
         tailwindClasses := tailwindClasses prev |}
  | KAppearance => fun v =>
      {| padding := padding prev; margin := margin prev;
         position := position prev; size := size prev;
         typography := typography prev; transforms := transforms prev;
         transforms3D := transforms3D prev; effects := effects prev;
         border := border prev; appearance := v; tag := tag prev;
         elementId := elementId prev; textContent := textContent prev;
         link := link prev; inlineCSS := inlineCSS prev;
         tailwindClasses := tailwindClasses prev |}
  | KTag => fun v =>
      {| padding := padding prev; margin := margin prev;
         position := position prev; size := size prev;
         typography := typography prev; transforms := transforms prev;
         transforms3D := transforms3D prev; effects := effects prev;
         border := border prev; appearance := appearance prev; tag := v;
         elementId := elementId prev; textContent := textContent prev;
         link := link prev; inlineCSS := inlineCSS prev;
         tailwindClasses := tailwindClasses prev |}
  | KElementId => fun v =>
      {| padding := padding prev; margin := margin prev;
         position := position prev; size := size prev;
         typography := typography prev; transforms := transforms prev;
         transforms3D := transforms3D prev; effects := effects prev;
         border := border prev; appearance := appearance prev;
         tag := tag prev; elementId := v; textContent := textContent prev;
         link := link prev; inlineCSS := inlineCSS prev;
         tailwindClasses := tailwindClasses prev |}
  | KTextContent => fun v =>
      {| padding := padding prev; margin := margin prev;
         position := position prev; size := size prev;
         typography := typography prev; transforms := transforms prev;
         transforms3D := transforms3D prev; effects := effects prev;
         border := border prev; appearance := appearance prev;
         tag := tag prev; elementId := elementId prev; textContent := v;
         link := link prev; inlineCSS := inlineCSS prev;
         tailwindClasses := tailwindClasses prev |}
  | KLink => fun v =>
      {| padding := padding prev; margin := margin prev;
         position := position prev; size := size prev;
         typography := typography prev; transforms := transforms prev;
         transforms3D := transforms3D prev; effects := effects prev;
         border := border prev; appearance := appearance prev;
         tag := tag prev; elementId := elementId prev;
         textContent := textContent prev; link := v;
         inlineCSS := inlineCSS prev;
         tailwindClasses := tailwindClasses prev |}
  | KInlineCSS => fun v =>
      {| padding := padding prev; margin := margin prev;
         position := position prev; size := size prev;
         typography := typography prev; transforms := transforms prev;
         transforms3D := transforms3D prev; effects := effects prev;
         border := border prev; appearance := appearance prev;
         tag := tag prev; elementId := elementId prev;
         textContent := textContent prev; link := link prev; inlineCSS := v;
         tailwindClasses := tailwindClasses prev |}
  | KTailwindClasses => fun v =>
      {| padding := padding prev; margin := margin prev;
         position := position prev; size := size prev;
         typography := typography prev; transforms := transforms prev;
         transforms3D := transforms3D prev; effects := effects prev;
         border := border prev; appearance := appearance prev;
         tag := tag prev; elementId := elementId prev;
         textContent := textContent prev; link := link prev;
         inlineCSS := inlineCSS prev; tailwindClasses := v |}
  end value.

(** A full group seen as an override: every key present. *)
Definition paddingOverride (g : Padding.full) : Padding.partial :=
  Padding.mkPartial (Some (Padding.l g)) (Some (Padding.t g))
    (Some (Padding.r g)) (Some (Padding.b g)).

Definition marginOverride (g : Margin.full) : Margin.partial :=
  Margin.mkPartial (Some (Margin.x g)) (Some (Margin.y g)).

Definition positionOverride (g : Position.full) : Position.partial :=
  Position.mkPartial (Some (Position.type g)) (Some (Position.zIndex g))
    (Some (Position.l g)) (Some (Position.t g)) (Some (Position.r g))
    (Some (Position.b g)).

Definition sizeOverride (g : Size.full) : Size.partial :=
  Size.mkPartial (Some (Size.width g)) (Some (Size.height g))
    (Some (Size.maxWidth g)) (Some (Size.maxHeight g))
    (Some (Size.minWidth g)) (Some (Size.minHeight g)).

Definition typographyOverride (g : Typography.full) : Typography.partial :=
  Typography.mkPartial (Some (Typography.fontFamily g))
    (Some (Typography.fontWeight g)) (Some (Typography.fontSize g))
    (Some (Typography.letterSpacing g)) (Some (Typography.lineHeight g))
    (Some (Typography.textAlign g)) (Some (Typography.textColor g)).

Definition transformsOverride (g : Transforms.full) : Transforms.partial :=
  Transforms.mkPartial (Some (Transforms.rotate g))
    (Some (Transforms.scale g)) (Some (Transforms.translateX g))
    (Some (Transforms.translateY g)) (Some (Transforms.skewX g))
    (Some (Transforms.skewY g)).

Definition transforms3DOverride (g : Transforms3D.full) : Transforms3D.partial :=
  Transforms3D.mkPartial (Some (Transforms3D.rotateX g))
    (Some (Transforms3D.rotateY g)) (Some (Transforms3D.rotateZ g))
    (Some (Transforms3D.perspective g)).

Definition effectsOverride (g : Effects.full) : Effects.partial :=
  Effects.mkPartial (Some (Effects.opacity g)) (Some (Effects.blur g))
    (Some (Effects.backdropBlur g)) (Some (Effects.hueRotate g))
    (Some (Effects.saturation g)) (Some (Effects.brightness g))
    (Some (Effects.contrast g)) (Some (Effects.grayscale g))
    (Some (Effects.invert g)) (Some (Effects.sepia g))
    (Some (Effects.shadow g)).

Definition appearanceOverride (g : Appearance.full) : Appearance.partial :=
  Appearance.mkPartial (Some (Appearance.backgroundColor g))
    (Some (Appearance.backgroundImage g)) (Some (Appearance.blendMode g)).

Definition radiusOverride (g : Radius.full) : Radius.partial :=
  Radius.mkPartial (Some (Radius.all g)) (Some (Radius.tl g))
    (Some (Radius.tr g)) (Some (Radius.br g)) (Some (Radius.bl g)).

Definition borderOverride (g : Border.full) : Border.partial :=
  Border.mkPartial (Some (Border.width g)) (Some (Border.style g))
    (Some (Border.color g)) (Some (radiusOverride (Border.radius g))).

(** [{ ...prev[bp], [key]: value }] on an override bucket. *)
Definition writeOverride (key : Key) (value : valueOf key)
    (prev : PartialState) : PartialState :=
  match key return valueOf key -> PartialState with
  | KPadding => fun v =>
      {| padding' := Some (paddingOverride v); margin' := margin' prev;
         position' := position' prev; size' := size' prev;
         typography' := typography' prev; transforms' := transforms' prev;
         transforms3D' := transforms3D' prev; effects' := effects' prev;
         border' := border' prev; appearance' := appearance' prev;
         tag' := tag' prev; elementId' := elementId' prev;
         textContent' := textContent' prev; link' := link' prev;
         inlineCSS' := inlineCSS' prev;
         tailwindClasses' := tailwindClasses' prev |}
  | KMargin => fun v =>
      {| padding' := padding' prev; margin' := Some (marginOverride v);
         position' := position' prev; size' := size' prev;
         typography' := typography' prev; transforms' := transforms' prev;
         transforms3D' := transforms3D' prev; effects' := effects' prev;
         border' := border' prev; appearance' := appearance' prev;
         tag' := tag' prev; elementId' := elementId' prev;
         textContent' := textContent' prev; link' := link' prev;
         inlineCSS' := inlineCSS' prev;
         tailwindClasses' := tailwindClasses' prev |}
  | KPosition => fun v =>
      {| padding' := padding' prev; margin' := margin' prev;
         position' := Some (positionOverride v); size' := size' prev;
         typography' := typography' prev; transforms' := transforms' prev;
         transforms3D' := transforms3D' prev; effects' := effects' prev;
         border' := border' prev; appearance' := appearance' prev;
         tag' := tag' prev; elementId' := elementId' prev;
         textContent' := textContent' prev; link' := link' prev;
         inlineCSS' := inlineCSS' prev;
         tailwindClasses' := tailwindClasses' prev |}
  | KSize => fun v =>
      {| padding' := padding' prev; margin' := margin' prev;
         position' := position' prev; size' := Some (sizeOverride v);
         typography' := typography' prev; transforms' := transforms' prev;
         transforms3D' := transforms3D' prev; effects' := effects' prev;
         border' := border' prev; appearance' := appearance' prev;
         tag' := tag' prev; elementId' := elementId' prev;
         textContent' := textContent' prev; link' := link' prev;
         inlineCSS' := inlineCSS' prev;
         tailwindClasses' := tailwindClasses' prev |}
  | KTypography => fun v =>
      {| padding' := padding' prev; margin' := margin' prev;
         position' := position' prev; size' := size' prev;
         typography' := Some (typographyOverride v);
         transforms' := transforms' prev;
         transforms3D' := transforms3D' prev; effects' := effects' prev;
         border' := border' prev; appearance' := appearance' prev;
         tag' := tag' prev; elementId' := elementId' prev;
         textContent' := textContent' prev; link' := link' prev;
         inlineCSS' := inlineCSS' prev;
         tailwindClasses' := tailwindClasses' prev |}
  | KTransforms => fun v =>
      {| padding' := padding' prev; margin' := margin' prev;
         position' := position' prev; size' := size' prev;
         typography' := typography' prev;
         transforms' := Some (transformsOverride v);
         transforms3D' := transforms3D' prev; effects' := effects' prev;
         border' := border' prev; appearance' := appearance' prev;
         tag' := tag' prev; elementId' := elementId' prev;
         textContent' := textContent' prev; link' := link' prev;
         inlineCSS' := inlineCSS' prev;
         tailwindClasses' := tailwindClasses' prev |}
  | KTransforms3D => fun v =>
      {| padding' := padding' prev; margin' := margin' prev;
         position' := position' prev; size' := size' prev;
         typography' := typography' prev; transforms' := transforms' prev;
         transforms3D' := Some (transforms3DOverride v);
         effects' := effects' prev; border' := border' prev;
         appearance' := appearance' prev; tag' := tag' prev;
         elementId' := elementId' prev; textContent' := textContent' prev;
         link' := link' prev; inlineCSS' := inlineCSS' prev;
         tailwindClasses' := tailwindClasses' prev |}
  | KEffects => fun v =>
      {| padding' := padding' prev; margin' := margin' prev;
         position' := position' prev; size' := size' prev;
         typography' := typography' prev; transforms' := transforms' prev;
         transforms3D' := transforms3D' prev;
         effects' := Some (effectsOverride v); border' := border' prev;
         appearance' := appearance' prev; tag' := tag' prev;
         elementId' := elementId' prev; textContent' := textContent' prev;
         link' := link' prev; inlineCSS' := inlineCSS' prev;
         tailwindClasses' := tailwindClasses' prev |}
  | KBorder => fun v =>
      {| padding' := padding' prev; margin' := margin' prev;
         position' := position' prev; size' := size' prev;
         typography' := typography' prev; transforms' := transforms' prev;
         transforms3D' := transforms3D' prev; effects' := effects' prev;
         border' := Some (borderOverride v); appearance' := appearance' prev;
         tag' := tag' prev; elementId' := elementId' prev;
         textContent' := textContent' prev; link' := link' prev;
         inlineCSS' := inlineCSS' prev;
         tailwindClasses' := tailwindClasses' prev |}
  | KAppearance => fun v =>
      {| padding' := padding' prev; margin' := margin' prev;
         position' := position' prev; size' := size' prev;
         typography' := typography' prev; transforms' := transforms' prev;
         transforms3D' := transforms3D' prev; effects' := effects' prev;
         border' := border' prev; appearance' := Some (appearanceOverride v);
         tag' := tag' prev; elementId' := elementId' prev;
         textContent' := textContent' prev; link' := link' prev;
         inlineCSS' := inlineCSS' prev;
         tailwindClasses' := tailwindClasses' prev |}
  | KTag => fun v =>
      {| padding' := padding' prev; margin' := margin' prev;
         position' := position' prev; size' := size' prev;
         typography' := typography' prev; transforms' := transforms' prev;
         transforms3D' := transforms3D' prev; effects' := effects' prev;
         border' := border' prev; appearance' := appearance' prev;
         tag' := Some v; elementId' := elementId' prev;
         textContent' := textContent' prev; link' := link' prev;
         inlineCSS' := inlineCSS' prev;
         tailwindClasses' := tailwindClasses' prev |}
  | KElementId => fun v =>
      {| padding' := padding' prev; margin' := margin' prev;
         position' := position' prev; size' := size' prev;
         typography' := typography' prev; transforms' := transforms' prev;
         transforms3D' := transforms3D' prev; effects' := effects' prev;
         border' := border' prev; appearance' := appearance' prev;
         tag' := tag' prev; elementId' := Some v;
         textContent' := textContent' prev; link' := link' prev;
         inlineCSS' := inlineCSS' prev;
         tailwindClasses' := tailwindClasses' prev |}
  | KTextContent => fun v =>
      {| padding' := padding' prev; margin' := margin' prev;
         position' := position' prev; size' := size' prev;
         typography' := typography' prev; transforms' := transforms' prev;
         transforms3D' := transforms3D' prev; effects' := effects' prev;
         border' := border' prev; appearance' := appearance' prev;
         tag' := tag' prev; elementId' := elementId' prev;
         textContent' := Some v; link' := link' prev;
         inlineCSS' := inlineCSS' prev;
         tailwindClasses' := tailwindClasses' prev |}
  | KLink => fun v =>
      {| padding' := padding' prev; margin' := margin' prev;
         position' := position' prev; size' := size' prev;
         typography' := typography' prev; transforms' := transforms' prev;
         transforms3D' := transforms3D' prev; effects' := effects' prev;
         border' := border' prev; appearance' := appearance' prev;
         tag' := tag' prev; elementId' := elementId' prev;
         textContent' := textContent' prev; link' := Some v;
         inlineCSS' := inlineCSS' prev;
         tailwindClasses' := tailwindClasses' prev |}
  | KInlineCSS => fun v =>
      {| padding' := padding' prev; margin' := margin' prev;
         position' := position' prev; size' := size' prev;
         typography' := typography' prev; transforms' := transforms' prev;
         transforms3D' := transforms3D' prev; effects' := effects' prev;
         border' := border' prev; appearance' := appearance' prev;
         tag' := tag' prev; elementId' := elementId' prev;
         textContent' := textContent' prev; link' := link' prev;
         inlineCSS' := Some v; tailwindClasses' := tailwindClasses' prev |}
  | KTailwindClasses => fun v =>
      {| padding' := padding' prev; margin' := margin' prev;
         position' := position' prev; size' := size' prev;
         typography' := typography' prev; transforms' := transforms' prev;
         transforms3D' := transforms3D' prev; effects' := effects' prev;
         border' := border' prev; appearance' := appearance' prev;
         tag' := tag' prev; elementId' := elementId' prev;
         textContent' := textContent' prev; link' := link' prev;
         inlineCSS' := inlineCSS' prev; tailwindClasses' := Some v |}
  end value.

(** [breakpoint || currentBreakpoint] *)
Definition targetBreakpoint (breakpoint : option Breakpoint) (st : Store)
    : Breakpoint :=
  match breakpoint with Some bp => bp | None => currentBreakpoint st end.

Definition updateState (key : Key) (value : valueOf key)
    (breakpoint : option Breakpoint) (st : Store) : Store :=
  let bp := targetBreakpoint breakpoint st in
  if isBase bp then
    {| state := writeKey key value (state st);
       breakpointStates := breakpointStates st;
       currentBreakpoint := currentBreakpoint st |}
  else
    {| state := state st;
       breakpointStates :=
         setBucket (breakpointStates st) bp
           (writeOverride key value (bucket (breakpointStates st) bp));
       currentBreakpoint := currentBreakpoint st |}.

(** [setCurrentBreakpoint] *)
Definition setCurrentBreakpoint (bp : Breakpoint) (st : Store) : Store :=
  {| state := state st; breakpointStates := breakpointStates st;
     currentBreakpoint := bp |}.

Section Resets.
(** constants.ts is not among the sources: the default state is a parameter
    of the resets. *)
Variable DEFAULT_INSPECTOR_STATE : InspectorState.

Definition resetState (st : Store) : Store :=
  {| state := DEFAULT_INSPECTOR_STATE;
     breakpointStates := noOverrides;
     currentBreakpoint := currentBreakpoint st |}.

Definition resetTransforms (st : Store) : Store :=
  {| state :=
       writeKey KTransforms3D (transforms3D DEFAULT_INSPECTOR_STATE)
         (writeKey KTransforms (transforms DEFAULT_INSPECTOR_STATE)
            (state st));
     breakpointStates := breakpointStates st;
     currentBreakpoint := currentBreakpoint st |}.

Definition resetEffects (st : Store) : Store :=
  {| state := writeKey KEffects (effects DEFAULT_INSPECTOR_STATE) (state st);
     breakpointStates := breakpointStates st;
     currentBreakpoint := currentBreakpoint st |}.
End Resets.

(** ** The aggregator's array before de-duplication *)

(** [allClasses] when [useAllBreakpointClasses] reaches its [return]. *)
Definition aggregatedTokens (breakpointStates : BreakpointStates)
    (getEffectiveState : Breakpoint -> InspectorState) : list string :=
  flat_map (fun bp =>
    if isBase bp || (0 <? keyCount (bucket breakpointStates bp))%nat
    then
      let effectiveState := getEffectiveState bp in
      let prefix := breakpointPrefix bp in
      let l := Padding.l (padding effectiveState) in
      pushIf (JS.truthy l && isNot l "0") (prefix +:+ "pl-" +:+ l)
    else []) breakpoints.

(** The tokens of the class generator that come from the state's fields,
    before the user's classes are appended. *)
Definition generatedTokens (prefix : string) (state : InspectorState)
    : list string :=
  paddingClasses prefix state ++ marginClasses prefix state
  ++ positionClasses prefix state ++ sizeClasses prefix state
  ++ typographyClasses prefix state ++ transformsClasses prefix state
  ++ effectsClasses prefix state ++ borderClasses prefix state.

(** ** HTML code generation: [useGeneratedCode] *)

(** The characters that a string literal of this file cannot hold. *)
Definition doubleQuote : string := String (ascii_of_nat 34) EmptyString.
Definition newline : string := String (ascii_of_nat 10) EmptyString.

Definition is_upper (c : ascii) : bool :=
  let n := nat_of_ascii c in (65 <=? n)%nat && (n <=? 90)%nat.

(** The code units below 256 that [toLowerCase] changes: A-Z and the
    capital letters of Latin-1 (U+00C0-U+00D6, U+00D8-U+00DE). *)
Definition toLower (c : ascii) : ascii :=
  let n := nat_of_ascii c in
  if ((65 <=? n)%nat && (n <=? 90)%nat)
     || ((192 <=? n)%nat && (n <=? 214)%nat)
     || ((216 <=? n)%nat && (n <=? 222)%nat)
  then ascii_of_nat (n + 32) else c.

(** [s.toLowerCase()] *)
Fixpoint toLowerCase (s : string) : string :=
  match s with
  | String c s' => String (toLower c) (toLowerCase s')
  | EmptyString => EmptyString
  end.

(** [k.replace(/([A-Z])/g, '-$1')] *)
Fixpoint hyphenateCapitals (s : string) : string :=
  match s with
  | String c s' =>
      if is_upper c then String "-" (String c (hyphenateCapitals s'))
      else String c (hyphenateCapitals s')
  | EmptyString => EmptyString
  end.

(** [k.replace(/([A-Z])/g, '-$1').toLowerCase()] *)
Definition kebabCase (k : string) : string :=
  toLowerCase (hyphenateCapitals k).

(** [generatedStyles] is given by its entries, in the key order of the
    object ([Object.entries]). *)
Definition useGeneratedCode (state : InspectorState)
    (generatedClasses : string) (generatedStyles : list (string * string))
    : string :=
  let idAttr :=
    if JS.truthy (elementId state)
    then " id=" +:+ doubleQuote +:+ elementId state +:+ doubleQuote
    else "" in
  let classAttr :=
    if JS.truthy generatedClasses
    then " class=" +:+ doubleQuote +:+ generatedClasses +:+ doubleQuote
    else "" in
  let styleStr :=
    JS.join "; "
      (map (fun '(k, v) => kebabCase k +:+ ": " +:+ v) generatedStyles) in
  let styleAttr :=
    if JS.truthy styleStr
    then " style=" +:+ doubleQuote +:+ styleStr +:+ doubleQuote
    else "" in
  let hrefAttr :=
    if JS.truthy (link state)
       && (String.eqb (tag state) "a" || String.eqb (tag state) "button")
    then " href=" +:+ doubleQuote +:+ link state +:+ doubleQuote
    else "" in
  "<" +:+ tag state +:+ idAttr +:+ classAttr +:+ styleAttr +:+ hrefAttr
  +:+ ">" +:+ newline +:+ "  " +:+ textContent state +:+ newline
  +:+ "</" +:+ tag state +:+ ">".

(** ** Tailwind helpers: formatting, merging, validation *)

(** [s.split(/\s+/)]: the pieces between the maximal runs of white space,
    with an empty piece before a leading run and after a trailing one.
    [inRun] tells that the previous character was white space. *)
Fixpoint splitSpacesFrom (inRun : bool) (s : string) : list string :=
  match s with
  | EmptyString => [EmptyString]
  | String c s' =>
      if JS.is_space c then
        if inRun then splitSpacesFrom true s'
        else EmptyString :: splitSpacesFrom true s'
      else
        match splitSpacesFrom false s' with
        | piece :: rest => String c piece :: rest
        | [] => [String c EmptyString]
        end
  end.

Definition splitSpaces (s : string) : list string := splitSpacesFrom false s.

(** One turn of the loop [if (!seen.has(cls)) { seen.add(cls);
    unique.push(cls) }] on the pair of [seen] and [unique]. *)
Definition rememberClass (acc : list string * list string) (cls : string)
    : list string * list string :=
  let '(seen, unique) := acc in
  if JS.arrayIncludes seen cls then (seen, unique)
  else (cls :: seen, unique ++ [cls]).

Definition formatTailwindClasses (classes : string) : string :=
  if negb (JS.truthy classes) || String.eqb (JS.trim classes) "" then ""
  else
    let classArray := JS.filterBoolean (splitSpaces (JS.trim classes)) in
    let unique := snd (fold_left rememberClass classArray ([], [])) in
    JS.join " " unique.

(** [(string | undefined | null)[]]: [None] stands for [undefined] and
    [null]. *)
Definition mergeClasses (classStrings : list (option string)) : string :=
  JS.join " "
    (map JS.trim
       (flat_map (fun o =>
                    match o with
                    | Some str => if JS.truthy str then [str] else []
                    | None => []
                    end) classStrings)).

(** The character class [[a-zA-Z0-9-_:[\]/]]. *)
Definition isClassChar (c : ascii) : bool :=
  JS.is_lower c || is_upper c || JS.is_digit c
  || Ascii.eqb c "-" || Ascii.eqb c "_" || Ascii.eqb c ":"
  || Ascii.eqb c "[" || Ascii.eqb c "]" || Ascii.eqb c "/".

(** [/^[a-zA-Z0-9-_:[\]/]+$/.test(cls)] *)
Fixpoint allClassChars (cls : string) : bool :=
  match cls with
  | String c s => isClassChar c && allClassChars s
  | EmptyString => true
  end.

Definition isClassName (cls : string) : bool :=
  JS.truthy cls && allClassChars cls.

(** [(cls.match(re) || []).length] for a one-character pattern. *)
Fixpoint countChar (c : ascii) (s : string) : nat :=
  match s with
  | String d s' => ((if Ascii.eqb d c then 1 else 0) + countChar c s')%nat
  | EmptyString => 0%nat
  end.

Record Validation : Type := mkValidation {
  valid : bool;
  errors : list string
}.

(** The errors one class adds. *)
Definition classErrors (cls : string) : list string :=
  if negb (JS.truthy cls) then []
  else
    pushIf (negb (isClassName cls))
      ("Invalid characters in class: " +:+ doubleQuote +:+ cls
       +:+ doubleQuote)
    ++ pushIf (negb (countChar "[" cls =? countChar "]" cls)%nat)
      ("Mismatched brackets in class: " +:+ doubleQuote +:+ cls
       +:+ doubleQuote).

Definition validateTailwindClass (className : string) : Validation :=
  if negb (JS.truthy className) || String.eqb (JS.trim className) ""
  then mkValidation true []
  else
    let classes := splitSpaces (JS.trim className) in
    let errors := flat_map classErrors classes in
    mkValidation (length errors =? 0)%nat errors.

(** The class names of a class string: its pieces between white space. *)
Definition classTokens (s : string) : list string :=
  JS.filterBoolean (splitSpaces s).

(** No character of the string is white space. *)
Fixpoint spaceFree (s : string) : bool :=
  match s with
  | String c s' => negb (JS.is_space c) && spaceFree s'
  | EmptyString => true
  end.

(** Every character of the string is white space. *)
Fixpoint allSpaces (s : string) : bool :=
  match s with
  | String c s' => JS.is_space c && allSpaces s'
  | EmptyString => true
  end.

(** A class name: not empty, no white space. *)
Definition cleanToken (t : string) : Prop :=
  JS.truthy t = true /\ spaceFree t = true.

(** A class name passes both tests of the validator. *)
Definition classPasses (cls : string) : Prop :=
  allClassChars cls = true
  /\ countChar "[" cls = countChar "]" cls.

(** ** The hook's untyped code: objects as key-value lists *)

(** [deepMerge], [applyStateChanges], [updateNestedState] and
    [updateDeepNestedState] inspect their arguments with [typeof] and
    [Array.isArray] and take any string as a nested key, so they are embedded
    over untyped values. An object is the list of its own entries in the
    order in which JavaScript lists them: the keys that are array indices
    first, in ascending order, then the other keys in the order of their
    creation. Numbers are whole numbers and there are no booleans, as in the
    state. The objects are plain data, as the state and its changes are: an
    entry under the key ['__proto__'], which an assignment would turn into a
    change of prototype, is outside the model ([plainKeys]). *)
Module Dynamic.

#[local] Unset Elimination Schemes.
Inductive value : Type :=
  | VUndefined
  | VNull
  | VString (s : string)
  | VNumber (n : Z)
  | VArray (items : list value)
  | VObject (fields : list (string * value)).
#[local] Set Elimination Schemes.

Definition Fields : Type := list (string * value).

(** [o[key]], [None] for a key the object does not have. *)
Fixpoint objGet (key : string) (o : Fields) : option value :=
  match o with
  | [] => None
  | (k, v) :: rest => if String.eqb key k then Some v else objGet key rest
  end.

(** [key in o], for own properties. *)
Definition hasKey (key : string) (o : Fields) : bool :=
  match objGet key o with Some _ => true | None => false end.

(** The array index that a property key stands for, if any: the key is the
    canonical decimal string of a whole number from 0 to 2^32 - 2. *)
Definition arrayIndex (key : string) : option Z :=
  match NilZero.int_of_string key with
  | Some d =>
      let n := Z.of_int d in
      if String.eqb (JS.numberToString n) key
         && (0 <=? n) && (n <=? 4294967294)
      then Some n else None
  | None => None
  end.

(** An existing property keeps its place when it gets a new value. *)
Fixpoint replaceValue (key : string) (v : value) (o : Fields) : Fields :=
  match o with
  | [] => []
  | (k, w) :: rest =>
      if String.eqb key k then (k, v) :: rest
      else (k, w) :: replaceValue key v rest
  end.

(** A new property whose key is the array index [i] is listed after the
    smaller indices and before everything else. *)
Fixpoint insertIndex (i : Z) (key : string) (v : value) (o : Fields)
    : Fields :=
  match o with
  | [] => [(key, v)]
  | (k, w) :: rest =>
      match arrayIndex k with
      | Some j =>
          if j <? i then (k, w) :: insertIndex i key v rest
          else (key, v) :: o
      | None => (key, v) :: o
      end
  end.

(** [o[key] = v] on a copy, and [{ ...o, [key]: v }]: an existing property
    is given the value where it stands; a new property is listed among the
    array indices when its key is one, and last otherwise. *)
Definition objSet (key : string) (v : value) (o : Fields) : Fields :=
  if hasKey key o then replaceValue key v o
  else
    match arrayIndex key with
    | Some i => insertIndex i key v o
    | None => o ++ [(key, v)]
    end.

(** [Object.keys(o)] *)
Definition keys (o : Fields) : list string := map fst o.

(** The keys [ks] are in the order in which JavaScript lists them: array
    indices above [lo] in ascending order, then keys that are no indices. *)
Fixpoint ascendingFrom (lo : Z) (ks : list string) : bool :=
  match ks with
  | [] => true
  | k :: rest =>
      match arrayIndex k with
      | Some i => (lo <? i) && ascendingFrom i rest
      | None =>
          forallb (fun k' => match arrayIndex k' with
                             | Some _ => false
                             | None => true
                             end) rest
      end
  end.

Definition ownKeyOrder (o : Fields) : bool := ascendingFrom (-1) (keys o).

(** No object inside [v], at any depth, has an entry under ['__proto__']. *)
Fixpoint plainKeys (v : value) : bool :=
  match v with
  | VObject fields =>
      forallb (fun entry =>
                 negb (String.eqb (fst entry) "__proto__")
                 && plainKeys (snd entry)) fields
  | VArray items => forallb plainKeys items
  | _ => true
  end.

(** [deepMerge(target, source)] with [source] given as a value, so that the
    recursion goes down the source. *)
Fixpoint deepMergeInto (target : Fields) (source : value) : Fields :=
  match source with
  | VObject sourceFields =>
      fold_left
        (fun result entry =>
           match entry with
           | (key, sourceValue) =>
               match sourceValue, objGet key target with
               | VObject _, Some (VObject targetFields) =>
                   objSet key
                     (VObject (deepMergeInto targetFields sourceValue)) result
               | VUndefined, _ => result
               | _, _ => objSet key sourceValue result
               end
           end)
        sourceFields target
  | _ => target
  end.

Definition deepMerge (target source : Fields) : Fields :=
  deepMergeInto target (VObject source).

(** The body of the loop of [applyStateChanges]. *)
Definition applyChange (prev newState : Fields) (entry : string * value)
    : Fields :=
  let '(key, v) := entry in
  match v with
  | VUndefined | VNull => newState
  | VObject changed =>
      match objGet key prev with
      | Some (VObject prevValue) =>
          objSet key (VObject (deepMerge prevValue changed)) newState
      | _ => objSet key v newState
      end
  | _ => objSet key v newState
  end.

(** The function that [applyStateChanges] hands to [setState]. *)
Definition applyStateChanges (changes prev : Fields) : Fields :=
  fold_left (applyChange prev) changes prev.

(** [String(i)] for an array index. *)
Definition indexKey (i : nat) : string := JS.numberToString (Z.of_nat i).

(** The entries of an array, as a spread into an object sees them. *)
Fixpoint indexed (i : nat) (items : list value) : Fields :=
  match items with
  | [] => []
  | v :: rest => (indexKey i, v) :: indexed (S i) rest
  end.

(** [{ ...v }] for a value with [typeof v === 'object' && v !== null], and
    [{}] for any other value. *)
Definition spreadOrEmpty (v : option value) : Fields :=
  match v with
  | Some (VObject fields) => fields
  | Some (VArray items) => indexed 0 items
  | _ => []
  end.

Record Store : Type := mkStore {
  state : Fields;
  breakpointStates : Breakpoint -> Fields;
  currentBreakpoint : Breakpoint
}.

(** [{ ...prev, [bp]: o }] *)
Definition setBucket (prev : Breakpoint -> Fields) (bp : Breakpoint)
    (o : Fields) : Breakpoint -> Fields :=
  fun b => if decide (b = bp) then o else prev b.

Definition updateNestedState (key nestedKey : string) (v : value)
    (breakpoint : option Breakpoint) (st : Store) : Store :=
  let bp :=
    match breakpoint with Some b => b | None => currentBreakpoint st end in
  if isBase bp then
    match objGet key (state st) with
    | Some (VObject currentValue) =>
        mkStore
          (objSet key (VObject (objSet nestedKey v currentValue)) (state st))
          (breakpointStates st) (currentBreakpoint st)
    | _ => st
    end
  else
    let currentBpState := breakpointStates st bp in
    let existingValue := objGet key currentBpState in
    let currentValue := spreadOrEmpty existingValue in
    mkStore (state st)
      (setBucket (breakpointStates st) bp
         (objSet key (VObject (objSet nestedKey v currentValue))
            currentBpState))
      (currentBreakpoint st).

End Dynamic.

(** What one entry of the source does to the result of [deepMerge]. *)
Definition mergeEntry (target result : Dynamic.Fields)
    (entry : string * Dynamic.value) : Dynamic.Fields :=
  match entry with
  | (key, sourceValue) =>
      match sourceValue, Dynamic.objGet key target with
      | Dynamic.VObject sourceFields, Some (Dynamic.VObject targetFields) =>
          Dynamic.objSet key
            (Dynamic.VObject (Dynamic.deepMerge targetFields sourceFields))
            result
      | Dynamic.VUndefined, _ => result
      | _, _ => Dynamic.objSet key sourceValue result
      end
  end.

(** The value a source entry leaves under its key. *)
Definition mergedValue (old : option Dynamic.value)
    (targetValue : option Dynamic.value) (sourceValue : Dynamic.value)
    : option Dynamic.value :=
  match sourceValue, targetValue with
  | Dynamic.VObject sourceFields, Some (Dynamic.VObject targetFields) =>
      Some (Dynamic.VObject (Dynamic.deepMerge targetFields sourceFields))
  | Dynamic.VUndefined, _ => old
  | _, _ => Some sourceValue
  end.

(** ** CSS export: [useExportCSS] *)

(** The array [lines] when the hook reaches its [return]. *)
Definition exportLines (state : InspectorState) : list string :=
  let selector :=
    if JS.truthy (elementId state) then "#" +:+ elementId state
    else ".element" in
  let p := position state in
  let pad := padding state in
  let paddingT :=
    if JS.truthy (Padding.t pad)
    then normalizeNumericValue (JString (Padding.t pad)) else "0" in
  let paddingR :=
    if JS.truthy (Padding.r pad)
    then normalizeNumericValue (JString (Padding.r pad)) else "0" in
  let paddingB :=
    if JS.truthy (Padding.b pad)
    then normalizeNumericValue (JString (Padding.b pad)) else "0" in
  let paddingL :=
    if JS.truthy (Padding.l pad)
    then normalizeNumericValue (JString (Padding.l pad)) else "0" in
  let padding :=
    paddingT +:+ "px " +:+ paddingR +:+ "px " +:+ paddingB +:+ "px "
    +:+ paddingL +:+ "px" in
  let marginY :=
    if JS.truthy (Margin.y (margin state))
    then normalizeNumericValue (JString (Margin.y (margin state)))
    else "0" in
  let marginX :=
    if JS.truthy (Margin.x (margin state))
    then normalizeNumericValue (JString (Margin.x (margin state)))
    else "0" in
  let ty := typography state in
  let bd := border state in
  let t := transforms state in
  let t3 := transforms3D state in
  let e := effects state in
  let transforms :=
    pushIf (negb (Transforms.translateX t =? 0))
      ("translateX(" +:+ JS.numberToString (Transforms.translateX t)
       +:+ "px)")
    ++ pushIf (negb (Transforms.translateY t =? 0))
      ("translateY(" +:+ JS.numberToString (Transforms.translateY t)
       +:+ "px)")
    ++ pushIf (negb (Transforms.rotate t =? 0))
      ("rotate(" +:+ JS.numberToString (Transforms.rotate t) +:+ "deg)")
    ++ pushIf (negb (Transforms.scale t =? 100))
      ("scale(" +:+ JS.hundredthsToString (Transforms.scale t) +:+ ")")
    ++ pushIf (negb (Transforms.skewX t =? 0))
      ("skewX(" +:+ JS.numberToString (Transforms.skewX t) +:+ "deg)")
    ++ pushIf (negb (Transforms.skewY t =? 0))
      ("skewY(" +:+ JS.numberToString (Transforms.skewY t) +:+ "deg)")
    ++ pushIf (negb (Transforms3D.rotateX t3 =? 0))
      ("rotateX(" +:+ JS.numberToString (Transforms3D.rotateX t3)
       +:+ "deg)")
    ++ pushIf (negb (Transforms3D.rotateY t3 =? 0))
      ("rotateY(" +:+ JS.numberToString (Transforms3D.rotateY t3)
       +:+ "deg)")
    ++ pushIf (negb (Transforms3D.rotateZ t3 =? 0))
      ("rotateZ(" +:+ JS.numberToString (Transforms3D.rotateZ t3)
       +:+ "deg)") in
  let filters :=
    pushIf (0 <? Effects.blur e)
      ("blur(" +:+ JS.numberToString (Effects.blur e) +:+ "px)")
    ++ pushIf (negb (Effects.brightness e =? 100))
      ("brightness(" +:+ JS.hundredthsToString (Effects.brightness e)
       +:+ ")")
    ++ pushIf (negb (Effects.saturation e =? 100))
      ("saturate(" +:+ JS.hundredthsToString (Effects.saturation e)
       +:+ ")")
    ++ pushIf (negb (Effects.contrast e =? 100))
      ("contrast(" +:+ JS.hundredthsToString (Effects.contrast e) +:+ ")")
    ++ pushIf (negb (Effects.hueRotate e =? 0))
      ("hue-rotate(" +:+ JS.numberToString (Effects.hueRotate e)
       +:+ "deg)")
    ++ pushIf (0 <? Effects.grayscale e)
      ("grayscale(" +:+ JS.hundredthsToString (Effects.grayscale e)
       +:+ ")")
    ++ pushIf (0 <? Effects.invert e)
      ("invert(" +:+ JS.hundredthsToString (Effects.invert e) +:+ ")")
    ++ pushIf (0 <? Effects.sepia e)
      ("sepia(" +:+ JS.hundredthsToString (Effects.sepia e) +:+ ")") in
  [selector +:+ " {"]
  ++ pushIf (isNot (Position.type p) "static")
       ("  position: " +:+ Position.type p +:+ ";")
  ++ pushIf (JS.truthy (Position.l p)) ("  left: " +:+ Position.l p +:+ ";")
  ++ pushIf (JS.truthy (Position.t p)) ("  top: " +:+ Position.t p +:+ ";")
  ++ pushIf (JS.truthy (Position.r p))
       ("  right: " +:+ Position.r p +:+ ";")
  ++ pushIf (JS.truthy (Position.b p))
       ("  bottom: " +:+ Position.b p +:+ ";")
  ++ pushIf (JS.truthy (Position.zIndex p))
       ("  z-index: " +:+ Position.zIndex p +:+ ";")
  ++ pushIf (JS.truthy (Size.width (size state)))
       ("  width: " +:+ Size.width (size state) +:+ ";")
  ++ pushIf (JS.truthy (Size.height (size state)))
       ("  height: " +:+ Size.height (size state) +:+ ";")
  ++ pushIf (isNot padding "0px 0px 0px 0px")
       ("  padding: " +:+ padding +:+ ";")
  ++ pushIf (isNot (Margin.x (margin state)) "0"
             || isNot (Margin.y (margin state)) "0")
       ("  margin: " +:+ marginY +:+ "px " +:+ marginX +:+ "px;")
  ++ pushIf (JS.truthy (Typography.fontSize ty))
       ("  font-size: " +:+ Typography.fontSize ty +:+ ";")
  ++ pushIf (isNot (Typography.fontWeight ty) "normal")
       ("  font-weight: " +:+ Typography.fontWeight ty +:+ ";")
  ++ pushIf (JS.truthy (Typography.textColor ty))
       ("  color: " +:+ Typography.textColor ty +:+ ";")
  ++ pushIf (isNot (Typography.textAlign ty) "left")
       ("  text-align: " +:+ Typography.textAlign ty +:+ ";")
  ++ pushIf (JS.truthy (Appearance.backgroundColor (appearance state)))
       ("  background-color: "
        +:+ Appearance.backgroundColor (appearance state) +:+ ";")
  ++ pushIf (0 <? Radius.all (Border.radius bd))
       ("  border-radius: "
        +:+ JS.numberToString (Radius.all (Border.radius bd)) +:+ "px;")
  ++ pushIf (JS.truthy (Border.color bd) && isNot (Border.width bd) "0")
       ("  border: " +:+ Border.width bd +:+ "px " +:+ Border.style bd
        +:+ " " +:+ Border.color bd +:+ ";")
  ++ pushIf (0 <? length transforms)%nat
       ("  transform: " +:+ JS.join " " transforms +:+ ";")
  ++ pushIf (0 <? Transforms3D.perspective t3)
       ("  perspective: "
        +:+ JS.numberToString (Transforms3D.perspective t3 * 100)
        +:+ "px;")
  ++ pushIf (0 <? length filters)%nat
       ("  filter: " +:+ JS.join " " filters +:+ ";")
  ++ pushIf (0 <? Effects.backdropBlur e)
       ("  backdrop-filter: blur("
        +:+ JS.numberToString (Effects.backdropBlur e) +:+ "px);")
  ++ pushIf (negb (Effects.opacity e =? 100))
       ("  opacity: " +:+ JS.hundredthsToString (Effects.opacity e)
        +:+ ";")
  ++ pushIf (isNot (Effects.shadow e) "none")
       ("  /* shadow-" +:+ Effects.shadow e +:+ " */")
  ++ ["}"].

Definition useExportCSS (state : InspectorState) : string :=
  JS.join newline (exportLines state).

(** A spacing value as the CSS export writes it: normalised, ['0'] when
    empty. *)
Definition exportedLength (v : string) : string :=
  if JS.truthy v then normalizeNumericValue (JString v) else "0".

(** ** Predicates used in the statements *)

(** The string starts with a character of [[\d.-]]. *)
Definition startsNumeric (s : string) : bool :=
  match s with String c _ => is_numeric_char c | EmptyString => false end.

Fixpoint allNumeric (s : string) : bool :=
  match s with
  | String c s' => is_numeric_char c && allNumeric s'
  | EmptyString => true
  end.



(** A padding or margin token in bracket notation. *)
Definition bracketed (prefix token : string) : Prop :=
  exists label n,
    In label ["pl-["; "pt-["; "pr-["; "pb-["; "mx-["; "my-["]
    /\ token = prefix +:+ label +:+ n +:+ "px]".

(** The size keys with the class name each one maps to. *)
Definition sizeTable (s : Size.full) : list (string * string) :=
  [("w", Size.width s); ("h", Size.height s);
   ("max-w", Size.maxWidth s); ("max-h", Size.maxHeight s);
   ("min-w", Size.minWidth s); ("min-h", Size.minHeight s)].

(** * Properties *)

(** ** Strings *)

Lemma append_nil_r (s : string) : s +:+ "" = s.
Proof. induction s as [|c s IH]; simpl; [reflexivity | now rewrite IH]. Qed.

Lemma append_assoc (a b c : string) : (a +:+ b) +:+ c = a +:+ (b +:+ c).
Proof. induction a as [|x a IH]; simpl; [reflexivity | now rewrite IH]. Qed.

Lemma numeric_run_split (s : string) :
  exists rest, s = numeric_run s +:+ rest /\ startsNumeric rest = false.
Proof.
  induction s as [|c s [rest [Heq Hrest]]]; simpl.
  - now exists "".
  - destruct (is_numeric_char c) eqn:Hc.
    + exists rest. simpl. split; [now rewrite <- Heq | exact Hrest].
    + exists (String c s). simpl. now rewrite Hc.
Qed.

Lemma numeric_run_allNumeric (s : string) : allNumeric (numeric_run s) = true.
Proof.
  induction s as [|c s IH]; simpl; [reflexivity |].
  destruct (is_numeric_char c) eqn:Hc; simpl; [now rewrite Hc | reflexivity].
Qed.

Lemma numeric_run_empty (s : string) :
  numeric_run s = "" <-> startsNumeric s = false.
Proof.
  destruct s as [|c s]; simpl; [tauto |].
  destruct (is_numeric_char c); split; congruence.
Qed.

(** The run is the longest prefix made of numeric characters. *)
Lemma numeric_run_longest (p rest : string) :
  allNumeric p = true -> startsNumeric rest = false ->
  numeric_run (p +:+ rest) = p.
Proof.
  intros Hp Hrest. induction p as [|c p IH]; simpl in *.
  - now apply numeric_run_empty.
  - apply andb_prop in Hp as [Hc Hp]. rewrite Hc. now rewrite IH.
Qed.

Lemma digitSpan_split (s : string) :
  s = fst (digitSpan s) +:+ snd (digitSpan s)
  /\ allDigits (fst (digitSpan s)) = true.
Proof.
  induction s as [|c s [Heq Hd]]; simpl; [now split |].
  destruct (JS.is_digit c) eqn:Hc; [| now split].
  destruct (digitSpan s) as [d rest]; simpl in *.
  split; [now rewrite <- Heq | now rewrite Hc].
Qed.

Lemma allDigits_allNumeric (s : string) :
  allDigits s = true -> allNumeric s = true.
Proof.
  induction s as [|c s IH]; simpl; [reflexivity |].
  intros [Hc Hs]%andb_prop. unfold is_numeric_char. rewrite Hc. simpl. auto.
Qed.

Lemma allNumeric_app (a b : string) :
  allNumeric (a +:+ b) = allNumeric a && allNumeric b.
Proof.
  induction a as [|c a IH]; simpl; [reflexivity |].
  now rewrite IH, andb_assoc.
Qed.

(** A numeric literal is not empty and only has characters of [[\d.-]]. *)
Lemma isNumericLiteral_numeric (s : string) :
  isNumericLiteral s = true -> allNumeric s = true /\ s <> "".
Proof.
  unfold isNumericLiteral.
  assert (Hunsigned : forall u, 
    (let '(whole, rest) := digitSpan u in
     match rest with
     | EmptyString => JS.truthy whole
     | String c fraction => Ascii.eqb c "."%char && isDigits fraction
     end) = true -> allNumeric u = true /\ u <> "").
  { intros u. destruct (digitSpan_split u) as [Heq Hd].
    destruct (digitSpan u) as [whole rest]; simpl in *.
    destruct rest as [|c fraction].
    - intros Hw. rewrite append_nil_r in Heq. subst u.
      split; [now apply allDigits_allNumeric | now destruct whole].
    - intros [Hc Hf]%andb_prop. apply Ascii.eqb_eq in Hc. subst c.
      apply andb_prop in Hf as [_ Hf]. split.
      + rewrite Heq, allNumeric_app. simpl.
        now rewrite (allDigits_allNumeric _ Hd), (allDigits_allNumeric _ Hf).
      + rewrite Heq. now destruct whole. }
  destruct s as [|c s]; [intros H; now apply Hunsigned in H |].
  destruct (Ascii.eqb c "-") eqn:Hc.
  - intros H. apply Hunsigned in H as [H _]. apply Ascii.eqb_eq in Hc.
    subst c. split; [exact H | discriminate].
  - apply Hunsigned.
Qed.

Lemma numeric_not_space (c : ascii) :
  is_numeric_char c = true -> JS.is_space c = false.
Proof.
  destruct c as [[] [] [] [] [] [] [] []]; intros H;
    solve [reflexivity | discriminate H].
Qed.

Lemma trimEnd_idempotent (s : string) :
  JS.trimEnd (JS.trimEnd s) = JS.trimEnd s.
Proof.
  induction s as [|c s IH]; simpl; [reflexivity |].
  destruct (JS.trimEnd s) as [|d u] eqn:Hs.
  - destruct (JS.is_space c) eqn:Hc; simpl; [reflexivity | now rewrite Hc].
  - change (JS.trimEnd (String c (String d u)))
      with (match JS.trimEnd (String d u) with
            | "" => if JS.is_space c then "" else String c ""
            | t => String c t
            end).
    now rewrite IH.
Qed.

Lemma trimStart_fixed (s : string) :
  match s with String c _ => JS.is_space c = false | "" => True end ->
  JS.trimStart s = s.
Proof. destruct s as [|c s]; simpl; [reflexivity | now intros ->]. Qed.

Lemma trimStart_head (s : string) :
  match JS.trimStart s with
  | String c _ => JS.is_space c = false
  | "" => True
  end.
Proof.
  induction s as [|c s IH]; simpl; [exact I |].
  destruct (JS.is_space c) eqn:Hc; [exact IH | exact Hc].
Qed.

Lemma trimEnd_head (s : string) :
  match s with String c _ => JS.is_space c = false | "" => True end ->
  match JS.trimEnd s with
  | String c _ => JS.is_space c = false
  | "" => True
  end.
Proof.
  destruct s as [|c s]; simpl; [exact id |]. intros Hc.
  destruct (JS.trimEnd s); [now rewrite Hc | exact Hc].
Qed.

Lemma trim_idempotent (s : string) : JS.trim (JS.trim s) = JS.trim s.
Proof.
  unfold JS.trim.
  rewrite (trimStart_fixed (JS.trimEnd (JS.trimStart s))).
  - apply trimEnd_idempotent.
  - apply trimEnd_head, trimStart_head.
Qed.

Lemma trim_numeric (s : string) : allNumeric s = true -> JS.trim s = s.
Proof.
  intros Hs. unfold JS.trim. rewrite trimStart_fixed.
  - induction s as [|c s IH]; simpl in *; [reflexivity |].
    apply andb_prop in Hs as [Hc Hs]. rewrite (IH Hs).
    destruct s; [now rewrite (numeric_not_space _ Hc) | reflexivity].
  - destruct s as [|c s]; [exact I |]. simpl in Hs.
    apply andb_prop in Hs as [Hc _]. now apply numeric_not_space.
Qed.

Lemma numeric_run_fixed (s : string) :
  allNumeric s = true -> numeric_run s = s.
Proof.
  intros Hs. rewrite <- (append_nil_r s) at 1.
  now apply numeric_run_longest.
Qed.

(** ** Value Normalizer *)

(** What the normaliser returns on a truthy value, by cases on its trimmed
    string form. *)
Lemma normalize_cases (value : jsvalue) :
  falsy value = false ->
  let str := JS.trim (toString value) in
  normalizeNumericValue value =
    if startsNumeric str then numeric_run str else str.
Proof.
  intros Hv str. unfold normalizeNumericValue, match_numeric. rewrite Hv.
  fold str. destruct str as [|c s]; [reflexivity |]. simpl.
  now destruct (is_numeric_char c).
Qed.

(** Normalising twice changes nothing (section 8). *)
Lemma normalize_idempotent (value : jsvalue) :
  normalizeNumericValue (JString (normalizeNumericValue value))
  = normalizeNumericValue value.
Proof.
  destruct (falsy value) eqn:Hv.
  - assert (normalizeNumericValue value = "") as ->
      by (unfold normalizeNumericValue; now rewrite Hv).
    reflexivity.
  - rewrite (normalize_cases value Hv). cbv zeta.
    set (str := JS.trim (toString value)).
    destruct (startsNumeric str) eqn:Hstr.
    + pose proof (numeric_run_allNumeric str) as Hrun.
      assert (Hne : numeric_run str <> "")
        by (rewrite numeric_run_empty; congruence).
      rewrite normalize_cases by (simpl; now destruct (numeric_run str)).
      cbv zeta. simpl toString. rewrite (trim_numeric _ Hrun).
      rewrite (numeric_run_fixed _ Hrun).
      destruct (numeric_run str); [congruence |]. simpl in Hrun |- *.
      apply andb_prop in Hrun as [-> _]. reflexivity.
    + destruct str as [|c s] eqn:Estr; [reflexivity |].
      rewrite normalize_cases by reflexivity. cbv zeta. simpl toString.
      rewrite <- Estr. unfold str. rewrite trim_idempotent. fold str.
      rewrite Estr, Hstr. reflexivity.
Qed.

(** C2, as amended. On a falsy value (null, undefined, the empty string, the
    number 0) the normaliser returns the empty string. On any other value it
    returns the longest prefix of the trimmed string form whose characters
    all belong to the class of digits, dot and minus, and the trimmed string
    itself when that prefix is empty ('auto' gives 'auto'). Whenever the
    trimmed string is a well-formed numeric literal followed by nothing or
    by a character outside the class, that literal is the result. The
    function is total: no input makes it fail. *)
Theorem normalize_longest_numeric_run (value : jsvalue) :
  let str := JS.trim (toString value) in
  let out := normalizeNumericValue value in
  (falsy value = true -> out = "")
  /\ (falsy value = false -> startsNumeric str = false -> out = str)
  /\ (falsy value = false -> startsNumeric str = true ->
      out <> "" /\ allNumeric out = true
      /\ exists rest, str = out +:+ rest /\ startsNumeric rest = false)
  /\ (forall literal rest,
      falsy value = false -> str = literal +:+ rest ->
      isNumericLiteral literal = true -> startsNumeric rest = false ->
      out = literal).
Proof.
  intros str out.
  assert (Hout : falsy value = false ->
            out = if startsNumeric str then numeric_run str else str)
    by (intros Hv; apply (normalize_cases _ Hv)).
  split; [| split; [| split]].
  - intros Hv. unfold out, normalizeNumericValue. now rewrite Hv.
  - intros Hv Hstr. rewrite (Hout Hv), Hstr. reflexivity.
  - intros Hv Hstr. rewrite (Hout Hv), Hstr. split; [| split].
    + rewrite numeric_run_empty. congruence.
    + apply numeric_run_allNumeric.
    + apply numeric_run_split.
  - intros literal rest Hv Hstr Hlit Hrest.
    apply isNumericLiteral_numeric in Hlit as [Hnum Hne].
    rewrite (Hout Hv), Hstr, (numeric_run_longest _ _ Hnum Hrest).
    destruct literal as [|c l]; [congruence |]. simpl in Hnum |- *.
    apply andb_prop in Hnum as [-> _]. reflexivity.
Qed.

Lemma normalize_longest_numeric_run_witness :
  normalizeNumericValue JNull = ""
  /\ normalizeNumericValue (JString "auto") = "auto"
  /\ (normalizeNumericValue (JString "-4.5rem") <> ""
      /\ allNumeric (normalizeNumericValue (JString "-4.5rem")) = true
      /\ exists rest,
          "-4.5rem" = normalizeNumericValue (JString "-4.5rem") +:+ rest
          /\ startsNumeric rest = false)
  /\ normalizeNumericValue (JString " 16px ") = "16".
Proof.
  destruct (normalize_longest_numeric_run JNull) as (Hnull & _).
  destruct (normalize_longest_numeric_run (JString "auto"))
    as (_ & Hauto & _).
  destruct (normalize_longest_numeric_run (JString "-4.5rem"))
    as (_ & _ & Hrun & _).
  destruct (normalize_longest_numeric_run (JString " 16px "))
    as (_ & _ & _ & Hliteral).
  split; [apply Hnull; reflexivity |].
  split; [apply Hauto; reflexivity |].
  split; [apply Hrun; reflexivity |].
  apply (Hliteral "16" "px"); reflexivity.
Defined.

(** C2, counterexample. The stored text '16.' (a number being typed) has the
    numeric literal '16' as its longest literal prefix; the normaliser keeps
    the dot. Likewise '10-20px' gives '10-20', not '10'. *)
Lemma normalize_not_literal_prefix :
  normalizeAsSpecified (JString "16.") = "16"
  /\ normalizeNumericValue (JString "16.") = "16."
  /\ normalizeAsSpecified (JString "10-20px") = "10"
  /\ normalizeNumericValue (JString "10-20px") = "10-20"
  /\ ~ (forall value, normalizeNumericValue value = normalizeAsSpecified value).
Proof.
  repeat split; try reflexivity.
  intros H. specialize (H (JString "16.")). discriminate H.
Qed.

(** ** Class Generator: padding *)

Lemma join_cons (sep x y : string) (l : list string) :
  JS.join sep (x :: y :: l) = x +:+ sep +:+ JS.join sep (y :: l).
Proof. reflexivity. Qed.

Lemma filterBoolean_app (a b : list string) :
  JS.filterBoolean (a ++ b) = JS.filterBoolean a ++ JS.filterBoolean b.
Proof. apply List.filter_app. Qed.

Lemma includes_append_r (a b t : string) :
  JS.includes b t = true -> JS.includes (a +:+ b) t = true.
Proof.
  intros Hb. induction a as [|c a IH]; simpl; [exact Hb |].
  rewrite IH. apply orb_true_r.
Qed.

(** A run of digits, dots and minus signs followed by [px]] holds [px]
    once. *)
Lemma numeric_px_once (n : string) :
  allNumeric n = true ->
  JS.includes (n +:+ "px]") "pxpx" = false
  /\ JS.includes (n +:+ "px]") "px]" = true.
Proof.
  intros Hn. split; [| now apply includes_append_r].
  induction n as [|c n IH]; [reflexivity |].
  simpl in Hn. apply andb_prop in Hn as [Hc Hn].
  change (JS.includes (String c n +:+ "px]") "pxpx")
    with (Ascii.eqb "p" c && JS.startsWith (n +:+ "px]") "xpx"
          || JS.includes (n +:+ "px]") "pxpx").
  rewrite (IH Hn).
  destruct (Ascii.eqb_spec "p" c) as [<- |]; [discriminate Hc | reflexivity].
Qed.


Lemma Forall_pushIf (P : string -> Prop) (c : bool) (token : string) :
  P token -> Forall P (pushIf c token).
Proof. intros H. destruct c; repeat constructor. exact H. Qed.

Lemma includes_char_cons (c d : ascii) (s : string) :
  JS.includes (String d s) (String c "")
  = Ascii.eqb c d || JS.includes s (String c "").
Proof.
  change (JS.includes (String d s) (String c ""))
    with (Ascii.eqb c d && true || JS.includes s (String c "")).
  now rewrite andb_true_r.
Qed.

Lemma includes_char_app (c : ascii) (a b : string) :
  JS.includes (a +:+ b) (String c "")
  = JS.includes a (String c "") || JS.includes b (String c "").
Proof.
  induction a as [|d a IH]; [reflexivity |].
  change (String d a +:+ b) with (String d (a +:+ b)).
  rewrite !includes_char_cons, IH. now rewrite orb_assoc.
Qed.

Lemma includes_startsWith (s t : string) :
  JS.startsWith s t = true -> JS.includes s t = true.
Proof. intros H. destruct s; simpl; now rewrite H. Qed.

Lemma includes_unfold (c : ascii) (s t : string) :
  JS.includes (String c s) t = JS.startsWith (String c s) t || JS.includes s t.
Proof. reflexivity. Qed.




(** A pattern that starts with no numeric character does not start inside a
    run of numeric characters. *)
Lemma includes_skip_numeric (n s t : string) :
  allNumeric n = true -> startsNumeric t = false -> t <> "" ->
  JS.includes (n +:+ s) t = JS.includes s t.
Proof.
  intros Hn Ht Hne. induction n as [|c n IH]; [reflexivity |].
  simpl in Hn. apply andb_prop in Hn as [Hc Hn].
  change (String c n +:+ s) with (String c (n +:+ s)).
  rewrite includes_unfold, (IH Hn).
  destruct t as [|a t]; [congruence |]. simpl in Ht.
  change (JS.startsWith (String c (n +:+ s)) (String a t))
    with (Ascii.eqb a c && JS.startsWith (n +:+ s) t).
  destruct (Ascii.eqb_spec a c) as [-> |]; [congruence | reflexivity].
Qed.



Lemma uint_digits_numeric (d : Decimal.uint) :
  allNumeric (NilEmpty.string_of_uint d) = true.
Proof. induction d; simpl; auto. Qed.

Lemma numberToString_numeric (n : Z) :
  allNumeric (JS.numberToString n) = true /\ JS.numberToString n <> "".
Proof.
  unfold JS.numberToString, NilZero.string_of_int, NilZero.string_of_uint.
  destruct (Z.to_int n) as [d | d]; destruct d; simpl;
    rewrite ?uint_digits_numeric; split; solve [reflexivity | discriminate].
Qed.




(** The class list is the concatenation of what each statement pushes,
    followed by the user's classes. *)
Lemma classes_by_field (prefix : string) (state : InspectorState) :
  classes prefix state
  = flat_map (fieldClass prefix state) classFields ++ tailwindClasses state.
Proof.
  unfold classes, paddingClasses, marginClasses, positionClasses,
    positionTypeClass, positionOffsetClasses, sizeClasses, typographyClasses,
    transformsClasses, effectsClasses, opacityClass, filterClasses,
    borderClasses.
  cbv zeta. cbn [flat_map classFields fieldClass].
  cbv zeta. rewrite <- !app_assoc. reflexivity.
Qed.


Ltac skip_label :=
  cbn [String.append]; rewrite ?includes_unfold;
  cbn [JS.startsWith Ascii.eqb Bool.eqb andb orb].








(** ** Token form against bracket notation *)

Lemma spacing_groups_bracketed (prefix : string) (state : InspectorState) :
  Forall (bracketed prefix)
    (paddingClasses prefix state ++ marginClasses prefix state).
Proof.
  unfold paddingClasses, marginClasses. cbv zeta.
  repeat (apply Forall_app; split); apply Forall_pushIf;
    eexists _, _; (split; [| reflexivity]); simpl; tauto.
Qed.

Lemma scale_value_normal (v : string) :
  In v spacingTokens -> normalizeNumericValue (JString v) = v.
Proof.
  intros Hv. repeat (destruct Hv as [<- | Hv]; [reflexivity |]). destruct Hv.
Qed.

Lemma arrayIncludes_In (l : list string) (x : string) :
  JS.arrayIncludes l x = true <-> In x l.
Proof.
  unfold JS.arrayIncludes. rewrite existsb_exists. split.
  - intros [y [Hy Heq]]. apply String.eqb_eq in Heq. now subst.
  - intros Hx. exists x. split; [exact Hx | apply String.eqb_refl].
Qed.

Lemma scale_value_digits (n : string) :
  JS.arrayIncludes spacingTokens n = true -> isDigits n = true.
Proof.
  rewrite arrayIncludes_In. intros Hn.
  repeat (destruct Hn as [<- | Hn]; [reflexivity |]). destruct Hn.
Qed.

(** A property name that starts with [p-] or [m-] starts with none of the
    other families' names. *)
Lemma spacing_property_family (property : string) :
  JS.startsWith property "p-" || JS.startsWith property "m-" = true ->
  JS.startsWith property "position-" = false
  /\ JS.startsWith property "size-" = false
  /\ JS.startsWith property "opacity-" = false.
Proof.
  destruct property as [|a [|b rest]].
  { intros H. discriminate H. }
  { change (JS.startsWith (String a "") "p-") with (Ascii.eqb "p" a && false).
    change (JS.startsWith (String a "") "m-") with (Ascii.eqb "m" a && false).
    rewrite !andb_false_r. intros H. discriminate H. }
  change (JS.startsWith (String a (String b rest)) "p-")
    with (Ascii.eqb "p" a && (Ascii.eqb "-" b && true)).
  change (JS.startsWith (String a (String b rest)) "m-")
    with (Ascii.eqb "m" a && (Ascii.eqb "-" b && true)).
  destruct (Ascii.eqb_spec "-" b) as [<- |];
    [| now rewrite !andb_false_r].
  destruct (Ascii.eqb_spec "p" a) as [<- |]; [now repeat split |].
  destruct (Ascii.eqb_spec "m" a) as [<- |]; [now repeat split |].
  discriminate.
Qed.

(** C3, as amended. The class generator never uses the short token form:
    every padding and margin token it emits is in bracket notation, also for
    a value on the spacing scale (all sides '4' give pl-[4px] pt-[4px]
    pr-[4px] pb-[4px] and mx-[4px] my-[4px]). The preference for the token
    form is the rule of the helper getTailwindClass, in both of its copies:
    for a property that starts with 'p-' or 'm-' and a non-empty value other
    than '0', it returns <prefix><property>-<n> when the normalised value n
    is on the scale and <prefix><property>-[<n>px] otherwise. *)
Theorem spacing_token_only_in_helper
    (state : InspectorState) (bp : Breakpoint)
    (hundredthToFixed2 : string -> string) (property value : string) :
  let prefix := breakpointPrefix bp in
  Forall (bracketed prefix)
    (paddingClasses prefix state ++ marginClasses prefix state)
  /\ (In value spacingTokens -> value <> "0" ->
      padding state = Padding.mk value value value value ->
      margin state = Margin.mk value value ->
      paddingClasses prefix state
        = [prefix +:+ "pl-[" +:+ value +:+ "px]";
           prefix +:+ "pt-[" +:+ value +:+ "px]";
           prefix +:+ "pr-[" +:+ value +:+ "px]";
           prefix +:+ "pb-[" +:+ value +:+ "px]"]
      /\ marginClasses prefix state
        = [prefix +:+ "mx-[" +:+ value +:+ "px]";
           prefix +:+ "my-[" +:+ value +:+ "px]"])
  /\ (JS.startsWith property "p-" || JS.startsWith property "m-" = true ->
      value <> "" -> value <> "0" ->
      let n := normalizeNumericValue (JString value) in
      let expected :=
        if JS.arrayIncludes spacingTokens n
        then prefix +:+ property +:+ "-" +:+ n
        else prefix +:+ property +:+ "-[" +:+ n +:+ "px]" in
      TailwindUtils.getTailwindClass hundredthToFixed2 property
        (JString value) bp = expected
      /\ getTailwindClass property value bp = expected).
Proof.
  intros prefix. split; [apply spacing_groups_bracketed |]. split.
  - intros Hscale Hzero Hp Hm.
    pose proof (scale_value_normal _ Hscale) as Hnormal.
    assert (Hguard : JS.truthy value && isNot value "0" = true).
    { apply andb_true_intro. split.
      - destruct value; [destruct Hscale as [H | H]; [discriminate H |] |];
          [| reflexivity].
        repeat (destruct H as [H | H]; [discriminate H |]). destruct H.
      - unfold isNot. apply negb_true_iff. now apply String.eqb_neq. }
    unfold paddingClasses, marginClasses. rewrite Hp, Hm. cbv zeta. simpl.
    rewrite Hnormal, Hguard. now split.
  - intros Hfamily Hne Hzero n expected.
    destruct (spacing_property_family _ Hfamily) as (Hpos & Hsize & Hop).
    assert (Htruthy : JS.truthy value = true) by now destruct value.
    assert (Hnot0 : String.eqb value "0" = false) by now apply String.eqb_neq.
    split.
    + unfold TailwindUtils.getTailwindClass, TailwindUtils.isTailwindToken.
      simpl falsy. simpl toString. rewrite Htruthy, Hnot0. simpl negb.
      cbv zeta. fold n. rewrite Hfamily, Hop.
      assert (Hidem : normalizeNumericValue (JString n) = n)
        by apply normalize_idempotent.
      rewrite !Hidem. reflexivity.
    + unfold getTailwindClass. rewrite Htruthy, Hnot0. simpl negb.
      cbv zeta. fold n. rewrite Hpos, Hsize, Hfamily. simpl orb.
      unfold expected.
      destruct (JS.arrayIncludes spacingTokens n) eqn:Hn;
        [now rewrite (scale_value_digits _ Hn) | now rewrite andb_false_r].
Qed.

Lemma spacing_token_only_in_helper_witness :
  paddingClasses ""
    (withMargin (Margin.mk "4" "4")
       (withPadding (Padding.mk "4" "4" "4" "4") neutralState))
  = ["pl-[4px]"; "pt-[4px]"; "pr-[4px]"; "pb-[4px]"]
  /\ TailwindUtils.getTailwindClass (fun s => s) "p-x" (JString "4") Base
     = "p-x-4"
  /\ getTailwindClass "p-x" "4" Base = "p-x-4".
Proof.
  pose proof (spacing_token_only_in_helper
    (withMargin (Margin.mk "4" "4")
       (withPadding (Padding.mk "4" "4" "4" "4") neutralState))
    Base (fun s => s) "p-x" "4") as (_ & Hgen & Hhelper).
  split.
  - apply Hgen; [simpl; tauto | discriminate | reflexivity | reflexivity].
  - apply Hhelper; [reflexivity | discriminate | discriminate].
Defined.

(** C3, counterexample. Padding '4' is on the spacing scale, and the class
    generator emits bracket notation for it, not pl-4. *)
Lemma class_generator_brackets_scale_value :
  let state := withPadding (Padding.mk "4" "4" "4" "4") neutralState in
  In "4" spacingTokens
  /\ useGeneratedClasses state Base = "pl-[4px] pt-[4px] pr-[4px] pb-[4px]"
  /\ ~ In "pl-4" (classes "" state).
Proof.
  split; [simpl; tauto |]. split; [reflexivity |].
  simpl. intros [H | [H | [H | [H | []]]]]; discriminate H.
Qed.

(** ** Class Generator: size *)

Lemma truthy_append_r (a b : string) :
  JS.truthy b = true -> JS.truthy (a +:+ b) = true.
Proof. intros Hb. destruct a; [exact Hb | reflexivity]. Qed.

Lemma In_classes_sizeClasses (prefix token : string) (state : InspectorState) :
  In token (sizeClasses prefix state) -> In token (classes prefix state).
Proof.
  intros H. unfold classes. rewrite !in_app_iff. tauto.
Qed.

(** The class generator emits every non-empty size field as stored, between
    brackets: <prefix><prop>-[<raw value>], with no normalisation and no
    unit appended. *)
Lemma size_emitted_as_stored (state : InspectorState) (bp : Breakpoint) :
  let prefix := breakpointPrefix bp in
  sizeClasses prefix state
    = flat_map (fun '(prop, raw) =>
                  if JS.truthy raw
                  then [prefix +:+ prop +:+ "-[" +:+ raw +:+ "]"]
                  else [])
               (sizeTable (size state))
  /\ (forall prop raw,
      In (prop, raw) (sizeTable (size state)) -> raw <> "" ->
      In (prefix +:+ prop +:+ "-[" +:+ raw +:+ "]")
         (JS.filterBoolean (classes prefix state))).
Proof.
  intros prefix.
  assert (Htable : sizeClasses prefix state
    = flat_map (fun '(prop, raw) =>
                  if JS.truthy raw
                  then [prefix +:+ prop +:+ "-[" +:+ raw +:+ "]"]
                  else [])
               (sizeTable (size state))).
  { unfold sizeClasses, sizeTable, pushIf. simpl. now rewrite app_nil_r. }
  split; [exact Htable |].
  intros prop raw Hin Hraw. apply filter_In. split.
  - apply In_classes_sizeClasses. rewrite Htable. apply in_flat_map.
    exists (prop, raw). split; [exact Hin |].
    destruct raw; [congruence | simpl; tauto].
  - apply truthy_append_r, truthy_append_r. reflexivity.
Qed.

(** C5. The class generator appends no unit to a size value. The six size
    fields are stored unit-less when their unit is px, and the repository's
    summary gives w-[320px] as the token of width 320; the code emits the
    stored text between brackets, so width '320' gives w-[320], at every
    breakpoint and for each of the six fields, and the token w-[320px] is
    not generated. A value that carries a unit or is a keyword is emitted
    as the claim says ('50%' gives w-[50%], 'auto' gives h-[auto]). *)
Theorem unitless_width_gets_no_px :
  let state := withSize (Size.mk "320" "" "" "" "" "") neutralState in
  let all := withSize (Size.mk "320" "240" "640" "480" "16" "8")
               neutralState in
  useGeneratedClasses state Base = "w-[320]"
  /\ useGeneratedClasses state Base <> "w-[320px]"
  /\ ~ In "w-[320px]" (classes "" state)
  /\ useGeneratedClasses state Md = "md:w-[320]"
  /\ useGeneratedClasses all Base
     = "w-[320] h-[240] max-w-[640] max-h-[480] min-w-[16] min-h-[8]"
  /\ useGeneratedClasses
       (withSize (Size.mk "50%" "auto" "" "" "" "") neutralState) Base
     = "w-[50%] h-[auto]".
Proof.
  repeat split; try reflexivity; try discriminate.
  simpl. intros [H | []]. discriminate H.
Qed.

(** ** State store: effective state and clearing *)

Lemma merge_none_padding (g : Padding.full) : Padding.merge g Padding.none = g.
Proof. now destruct g. Qed.
Lemma merge_none_margin (g : Margin.full) : Margin.merge g Margin.none = g.
Proof. now destruct g. Qed.
Lemma merge_none_position (g : Position.full) :
  Position.merge g Position.none = g.
Proof. now destruct g. Qed.
Lemma merge_none_size (g : Size.full) : Size.merge g Size.none = g.
Proof. now destruct g. Qed.
Lemma merge_none_typography (g : Typography.full) :
  Typography.merge g Typography.none = g.
Proof. now destruct g. Qed.
Lemma merge_none_transforms (g : Transforms.full) :
  Transforms.merge g Transforms.none = g.
Proof. now destruct g. Qed.
Lemma merge_none_transforms3D (g : Transforms3D.full) :
  Transforms3D.merge g Transforms3D.none = g.
Proof. now destruct g. Qed.
Lemma merge_none_effects (g : Effects.full) : Effects.merge g Effects.none = g.
Proof. now destruct g. Qed.
Lemma merge_none_radius (g : Radius.full) : Radius.merge g Radius.none = g.
Proof. now destruct g. Qed.
Lemma merge_none_appearance (g : Appearance.full) :
  Appearance.merge g Appearance.none = g.
Proof. now destruct g. Qed.

Create Rewrite HintDb merge_none.
#[local] Hint Rewrite merge_none_padding merge_none_margin
  merge_none_position merge_none_size merge_none_typography
  merge_none_transforms merge_none_transforms3D merge_none_effects
  merge_none_radius merge_none_appearance : merge_none.

(** An empty bucket resolves to the base state. *)
Lemma effective_state_empty_bucket (st : Store) (bp : Breakpoint) :
  bucket (breakpointStates st) bp = emptyOverrides ->
  getEffectiveState st bp = state st.
Proof.
  intros Hempty. unfold getEffectiveState. rewrite Hempty.
  unfold mergeGroup. simpl. autorewrite with merge_none.
  destruct (state st) as [? ? ? ? ? ? ? ? b ? ? ? ? ? ? ?]. simpl.
  now destruct b.
Qed.

Lemma bucket_setBucket_eq (bs : BreakpointStates) (bp : Breakpoint)
    (o : PartialState) :
  bucket (setBucket bs bp o) bp = o.
Proof. now destruct bp. Qed.

Lemma bucket_setBucket_ne (bs : BreakpointStates) (bp other : Breakpoint)
    (o : PartialState) :
  other <> bp -> bucket (setBucket bs bp o) other = bucket bs other.
Proof. destruct bp, other; intros H; try reflexivity; congruence. Qed.

(** C6. When the override bucket of a breakpoint holds only
    {padding: {l: '8'}}, the effective state of that breakpoint is the base
    state with padding.l set to '8': padding.t, padding.r and padding.b,
    every other group (margin, position, size, typography, transforms,
    transforms3D, effects, border and its radius, appearance) and every
    top-level field are those of the base state. *)
Theorem override_padding_l_is_selective (st : Store) (bp : Breakpoint) :
  bp <> Base ->
  bucket (breakpointStates st) bp = overridePaddingL "8" ->
  let base := state st in
  let effective := getEffectiveState st bp in
  effective
    = withPadding (Padding.mk "8" (Padding.t (padding base))
                     (Padding.r (padding base)) (Padding.b (padding base)))
        base
  /\ Padding.l (padding effective) = "8"
  /\ Padding.t (padding effective) = Padding.t (padding base)
  /\ Padding.r (padding effective) = Padding.r (padding base)
  /\ Padding.b (padding effective) = Padding.b (padding base)
  /\ margin effective = margin base
  /\ position effective = position base
  /\ size effective = size base
  /\ typography effective = typography base
  /\ transforms effective = transforms base
  /\ transforms3D effective = transforms3D base
  /\ effects effective = effects base
  /\ border effective = border base
  /\ Border.radius (border effective) = Border.radius (border base)
  /\ appearance effective = appearance base.
Proof.
  intros _ Hbucket base effective.
  assert (Heq : effective
    = withPadding (Padding.mk "8" (Padding.t (padding base))
                     (Padding.r (padding base)) (Padding.b (padding base)))
        base).
  { unfold effective, getEffectiveState. rewrite Hbucket. fold base.
    unfold mergeGroup, withPadding. simpl. autorewrite with merge_none.
    destruct base as [? ? ? ? ? ? ? ? b ? ? ? ? ? ? ?]. simpl.
    now destruct b. }
  rewrite Heq. simpl. repeat split; reflexivity.
Qed.

Lemma override_padding_l_is_selective_witness :
  getEffectiveState
    (mkStore (withPadding (Padding.mk "16" "4" "4" "4") neutralState)
       (setBucket noOverrides Md (overridePaddingL "8")) Base) Md
  = withPadding (Padding.mk "8" "4" "4" "4") neutralState.
Proof.
  apply (override_padding_l_is_selective
           (mkStore (withPadding (Padding.mk "16" "4" "4" "4") neutralState)
              (setBucket noOverrides Md (overridePaddingL "8")) Base) Md);
    [discriminate | reflexivity].
Defined.

(** C7. After the overrides of a non-base breakpoint are cleared, whatever
    they held, the effective state of that breakpoint is the base state. *)
Theorem clear_restores_base_state (st : Store) (bp : Breakpoint) :
  bp <> Base ->
  getEffectiveState (clearBreakpointOverrides bp st) bp = state st.
Proof.
  intros Hbp.
  assert (Hclear : clearBreakpointOverrides bp st
            = mkStore (state st)
                (setBucket (breakpointStates st) bp emptyOverrides)
                (currentBreakpoint st))
    by (destruct bp; [congruence | reflexivity ..]).
  rewrite Hclear.
  rewrite effective_state_empty_bucket; [reflexivity |].
  apply bucket_setBucket_eq.
Qed.

Lemma clear_restores_base_state_witness :
  getEffectiveState
    (clearBreakpointOverrides Md
       (mkStore (withPadding (Padding.mk "16" "4" "4" "4") neutralState)
          (setBucket noOverrides Md (overridePaddingL "8")) Md)) Md
  = withPadding (Padding.mk "16" "4" "4" "4") neutralState.
Proof.
  apply (clear_restores_base_state
           (mkStore (withPadding (Padding.mk "16" "4" "4" "4") neutralState)
              (setBucket noOverrides Md (overridePaddingL "8")) Md) Md).
  discriminate.
Defined.

(** C10. Clearing the overrides of a non-base breakpoint empties the bucket
    of that breakpoint and leaves the base state, the current breakpoint and
    the bucket of every other breakpoint as they were; clearing 'base'
    changes nothing. *)
Theorem clear_touches_one_bucket (st : Store) (bp : Breakpoint) :
  (bp <> Base ->
   let st' := clearBreakpointOverrides bp st in
   bucket (breakpointStates st') bp = emptyOverrides
   /\ state st' = state st
   /\ currentBreakpoint st' = currentBreakpoint st
   /\ forall other, other <> bp ->
        bucket (breakpointStates st') other
        = bucket (breakpointStates st) other)
  /\ clearBreakpointOverrides Base st = st.
Proof.
  split; [| reflexivity].
  intros Hbp st'.
  assert (Hclear : st'
            = mkStore (state st)
                (setBucket (breakpointStates st) bp emptyOverrides)
                (currentBreakpoint st))
    by (unfold st'; destruct bp; [congruence | reflexivity ..]).
  rewrite Hclear. simpl. repeat split.
  - apply bucket_setBucket_eq.
  - intros other Hother. now apply bucket_setBucket_ne.
Qed.

Lemma clear_touches_one_bucket_witness :
  let st := mkStore neutralState
              (setBucket (setBucket noOverrides Md (overridePaddingL "8"))
                 Lg (overridePaddingL "2")) Md in
  bucket (breakpointStates (clearBreakpointOverrides Md st)) Md
    = emptyOverrides
  /\ bucket (breakpointStates (clearBreakpointOverrides Md st)) Lg
    = overridePaddingL "2".
Proof.
  intros st.
  destruct (proj1 (clear_touches_one_bucket st Md)) as (Hmd & _ & _ & Hother);
    [discriminate |].
  split; [exact Hmd |].
  rewrite (Hother Lg); [reflexivity | discriminate].
Defined.

(** ** Multi-Breakpoint Aggregator *)

Lemma uniqueInOrder_fresh (l seen : list string) :
  List.NoDup (JS.uniqueInOrder seen l)
  /\ forall x, In x (JS.uniqueInOrder seen l) -> ~ In x seen.
Proof.
  revert seen. induction l as [|y l IH]; intros seen; simpl.
  - split; [constructor | intros x []].
  - destruct (JS.arrayIncludes seen y) eqn:Hy; [apply IH |].
    destruct (IH (y :: seen)) as [Hnodup Hfresh]. split.
    + constructor; [| exact Hnodup].
      intros Hin. apply (Hfresh y Hin). now left.
    + intros x [<- | Hin].
      * intros Hseen. apply arrayIncludes_In in Hseen. congruence.
      * intros Hseen. apply (Hfresh x Hin). now right.
Qed.

(** The aggregator's de-duplication: no token is listed twice. *)
Lemma setSpread_NoDup (l : list string) : List.NoDup (JS.setSpread l).
Proof. apply uniqueInOrder_fresh. Qed.

(** C4. The aggregator in hooks.ts emits one token per breakpoint, the raw
    padding.l as pl-<value>, and nothing for any other field. For a base
    state with padding.l = '16' and padding.t = '16' and no overrides it
    returns 'pl-16', where the computation of section 4.5 gives
    'pl-[16px] pt-[16px]'. *)
Theorem aggregator_emits_padding_l_only :
  let st := mkStore (withPadding (Padding.mk "16" "16" "" "") neutralState)
              noOverrides Base in
  useAllBreakpointClasses (state st) (breakpointStates st)
    (getEffectiveState st) = "pl-16"
  /\ generateAllClassesAsSpecified (breakpointStates st)
       (getEffectiveState st) = "pl-[16px] pt-[16px]"
  /\ useGeneratedClasses (getEffectiveState st Base) Base
     = "pl-[16px] pt-[16px]".
Proof. repeat split; reflexivity. Qed.

(** ** Style Generator *)

Lemma split_no_separator (sep : ascii) (s : string) :
  JS.includes s (String sep "") = false -> JS.split sep s = [s].
Proof.
  induction s as [|c s IH]; [reflexivity |].
  change (JS.includes (String c s) (String sep ""))
    with (Ascii.eqb sep c && true || JS.includes s (String sep "")).
  rewrite andb_true_r. intros [Hc Hs]%orb_false_elim.
  simpl. rewrite Ascii.eqb_sym, Hc, (IH Hs). reflexivity.
Qed.

(** A segment without a colon sets no property. *)
Lemma parseLine_no_colon (styles : gmap string string) (line : string) :
  JS.includes line ":" = false -> parseLine styles line = styles.
Proof.
  intros Hline. unfold parseLine. now rewrite (split_no_separator _ _ Hline).
Qed.

(** C8. The inline CSS parser splits a declaration at every colon and keeps
    the first two pieces: 'background-image: url(https://x)' sets
    backgroundImage to 'url(https', not to 'url(https://x)'. A declaration
    with one colon is set as written, and a segment with none is dropped. *)
Theorem inline_css_value_cut_at_second_colon :
  let styles :=
    useGeneratedStyles
      (withInlineCSS "background-image: url(https://x); color: red; junk"
         neutralState) in
  styles !! "backgroundImage" = Some "url(https"
  /\ styles !! "backgroundImage" <> Some "url(https://x)"
  /\ styles !! "color" = Some "red"
  /\ styles = <["backgroundImage" := "url(https"]> (<["color" := "red"]> ∅).
Proof. repeat split; try reflexivity. discriminate. Qed.

(** ** Sparse by default *)

Lemma lookup_assign (k v key : string) (m : gmap string string) :
  k <> "__proto__" ->
  assign k v m !! key = if String.eqb k key then Some v else m !! key.
Proof.
  intros Hk. unfold assign. apply String.eqb_neq in Hk. rewrite Hk.
  destruct (String.eqb_spec k key) as [-> | Hne].
  - apply lookup_insert_eq.
  - now apply lookup_insert_ne.
Qed.

Lemma lookup_setIf (c : bool) (k v key : string) (m : gmap string string) :
  k <> "__proto__" ->
  setIf c k v m !! key
  = if c && String.eqb k key then Some v else m !! key.
Proof.
  intros Hk. unfold setIf. destruct c; [now apply lookup_assign | reflexivity].
Qed.

(** What a declaration sets does not depend on the properties set before
    it. *)
Lemma parseLine_lookup (m : gmap string string) (line key : string) :
  parseLine m line !! key
  = match parseLine ∅ line !! key with
    | Some v => Some v
    | None => m !! key
    end.
Proof.
  unfold parseLine.
  destruct (map JS.trim (JS.split ":" line)) as [|prop [|val pieces]];
    try reflexivity.
  destruct (JS.truthy prop && JS.truthy val); [| reflexivity].
  unfold assign. destruct (String.eqb (camelCase prop) "__proto__");
    [reflexivity |].
  destruct (decide (camelCase prop = key)) as [-> | Hne].
  - now rewrite !lookup_insert_eq.
  - now rewrite !lookup_insert_ne by exact Hne.
Qed.

Lemma fold_parseLine_lookup (lines : list string) (m : gmap string string)
    (key : string) :
  fold_left parseLine lines m !! key
  = match fold_left parseLine lines ∅ !! key with
    | Some v => Some v
    | None => m !! key
    end.
Proof.
  revert m. induction lines as [|line lines IH]; intros m; [reflexivity |].
  cbn [fold_left]. rewrite (IH (parseLine m line)), (IH (parseLine ∅ line)).
  destruct (fold_left parseLine lines ∅ !! key); [reflexivity |].
  apply parseLine_lookup.
Qed.

(** A property of the generated styles is the one the inline CSS declares,
    and otherwise the one derived from the state. *)
Lemma parseInlineCSS_lookup (css : string) (m : gmap string string)
    (key : string) :
  parseInlineCSS css m !! key
  = match parseInlineCSS css ∅ !! key with
    | Some v => Some v
    | None => m !! key
    end.
Proof.
  unfold parseInlineCSS. destruct (JS.truthy css); [| reflexivity].
  apply fold_parseLine_lookup.
Qed.

Lemma field_neutral_no_class (prefix : string) (state : InspectorState)
    (f : Field) :
  In (fieldValue f state) (neutralDefaults f) ->
  fieldClass prefix state f = [].
Proof.
  intros H.
  destruct f; cbn [fieldValue neutralDefaults In] in H;
    cbn [fieldClass]; cbv zeta;
    repeat (destruct H as [H | H]); try contradiction;
    injection H as H; rewrite <- H; reflexivity.
Qed.

Lemma fieldIndex_nth (f : Field) :
  nth_error classFields (fieldIndex f) = Some f.
Proof. destruct f; reflexivity. Qed.

Lemma sameField_eq (f g : Field) : sameField f g = true -> f = g.
Proof.
  unfold sameField. intros H. apply Nat.eqb_eq in H.
  pose proof (fieldIndex_nth f) as Hf. rewrite H, fieldIndex_nth in Hf.
  congruence.
Qed.

Lemma flat_map_without {A : Type} (g : A -> list string) (keep : A -> bool)
    (l : list A) :
  (forall x, keep x = false -> g x = []) ->
  flat_map g l = flat_map g (List.filter keep l).
Proof.
  intros H. induction l as [|x l IH]; [reflexivity |].
  cbn [flat_map List.filter]. destruct (keep x) eqn:Hx.
  - cbn [flat_map]. now rewrite IH.
  - now rewrite (H x Hx), IH.
Qed.

Lemma field_zero_emitted (prefix : string) (state : InspectorState)
    (f : Field) :
  In f emittedAtZero -> fieldValue f state = JString "0" ->
  fieldClass prefix state f = [prefix +:+ zeroToken f].
Proof.
  intros Hf Hzero. simpl in Hf.
  repeat (destruct Hf as [<- | Hf]); try contradiction;
    cbn [fieldValue] in Hzero; injection Hzero as Hzero;
    cbn [fieldClass zeroToken]; cbv zeta; rewrite Hzero; reflexivity.
Qed.

Lemma In_fieldClass_classes (prefix token : string) (state : InspectorState)
    (f : Field) :
  In token (fieldClass prefix state f) -> In token (classes prefix state).
Proof.
  intros H. rewrite classes_by_field. apply in_or_app. left.
  apply in_flat_map. exists f. split; [| exact H].
  apply (nth_error_In _ (fieldIndex f)), fieldIndex_nth.
Qed.

Lemma styles_depend_on_inputs (state other : InspectorState) :
  styleInputs other = styleInputs state ->
  useGeneratedStyles other = useGeneratedStyles state.
Proof.
  unfold styleInputs. intros H. injection H as H1 H2 H3 H4 H5.
  unfold useGeneratedStyles. now rewrite H1, H2, H3, H4, H5.
Qed.

Lemma property_neutral_not_derived (state : InspectorState)
    (p : StyleProperty) :
  propertyNeutral p state ->
  useGeneratedStyles state !! propertyKey p
  = parseInlineCSS (inlineCSS state) ∅ !! propertyKey p.
Proof.
  intros Hp. unfold useGeneratedStyles. cbv zeta.
  rewrite parseInlineCSS_lookup.
  destruct (parseInlineCSS (inlineCSS state) ∅ !! propertyKey p);
    [reflexivity |].
  rewrite !lookup_setIf by discriminate. rewrite lookup_empty.
  destruct p;
    cbn [propertyNeutral propertyKey String.eqb Ascii.eqb Bool.eqb] in *;
    rewrite ?andb_false_r, ?andb_true_r;
    try (destruct Hp as (Hx & Hy & Hz); rewrite Hx, Hy, Hz);
    try rewrite Hp; reflexivity.
Qed.

Ltac scan_components :=
  repeat first
    [ progress skip_label
    | rewrite append_assoc
    | rewrite includes_skip_numeric;
      [ | apply numberToString_numeric | reflexivity | discriminate ] ];
  try reflexivity.

(** The transform string names a rotation only when that rotation is not
    zero. *)
Lemma rotation_components (state : InspectorState) (v : string) :
  parseInlineCSS (inlineCSS state) ∅ !! "transform" = None ->
  useGeneratedStyles state !! "transform" = Some v ->
  (Transforms3D.rotateX (transforms3D state) = 0 ->
   JS.includes v "rotateX(" = false)
  /\ (Transforms3D.rotateY (transforms3D state) = 0 ->
      JS.includes v "rotateY(" = false)
  /\ (Transforms3D.rotateZ (transforms3D state) = 0 ->
      JS.includes v "rotateZ(" = false).
Proof.
  intros Hinline Hv. unfold useGeneratedStyles in Hv. cbv zeta in Hv.
  rewrite parseInlineCSS_lookup, Hinline in Hv.
  rewrite !lookup_setIf in Hv by discriminate. rewrite lookup_empty in Hv.
  cbn [String.eqb Ascii.eqb Bool.eqb] in Hv.
  rewrite ?andb_false_r, ?andb_true_r in Hv. cbv iota in Hv.
  set (x := Transforms3D.rotateX (transforms3D state)) in *.
  set (y := Transforms3D.rotateY (transforms3D state)) in *.
  set (z := Transforms3D.rotateZ (transforms3D state)) in *.
  destruct (x =? 0) eqn:Hx, (y =? 0) eqn:Hy, (z =? 0) eqn:Hz;
    cbn [negb pushIf app length Nat.ltb Nat.leb JS.join] in Hv;
    try discriminate Hv; injection Hv as <-;
    repeat split; intros H0;
    try (rewrite H0 in *; discriminate);
    scan_components.
Qed.

(** C9, as amended. A field at the value its guard skips emits nothing,
    whatever the other fields hold. The class generator is the sequence of
    its statements, one per field, followed by the user's classes. For
    every field, when it holds one of its neutral values ('' or '0' for
    padding, margin and border width; '' for the z-index, the position
    offsets, the sizes, font size and line height; 'static', 'inter',
    'normal', 'left', 'none' or 'solid' for the keywords; 0 or 100 for the
    numbers) its statement pushes no token and the class list is that of
    the other fields; in particular for position.type = 'static' and
    effects.opacity = 100. The zero value '0' is not neutral everywhere: for
    the z-index, the position offsets, the sizes, font size and line height
    the guard is a truthiness test, and a stored '0' is emitted (z-[0],
    left-[0px], w-[0], ...). The style generator reads only the text
    colour, the appearance group, the border colour, the 3D transforms and
    inlineCSS, so no field of the class generator reaches the styles; a
    property whose fields are neutral is set only if inlineCSS declares it,
    and the transform string names a rotation only when that rotation is
    not zero. *)
Theorem neutral_defaults_emit_nothing (state : InspectorState)
    (bp : Breakpoint) (f : Field) (p : StyleProperty) :
  let prefix := breakpointPrefix bp in
  classes prefix state
  = flat_map (fieldClass prefix state) classFields ++ tailwindClasses state
  /\ (In (fieldValue f state) (neutralDefaults f) ->
      fieldClass prefix state f = []
      /\ classes prefix state
         = flat_map (fieldClass prefix state)
             (List.filter (fun g => negb (sameField g f)) classFields)
           ++ tailwindClasses state)
  /\ (Position.type (position state) = "static" ->
      positionTypeClass prefix state = []
      /\ classes prefix state = classesBesidePositionType prefix state)
  /\ (Effects.opacity (effects state) = 100 ->
      opacityClass prefix state = []
      /\ classes prefix state = classesBesideOpacity prefix state)
  /\ (In f emittedAtZero -> fieldValue f state = JString "0" ->
      fieldClass prefix state f = [prefix +:+ zeroToken f]
      /\ In (prefix +:+ zeroToken f) (classes prefix state))
  /\ (forall other, styleInputs other = styleInputs state ->
      useGeneratedStyles other = useGeneratedStyles state)
  /\ (propertyNeutral p state ->
      useGeneratedStyles state !! propertyKey p
      = parseInlineCSS (inlineCSS state) ∅ !! propertyKey p)
  /\ (forall v,
      parseInlineCSS (inlineCSS state) ∅ !! "transform" = None ->
      useGeneratedStyles state !! "transform" = Some v ->
      (Transforms3D.rotateX (transforms3D state) = 0 ->
       JS.includes v "rotateX(" = false)
      /\ (Transforms3D.rotateY (transforms3D state) = 0 ->
          JS.includes v "rotateY(" = false)
      /\ (Transforms3D.rotateZ (transforms3D state) = 0 ->
          JS.includes v "rotateZ(" = false)).
Proof.
  intros prefix.
  split; [apply classes_by_field |].
  split.
  { intros Hneutral.
    pose proof (field_neutral_no_class prefix state f Hneutral) as Hnone.
    split; [exact Hnone |].
    rewrite classes_by_field. f_equal. apply flat_map_without.
    intros g Hg. apply negb_false_iff, sameField_eq in Hg. now subst g. }
  split.
  { intros Htype.
    assert (Hnone : positionTypeClass prefix state = [])
      by (unfold positionTypeClass; now rewrite Htype).
    split; [exact Hnone |].
    unfold classes, classesBesidePositionType, positionClasses.
    now rewrite Hnone. }
  split.
  { intros Hopacity.
    assert (Hnone : opacityClass prefix state = [])
      by (unfold opacityClass; now rewrite Hopacity).
    split; [exact Hnone |].
    unfold classes, classesBesideOpacity, effectsClasses.
    now rewrite Hnone. }
  split.
  { intros Hf Hzero.
    pose proof (field_zero_emitted prefix state f Hf Hzero) as Hemit.
    split; [exact Hemit |].
    apply (In_fieldClass_classes prefix _ state f). rewrite Hemit. now left. }
  split; [intros other; apply styles_depend_on_inputs |].
  split; [apply property_neutral_not_derived |].
  intros v. apply rotation_components.
Qed.

Lemma neutral_defaults_emit_nothing_witness :
  let state :=
    withPadding (Padding.mk "0" "8" "" "")
      (withPosition (Position.mk "static" "" "0" "" "" "")
         (withInlineCSS "color: red" neutralState)) in
  (fieldClass "sm:" state PaddingL = []
   /\ classes "sm:" state = ["sm:pt-[8px]"; "sm:left-[0px]"])
  /\ (positionTypeClass "sm:" state = []
      /\ classes "sm:" state = classesBesidePositionType "sm:" state)
  /\ (opacityClass "sm:" state = []
      /\ classes "sm:" state = classesBesideOpacity "sm:" state)
  /\ (fieldClass "sm:" state PositionL = ["sm:left-[0px]"]
      /\ In "sm:left-[0px]" (classes "sm:" state))
  /\ useGeneratedStyles state !! "backgroundColor" = None
  /\ useGeneratedStyles
       (withEffects (Effects.mk 50 0 0 0 100 100 100 0 0 0 "none") state)
     = {[ "color" := "red" ]}
  /\ JS.includes "rotateY(30deg)" "rotateX(" = false.
Proof.
  intros state.
  destruct (neutral_defaults_emit_nothing state Sm PaddingL SBackgroundColor)
    as (_ & Hneutral & Htype & Hopacity & _ & Hinputs & Hstyle & _).
  destruct (neutral_defaults_emit_nothing state Sm PositionL SColor)
    as (_ & _ & _ & _ & Hzero & _ & _ & _).
  destruct (neutral_defaults_emit_nothing
              (writeKey KTransforms3D (Transforms3D.mk 0 30 0 0) neutralState)
              Base PaddingL SColor)
    as (_ & _ & _ & _ & _ & _ & _ & Hrotation).
  change (breakpointPrefix Sm) with "sm:" in *.
  split.
  { destruct Hneutral as [Hnone Hothers]; [right; left; reflexivity |].
    split; [exact Hnone |]. rewrite Hothers. reflexivity. }
  split; [apply Htype; reflexivity |].
  split; [apply Hopacity; reflexivity |].
  split; [apply Hzero; [simpl; tauto | reflexivity] |].
  split; [refine (eq_trans (Hstyle _) _); reflexivity |].
  split; [rewrite Hinputs; reflexivity |].
  apply (Hrotation "rotateY(30deg)"); reflexivity.
Defined.

(** C9, counterexample. A stored '0' is the zero value of section 3, yet for
    the z-index, a position offset and a size the generator emits a token:
    their guards test the string for truthiness, and '0' is truthy. (For
    padding the same '0' is skipped.) The keyword 'normal' is skipped for
    the font weight and the letter spacing, and emitted for the line
    height. *)
Lemma zero_offset_is_emitted :
  let state :=
    withSize (Size.mk "0" "" "" "" "" "")
      (withPosition (Position.mk "static" "0" "0" "" "" "") neutralState) in
  useGeneratedClasses state Base = "z-[0] left-[0px] w-[0]"
  /\ fieldValue PositionL state = JString "0"
  /\ fieldClass "" state PositionL <> []
  /\ useGeneratedClasses
       (withPadding (Padding.mk "0" "0" "0" "0") neutralState) Base = ""
  /\ useGeneratedClasses
       (writeKey KTypography
          (Typography.mk "inter" "normal" "" "normal" "normal" "left" "")
          neutralState) Base
     = "leading-[normal]".
Proof.
  split; [reflexivity |]. split; [reflexivity |].
  split; [discriminate |]. split; reflexivity.
Qed.

(** A field away from its default does emit: the guards are not vacuous. *)
Example non_default_fields_emit :
  useGeneratedClasses
    (withEffects (Effects.mk 50 0 0 0 100 100 100 0 0 0 "none")
       (withPosition (Position.mk "absolute" "10" "" "" "" "") neutralState))
    Base
  = "absolute z-[10] opacity-[0.5]".
Proof. reflexivity. Qed.

(** * Further properties of the code *)

(** ** State store: updates and resets *)

Lemma effective_state_ext (st st' : Store) (bp : Breakpoint) :
  state st = state st' ->
  bucket (breakpointStates st) bp = bucket (breakpointStates st') bp ->
  getEffectiveState st bp = getEffectiveState st' bp.
Proof. intros Hs Hb. unfold getEffectiveState. now rewrite Hs, Hb. Qed.

Lemma readKey_writeKey (key : Key) (value : valueOf key)
    (s : InspectorState) :
  readKey key (writeKey key value s) = value.
Proof. now destruct key. Qed.

Lemma readKey_writeKey_ne (key key' : Key) (value : valueOf key)
    (s : InspectorState) :
  key' <> key -> readKey key' (writeKey key value s) = readKey key' s.
Proof. destruct key, key'; intros H; try reflexivity; congruence. Qed.

Lemma isBase_spec (bp : Breakpoint) : isBase bp = true <-> bp = Base.
Proof. destruct bp; simpl; split; congruence. Qed.

(** What [updateState] does, by the bucket it targets. *)
Lemma updateState_base (key : Key) (value : valueOf key)
    (breakpoint : option Breakpoint) (st : Store) :
  targetBreakpoint breakpoint st = Base ->
  updateState key value breakpoint st
  = mkStore (writeKey key value (state st)) (breakpointStates st)
      (currentBreakpoint st).
Proof. intros H. unfold updateState. cbv zeta. now rewrite H. Qed.

Lemma updateState_override (key : Key) (value : valueOf key)
    (breakpoint : option Breakpoint) (st : Store) :
  targetBreakpoint breakpoint st <> Base ->
  updateState key value breakpoint st
  = mkStore (state st)
      (setBucket (breakpointStates st) (targetBreakpoint breakpoint st)
         (writeOverride key value
            (bucket (breakpointStates st) (targetBreakpoint breakpoint st))))
      (currentBreakpoint st).
Proof.
  intros H. unfold updateState. cbv zeta.
  destruct (isBase _) eqn:Hb; [now apply isBase_spec in Hb | reflexivity].
Qed.

(** X1. A value written with [updateState] is the value the effective state
    of the targeted breakpoint holds under that key: for a non-base
    breakpoint whatever the store held before, for 'base' when the base
    bucket is empty (the hook never writes to it). *)
Theorem updateState_read_back (key : Key) (value : valueOf key)
    (breakpoint : option Breakpoint) (st : Store) :
  let bp := targetBreakpoint breakpoint st in
  (bp = Base -> bucket (breakpointStates st) Base = emptyOverrides) ->
  readKey key (getEffectiveState (updateState key value breakpoint st) bp)
  = value.
Proof.
  intros bp Hbase. destruct (decide (bp = Base)) as [Hbp | Hbp].
  - rewrite (updateState_base _ _ _ _ Hbp).
    rewrite Hbp, effective_state_empty_bucket by now apply Hbase.
    apply readKey_writeKey.
  - rewrite (updateState_override _ _ _ _ Hbp). fold bp.
    unfold getEffectiveState. simpl breakpointStates.
    rewrite bucket_setBucket_eq.
    generalize (bucket (breakpointStates st) bp). intros o.
    destruct key; simpl; try reflexivity; destruct value; try reflexivity.
    unfold mergeGroup. simpl. now destruct radius.
Qed.

Lemma updateState_read_back_witness :
  readKey KPadding
    (getEffectiveState
       (updateState KPadding (Padding.mk "8" "8" "8" "8") (Some Md)
          (mkStore neutralState noOverrides Base)) Md)
  = Padding.mk "8" "8" "8" "8"
  /\ readKey KTag
       (getEffectiveState
          (updateState KTag "button" None
             (mkStore neutralState noOverrides Base)) Base)
     = "button".
Proof.
  split.
  - apply (updateState_read_back KPadding (Padding.mk "8" "8" "8" "8")
             (Some Md) (mkStore neutralState noOverrides Base)).
    discriminate.
  - apply (updateState_read_back KTag "button" None
             (mkStore neutralState noOverrides Base)).
    reflexivity.
Defined.

(** X2. [updateState] changes one key in one place. It never writes to the
    base bucket and never moves the current breakpoint; when it targets a
    non-base breakpoint the base state and the effective state of every
    other breakpoint stay as they were; and under every other key the
    effective state of every breakpoint is unchanged. *)
Theorem updateState_frame (key : Key) (value : valueOf key)
    (breakpoint : option Breakpoint) (st : Store) :
  let bp := targetBreakpoint breakpoint st in
  let st' := updateState key value breakpoint st in
  bucket (breakpointStates st') Base = bucket (breakpointStates st) Base
  /\ currentBreakpoint st' = currentBreakpoint st
  /\ (bp <> Base ->
      state st' = state st
      /\ forall other, other <> bp ->
           getEffectiveState st' other = getEffectiveState st other)
  /\ (forall key' other, key' <> key ->
      readKey key' (getEffectiveState st' other)
      = readKey key' (getEffectiveState st other)).
Proof.
  intros bp st'. destruct (decide (bp = Base)) as [Hbp | Hbp].
  - assert (Hst : st' = mkStore (writeKey key value (state st))
                          (breakpointStates st) (currentBreakpoint st))
      by now apply updateState_base.
    rewrite Hst. simpl. split; [reflexivity |]. split; [reflexivity |].
    split; [congruence |].
    intros key' other Hne. unfold getEffectiveState. simpl.
    generalize (bucket (breakpointStates st) other). intros o.
    destruct key, key'; try congruence; reflexivity.
  - assert (Hst : st' = mkStore (state st)
                          (setBucket (breakpointStates st) bp
                             (writeOverride key value
                                (bucket (breakpointStates st) bp)))
                          (currentBreakpoint st))
      by now apply updateState_override.
    rewrite Hst. cbn [breakpointStates currentBreakpoint state].
    split; [apply bucket_setBucket_ne; congruence |].
    split; [reflexivity |]. split.
    + intros _. split; [reflexivity |]. intros other Hother.
      apply effective_state_ext; [reflexivity |]. simpl.
      now apply bucket_setBucket_ne.
    + intros key' other Hne.
      destruct (decide (other = bp)) as [-> | Hother].
      * unfold getEffectiveState. simpl. rewrite bucket_setBucket_eq.
        generalize (bucket (breakpointStates st) bp). intros o.
        destruct key, key'; try congruence; reflexivity.
      * f_equal. apply effective_state_ext; [reflexivity |]. simpl.
        now apply bucket_setBucket_ne.
Qed.

Lemma updateState_frame_witness :
  let st := mkStore neutralState noOverrides Md in
  let st' := updateState KTag "a" None st in
  state st' = state st
  /\ getEffectiveState st' Lg = getEffectiveState st Lg
  /\ readKey KLink (getEffectiveState st' Md)
     = readKey KLink (getEffectiveState st Md).
Proof.
  intros st st'.
  destruct (updateState_frame KTag "a" None st) as (_ & _ & Hother & Hkey).
  destruct Hother as [Hstate Heff]; [discriminate |].
  split; [exact Hstate |]. split.
  - apply Heff. discriminate.
  - apply Hkey. discriminate.
Defined.

Lemma keyCount_zero (o : PartialState) :
  keyCount o = 0%nat <-> o = emptyOverrides.
Proof.
  split; [| now intros ->].
  destruct o as [a b c d e f g h i j k l m n p q]. unfold keyCount.
  destruct a; [discriminate |]. destruct b; [discriminate |].
  destruct c; [discriminate |]. destruct d; [discriminate |].
  destruct e; [discriminate |]. destruct f; [discriminate |].
  destruct g; [discriminate |]. destruct h; [discriminate |].
  destruct i; [discriminate |]. destruct j; [discriminate |].
  destruct k; [discriminate |]. destruct l; [discriminate |].
  destruct m; [discriminate |]. destruct n; [discriminate |].
  destruct p; [discriminate |]. destruct q; [discriminate |].
  reflexivity.
Qed.

Lemma keyCount_writeOverride (key : Key) (value : valueOf key)
    (o : PartialState) :
  (0 < keyCount (writeOverride key value o))%nat.
Proof.
  assert (H : writeOverride key value o <> emptyOverrides)
    by (destruct key; discriminate).
  rewrite <- keyCount_zero in H. lia.
Qed.

(** X3. [hasBreakpointOverrides] answers no exactly when the bucket is the
    empty object: it answers no right after [clearBreakpointOverrides] on
    that breakpoint and yes right after [updateState] on it, for every
    non-base breakpoint. *)
Theorem hasBreakpointOverrides_tracks_bucket (st : Store) (bp : Breakpoint)
    (key : Key) (value : valueOf key) :
  (hasBreakpointOverrides st bp = false
   <-> bucket (breakpointStates st) bp = emptyOverrides)
  /\ (bp <> Base ->
      hasBreakpointOverrides (clearBreakpointOverrides bp st) bp = false
      /\ hasBreakpointOverrides (updateState key value (Some bp) st) bp
         = true).
Proof.
  split.
  - unfold hasBreakpointOverrides. rewrite <- keyCount_zero.
    rewrite Nat.ltb_ge. lia.
  - intros Hbp. split.
    + unfold hasBreakpointOverrides.
      destruct bp; [congruence | reflexivity ..].
    + rewrite updateState_override by exact Hbp.
      unfold hasBreakpointOverrides. simpl.
      rewrite bucket_setBucket_eq. apply Nat.ltb_lt.
      apply keyCount_writeOverride.
Qed.

Lemma hasBreakpointOverrides_tracks_bucket_witness :
  let st := mkStore neutralState noOverrides Base in
  hasBreakpointOverrides (clearBreakpointOverrides Xl st) Xl = false
  /\ hasBreakpointOverrides (updateState KLink "https://x" (Some Xl) st) Xl
     = true.
Proof.
  intros st.
  apply (hasBreakpointOverrides_tracks_bucket st Xl KLink "https://x").
  discriminate.
Defined.

(** X4. After [resetState] every breakpoint resolves to the default state
    and none has overrides; the current breakpoint is kept. *)
Theorem resetState_resolves_to_default (DEFAULT_INSPECTOR_STATE :
    InspectorState) (st : Store) (bp : Breakpoint) :
  let st' := resetState DEFAULT_INSPECTOR_STATE st in
  getEffectiveState st' bp = DEFAULT_INSPECTOR_STATE
  /\ hasBreakpointOverrides st' bp = false
  /\ currentBreakpoint st' = currentBreakpoint st.
Proof.
  intros st'. split; [| split; [| reflexivity]].
  - apply effective_state_empty_bucket. now destruct bp.
  - now destruct bp.
Qed.

(** X5. [resetTransforms] and [resetEffects] reset the base state only. A
    transforms or effects value written on a non-base breakpoint is still
    the effective value of that breakpoint after the reset, while on a
    breakpoint without overrides on that key the default shows; no other
    key changes on any breakpoint. *)
Theorem partial_resets_keep_overrides (DEFAULT_INSPECTOR_STATE :
    InspectorState) (st : Store) (bp : Breakpoint)
    (t : Transforms.full) (e : Effects.full) :
  (bp <> Base ->
   readKey KTransforms
     (getEffectiveState
        (resetTransforms DEFAULT_INSPECTOR_STATE
           (updateState KTransforms t (Some bp) st)) bp) = t
   /\ readKey KEffects
        (getEffectiveState
           (resetEffects DEFAULT_INSPECTOR_STATE
              (updateState KEffects e (Some bp) st)) bp) = e)
  /\ (bucket (breakpointStates st) bp = emptyOverrides ->
      getEffectiveState (resetTransforms DEFAULT_INSPECTOR_STATE st) bp
      = writeKey KTransforms3D (transforms3D DEFAULT_INSPECTOR_STATE)
          (writeKey KTransforms (transforms DEFAULT_INSPECTOR_STATE)
             (state st))
      /\ getEffectiveState (resetEffects DEFAULT_INSPECTOR_STATE st) bp
         = writeKey KEffects (effects DEFAULT_INSPECTOR_STATE) (state st))
  /\ (forall key,
      key <> KTransforms -> key <> KTransforms3D ->
      readKey key
        (getEffectiveState (resetTransforms DEFAULT_INSPECTOR_STATE st) bp)
      = readKey key (getEffectiveState st bp))
  /\ (forall key,
      key <> KEffects ->
      readKey key
        (getEffectiveState (resetEffects DEFAULT_INSPECTOR_STATE st) bp)
      = readKey key (getEffectiveState st bp)).
Proof.
  split; [| split; [| split]].
  - intros Hbp. rewrite !updateState_override by exact Hbp.
    unfold resetTransforms, resetEffects, getEffectiveState. simpl.
    rewrite !bucket_setBucket_eq. simpl. unfold mergeGroup. simpl.
    now destruct t, e.
  - intros Hempty. split; now apply effective_state_empty_bucket.
  - intros key H2 H3. unfold resetTransforms, getEffectiveState. simpl.
    generalize (bucket (breakpointStates st) bp). intros o.
    destruct key; try congruence; reflexivity.
  - intros key He. unfold resetEffects, getEffectiveState. simpl.
    generalize (bucket (breakpointStates st) bp). intros o.
    destruct key; try congruence; reflexivity.
Qed.

Lemma partial_resets_keep_overrides_witness :
  let st := mkStore neutralState noOverrides Base in
  (readKey KTransforms
     (getEffectiveState
        (resetTransforms neutralState
           (updateState KTransforms (Transforms.mk 45 100 0 0 0 0)
              (Some Sm) st)) Sm)
   = Transforms.mk 45 100 0 0 0 0
   /\ readKey KEffects
        (getEffectiveState
           (resetEffects neutralState
              (updateState KEffects (effects neutralState) (Some Sm) st))
           Sm)
      = effects neutralState)
  /\ getEffectiveState (resetEffects neutralState st) Lg
     = writeKey KEffects (effects neutralState) (state st)
  /\ readKey KTag (getEffectiveState (resetTransforms neutralState st) Sm)
     = readKey KTag (getEffectiveState st Sm)
  /\ readKey KTag (getEffectiveState (resetEffects neutralState st) Sm)
     = readKey KTag (getEffectiveState st Sm).
Proof.
  intros st.
  destruct (partial_resets_keep_overrides neutralState st Sm
              (Transforms.mk 45 100 0 0 0 0) (effects neutralState))
    as (Hkeep & _ & Hkey & Hkey').
  destruct (partial_resets_keep_overrides neutralState st Lg
              (transforms neutralState) (effects neutralState))
    as (_ & Hdefault & _ & _).
  split; [apply Hkeep; discriminate |].
  split; [apply Hdefault; reflexivity |].
  split; [apply Hkey; discriminate | apply Hkey'; discriminate].
Defined.

(** ** Value Normalizer: stability and numbers *)

Lemma normalize_trimmed (value : jsvalue) :
  JS.trim (normalizeNumericValue value) = normalizeNumericValue value.
Proof.
  destruct (falsy value) eqn:Hv.
  - unfold normalizeNumericValue. now rewrite Hv.
  - rewrite (normalize_cases _ Hv). cbv zeta.
    destruct (startsNumeric _).
    + apply trim_numeric, numeric_run_allNumeric.
    + apply trim_idempotent.
Qed.

(** X6. The normaliser's result is stable: normalising it again returns it
    unchanged, and it carries no white space at either end. *)
Theorem normalize_result_stable (value : jsvalue) :
  let out := normalizeNumericValue value in
  normalizeNumericValue (JString out) = out /\ JS.trim out = out.
Proof.
  split; [apply normalize_idempotent | apply normalize_trimmed].
Qed.

(** X7. A whole number that JavaScript holds exactly (a safe integer) goes
    through the normaliser as its decimal string, except 0, which is falsy
    and gives the empty string like an absent value. (A number from 10^21
    on prints with an exponent, and the normaliser then keeps only the
    digits before it.) *)
Theorem normalize_number (n : Z) :
  JS.isSafeInteger n = true ->
  normalizeNumericValue (JNumber n)
  = if n =? 0 then "" else JS.numberToString n.
Proof.
  intros _. destruct (n =? 0) eqn:Hn.
  - unfold normalizeNumericValue. simpl. now rewrite Hn.
  - rewrite normalize_cases by exact Hn. cbv zeta. simpl toString.
    destruct (numberToString_numeric n) as [Hnum Hne].
    rewrite (trim_numeric _ Hnum).
    destruct (JS.numberToString n) as [|c s] eqn:Hs; [congruence |].
    rewrite <- Hs in *. rewrite (numeric_run_fixed _ Hnum).
    rewrite Hs in *. simpl in Hnum |- *.
    apply andb_prop in Hnum as [-> _]. reflexivity.
Qed.

Lemma normalize_number_witness :
  normalizeNumericValue (JNumber 16) = "16"
  /\ normalizeNumericValue (JNumber (-4)) = "-4"
  /\ normalizeNumericValue (JNumber 9007199254740991) = "9007199254740991"
  /\ normalizeNumericValue (JNumber 0) = "".
Proof.
  split; [| split; [| split]].
  - apply (normalize_number 16). reflexivity.
  - apply (normalize_number (-4)). reflexivity.
  - apply (normalize_number 9007199254740991). reflexivity.
  - apply (normalize_number 0). reflexivity.
Defined.

(** ** Class Generator: the breakpoint prefix *)

Lemma map_pushIf (f : string -> string) (c : bool) (token : string) :
  map f (pushIf c token) = pushIf c (f token).
Proof. now destruct c. Qed.

Lemma generatedTokens_prefix (prefix : string) (state : InspectorState) :
  generatedTokens prefix state
  = map (String.append prefix) (generatedTokens "" state).
Proof.
  unfold generatedTokens, paddingClasses, marginClasses, positionClasses,
    positionTypeClass, positionOffsetClasses, sizeClasses, typographyClasses,
    transformsClasses, effectsClasses, opacityClass, filterClasses,
    borderClasses.
  cbv zeta. rewrite !map_app, !map_pushIf. reflexivity.
Qed.

(** X8. The breakpoint prefix is the only thing a breakpoint changes in the
    class generator: the class list for a prefix is the base list of
    generated tokens with the prefix put in front of each, in the same
    order, followed by the user's classes, which are appended last and get
    no prefix. *)
Theorem classes_prefix_each_generated_token (prefix : string)
    (state : InspectorState) :
  classes prefix state
  = map (String.append prefix) (generatedTokens "" state)
    ++ tailwindClasses state
  /\ classes "" state = generatedTokens "" state ++ tailwindClasses state.
Proof.
  assert (H : forall p, classes p state
                        = generatedTokens p state ++ tailwindClasses state).
  { intros p. unfold classes, generatedTokens.
    now rewrite <- !app_assoc. }
  split; [| apply H].
  now rewrite H, generatedTokens_prefix.
Qed.

(** ** Multi-Breakpoint Aggregator: what the set removes *)

Lemma uniqueInOrder_fixed (l seen : list string) :
  List.NoDup l -> (forall x, In x l -> ~ In x seen) ->
  JS.uniqueInOrder seen l = l.
Proof.
  revert seen. induction l as [|y l IH]; intros seen Hnd Hfresh;
    [reflexivity |].
  inversion Hnd as [|? ? Hy Hl]; subst. simpl.
  destruct (JS.arrayIncludes seen y) eqn:Hseen.
  - apply arrayIncludes_In in Hseen. exfalso.
    apply (Hfresh y); [now left | exact Hseen].
  - f_equal. apply IH; [exact Hl |].
    intros x Hx [<- | Hin]; [contradiction |].
    apply (Hfresh x); [now right | exact Hin].
Qed.

Lemma if_pushIf (a c : bool) (token : string) :
  (if a then pushIf c token else []) = pushIf (a && c) token.
Proof. now destruct a. Qed.

Lemma prefixed_tokens_NoDup (c0 c1 c2 c3 c4 c5 : bool)
    (l0 l1 l2 l3 l4 l5 : string) :
  List.NoDup
    (pushIf c0 (breakpointPrefix Base +:+ "pl-" +:+ l0)
     ++ pushIf c1 (breakpointPrefix Sm +:+ "pl-" +:+ l1)
     ++ pushIf c2 (breakpointPrefix Md +:+ "pl-" +:+ l2)
     ++ pushIf c3 (breakpointPrefix Lg +:+ "pl-" +:+ l3)
     ++ pushIf c4 (breakpointPrefix Xl +:+ "pl-" +:+ l4)
     ++ pushIf c5 (breakpointPrefix X2l +:+ "pl-" +:+ l5)).
Proof.
  destruct c0, c1, c2, c3, c4, c5; simpl;
    repeat constructor; simpl; intuition discriminate.
Qed.

Lemma aggregatedTokens_NoDup (breakpointStates : BreakpointStates)
    (getEffectiveState : Breakpoint -> InspectorState) :
  List.NoDup (aggregatedTokens breakpointStates getEffectiveState).
Proof.
  unfold aggregatedTokens, breakpoints. cbn [flat_map]. cbv zeta.
  rewrite !if_pushIf, app_nil_r. apply prefixed_tokens_NoDup.
Qed.

(** X9. The tokens the aggregator collects are pairwise different, since
    each carries the prefix of its own breakpoint: the set it builds before
    joining never removes a token. When no non-base breakpoint has
    overrides, the result is the base token pl-<padding.l> alone, or the
    empty string when padding.l is empty or '0'. *)
Theorem aggregator_set_removes_nothing (baseState : InspectorState)
    (breakpointStates : BreakpointStates)
    (getEffectiveState : Breakpoint -> InspectorState) :
  JS.setSpread (aggregatedTokens breakpointStates getEffectiveState)
  = aggregatedTokens breakpointStates getEffectiveState
  /\ useAllBreakpointClasses baseState breakpointStates getEffectiveState
     = JS.join " " (aggregatedTokens breakpointStates getEffectiveState)
  /\ ((forall bp, bp <> Base -> bucket breakpointStates bp = emptyOverrides)
      -> let l := Padding.l (padding (getEffectiveState Base)) in
         useAllBreakpointClasses baseState breakpointStates getEffectiveState
         = if JS.truthy l && isNot l "0" then "pl-" +:+ l else "").
Proof.
  assert (Hfixed :
    JS.setSpread (aggregatedTokens breakpointStates getEffectiveState)
    = aggregatedTokens breakpointStates getEffectiveState).
  { apply uniqueInOrder_fixed; [apply aggregatedTokens_NoDup |].
    intros x _ []. }
  assert (Hjoin :
    useAllBreakpointClasses baseState breakpointStates getEffectiveState
    = JS.join " " (aggregatedTokens breakpointStates getEffectiveState)).
  { unfold useAllBreakpointClasses. cbv zeta.
    change (JS.join " "
              (JS.setSpread
                 (aggregatedTokens breakpointStates getEffectiveState))
            = JS.join " "
                (aggregatedTokens breakpointStates getEffectiveState)).
    now rewrite Hfixed. }
  split; [exact Hfixed |]. split; [exact Hjoin |].
  intros Hempty l. rewrite Hjoin. unfold aggregatedTokens, breakpoints.
  cbn [flat_map]. cbv zeta.
  rewrite (Hempty Sm), (Hempty Md), (Hempty Lg), (Hempty Xl), (Hempty X2l)
    by discriminate.
  fold l. cbn. now destruct (JS.truthy l && isNot l "0").
Qed.

Lemma aggregator_set_removes_nothing_witness :
  let st := mkStore (withPadding (Padding.mk "16" "" "" "") neutralState)
              noOverrides Base in
  useAllBreakpointClasses (state st) (breakpointStates st)
    (getEffectiveState st) = "pl-16".
Proof.
  intros st.
  destruct (aggregator_set_removes_nothing (state st) (breakpointStates st)
              (getEffectiveState st)) as (_ & _ & H).
  rewrite H; [reflexivity |]. intros bp _. now destruct bp.
Defined.

(** ** Style Generator: inline declarations *)

Lemma split_nonempty (sep : ascii) (s : string) :
  exists piece rest, JS.split sep s = piece :: rest.
Proof.
  induction s as [|c s (piece & rest & IH)]; simpl; [now eexists _, _ |].
  destruct (Ascii.eqb c sep); [now eexists _, _ |].
  rewrite IH. now eexists _, _.
Qed.

(** Splitting distributes over a separator in the middle. *)
Lemma split_app (sep : ascii) (a b : string) :
  JS.split sep (a +:+ String sep b) = JS.split sep a ++ JS.split sep b.
Proof.
  induction a as [|c a IH]; simpl.
  - now rewrite Ascii.eqb_refl.
  - destruct (Ascii.eqb c sep); [now rewrite IH |].
    rewrite IH. destruct (split_nonempty sep a) as (piece & rest & ->).
    reflexivity.
Qed.

Lemma truthy_filterBoolean_one (s : string) :
  JS.truthy s = true -> JS.filterBoolean [s] = [s].
Proof. intros H. unfold JS.filterBoolean. simpl. now rewrite H. Qed.

(** A declaration with one colon, after any earlier text that ends with a
    semicolon, is applied last. *)
Lemma parseInlineCSS_last (before prop val : string)
    (styles : gmap string string) :
  before = "" \/ (exists css, before = css +:+ ";") ->
  JS.includes prop ":" = false -> JS.includes prop ";" = false ->
  JS.includes val ":" = false -> JS.includes val ";" = false ->
  JS.truthy (JS.trim prop) = true -> JS.truthy (JS.trim val) = true ->
  camelCase (JS.trim prop) <> "__proto__" ->
  parseInlineCSS (before +:+ prop +:+ ":" +:+ val) styles
    !! camelCase (JS.trim prop) = Some (JS.trim val).
Proof.
  intros Hbefore Hp1 Hp2 Hv1 Hv2 Hprop Hval Hname.
  set (decl := prop +:+ ":" +:+ val).
  assert (Hdecl : JS.split ";" decl = [decl]).
  { apply split_no_separator. unfold decl.
    rewrite !includes_char_app, Hp2, Hv2. reflexivity. }
  assert (Htruthy : JS.truthy decl = true)
    by (unfold decl; apply truthy_append_r; reflexivity).
  assert (Hline : forall m, parseLine m decl !! camelCase (JS.trim prop)
                            = Some (JS.trim val)).
  { intros m. unfold parseLine, decl.
    change (prop +:+ ":" +:+ val) with (prop +:+ String ":" val).
    rewrite split_app, (split_no_separator _ _ Hp1),
      (split_no_separator _ _ Hv1).
    simpl. rewrite Hprop, Hval. simpl.
    rewrite lookup_assign by exact Hname. now rewrite String.eqb_refl. }
  unfold parseInlineCSS.
  destruct Hbefore as [-> | [css ->]].
  - assert (E : "" +:+ decl = decl) by reflexivity.
    rewrite E, Htruthy, Hdecl, (truthy_filterBoolean_one _ Htruthy).
    apply Hline.
  - assert (E : (css +:+ ";") +:+ decl = css +:+ String ";" decl)
      by (now rewrite append_assoc).
    rewrite E.
    rewrite (truthy_append_r css (String ";" decl)) by reflexivity.
    rewrite split_app, Hdecl, filterBoolean_app,
      (truthy_filterBoolean_one _ Htruthy), fold_left_app.
    apply Hline.
Qed.

(** A declaration under the name '__proto__' sets nothing: the plain object
    [styles] ignores the assignment of a string to that key. *)
Lemma parseInlineCSS_ignored (before prop val : string)
    (styles : gmap string string) :
  before = "" \/ (exists css, before = css +:+ ";") ->
  JS.includes prop ":" = false -> JS.includes prop ";" = false ->
  JS.includes val ":" = false -> JS.includes val ";" = false ->
  camelCase (JS.trim prop) = "__proto__" ->
  parseInlineCSS (before +:+ prop +:+ ":" +:+ val) styles
  = parseInlineCSS before styles.
Proof.
  intros Hbefore Hp1 Hp2 Hv1 Hv2 Hproto.
  set (decl := prop +:+ ":" +:+ val).
  assert (Hdecl : JS.split ";" decl = [decl]).
  { apply split_no_separator. unfold decl.
    rewrite !includes_char_app, Hp2, Hv2. reflexivity. }
  assert (Htruthy : JS.truthy decl = true)
    by (unfold decl; apply truthy_append_r; reflexivity).
  assert (Hline : forall m, parseLine m decl = m).
  { intros m. unfold parseLine, decl.
    change (prop +:+ ":" +:+ val) with (prop +:+ String ":" val).
    rewrite split_app, (split_no_separator _ _ Hp1),
      (split_no_separator _ _ Hv1).
    simpl. destruct (JS.truthy (JS.trim prop) && JS.truthy (JS.trim val));
      [| reflexivity].
    unfold assign. now rewrite Hproto. }
  unfold parseInlineCSS.
  destruct Hbefore as [-> | [css ->]].
  - assert (E : "" +:+ decl = decl) by reflexivity.
    rewrite E, Htruthy, Hdecl, (truthy_filterBoolean_one _ Htruthy).
    apply Hline.
  - assert (E : (css +:+ ";") +:+ decl = css +:+ String ";" decl)
      by (now rewrite append_assoc).
    rewrite E.
    rewrite (truthy_append_r css (String ";" decl)) by reflexivity.
    change (css +:+ ";") with (css +:+ String ";" "").
    rewrite (truthy_append_r css (String ";" "")) by reflexivity.
    rewrite !split_app, Hdecl, !filterBoolean_app,
      (truthy_filterBoolean_one _ Htruthy), !fold_left_app.
    cbn [JS.split JS.filterBoolean List.filter JS.truthy fold_left].
    apply Hline.
Qed.

(** X10. An inline declaration with exactly one colon that is the last
    declaration of inlineCSS sets its property to its trimmed value, under
    the camel-case name: it overrides both the earlier declarations and the
    properties the generator derived from the state (color,
    backgroundColor, ...). The one name that sets nothing is '__proto__':
    the styles object ignores it, and the styles are those of the inline
    text without the declaration. *)
Theorem inline_declaration_wins (state : InspectorState)
    (before prop val : string) :
  inlineCSS state = before +:+ prop +:+ ":" +:+ val ->
  before = "" \/ (exists css, before = css +:+ ";") ->
  JS.includes prop ":" = false -> JS.includes prop ";" = false ->
  JS.includes val ":" = false -> JS.includes val ";" = false ->
  JS.truthy (JS.trim prop) = true -> JS.truthy (JS.trim val) = true ->
  (camelCase (JS.trim prop) <> "__proto__" ->
   useGeneratedStyles state !! camelCase (JS.trim prop) = Some (JS.trim val))
  /\ (camelCase (JS.trim prop) = "__proto__" ->
      useGeneratedStyles state
      = useGeneratedStyles (withInlineCSS before state)).
Proof.
  intros Hcss Hbefore Hp1 Hp2 Hv1 Hv2 Hprop Hval. split.
  - intros Hname. unfold useGeneratedStyles. cbv zeta. rewrite Hcss.
    now apply parseInlineCSS_last.
  - intros Hname. unfold useGeneratedStyles. cbv zeta. rewrite Hcss.
    cbn [inlineCSS withInlineCSS typography appearance border transforms3D].
    now apply parseInlineCSS_ignored.
Qed.

Lemma inline_declaration_wins_witness :
  useGeneratedStyles
    (withInlineCSS "color: red; background-color : blue" 
       (writeKey KAppearance (Appearance.mk "#fff" "" "normal") neutralState))
    !! "backgroundColor" = Some "blue"
  /\ useGeneratedStyles
       (withInlineCSS "color: red;__proto__: x" neutralState)
     = useGeneratedStyles (withInlineCSS "color: red;" neutralState).
Proof.
  split.
  - apply (inline_declaration_wins
             (withInlineCSS "color: red; background-color : blue" 
                (writeKey KAppearance (Appearance.mk "#fff" "" "normal")
                   neutralState))
             "color: red;" " background-color " " blue");
      try reflexivity; [| discriminate].
    right. now exists "color: red".
  - apply (inline_declaration_wins
             (withInlineCSS "color: red;__proto__: x" neutralState)
             "color: red;" "__proto__" " x");
      try reflexivity.
    right. now exists "color: red".
Defined.

(** ** HTML code generation *)

Lemma toLower_fixed_not_upper (c : ascii) :
  toLower c = c -> is_upper c = false.
Proof.
  destruct c as [[] [] [] [] [] [] [] []]; intros H;
    solve [reflexivity | discriminate H].
Qed.

Lemma toLower_toUpper (c : ascii) :
  JS.is_lower c = true ->
  is_upper (JS.toUpper c) = true /\ toLower (JS.toUpper c) = c.
Proof.
  destruct c as [[] [] [] [] [] [] [] []]; intros H;
    solve [split; reflexivity | discriminate H].
Qed.

Lemma kebabCase_cons (c : ascii) (s : string) :
  kebabCase (String c s)
  = if is_upper c
    then String "-" (String (toLower c) (kebabCase s))
    else String (toLower c) (kebabCase s).
Proof. unfold kebabCase. simpl. now destruct (is_upper c). Qed.

Lemma kebab_camel_pair (s : string) :
  (toLowerCase s = s -> kebabCase (camelCase s) = s)
  /\ (forall c, toLowerCase (String c s) = String c s ->
      kebabCase (camelCase (String c s)) = String c s).
Proof.
  induction s as [|d s [IHs IHc]].
  - split; [reflexivity |]. intros c Hc. simpl in Hc |- *.
    injection Hc as Hc. rewrite kebabCase_cons.
    now rewrite (toLower_fixed_not_upper _ Hc), Hc.
  - split; [intros H; injection H as Hd Hs; now apply IHc; simpl; f_equal |].
    intros c Hc. simpl in Hc. injection Hc as Hc Hd Hs.
    change (camelCase (String c (String d s)))
      with (if Ascii.eqb c "-" && JS.is_lower d
            then String (JS.toUpper d) (camelCase s)
            else String c (camelCase (String d s))).
    destruct (Ascii.eqb c "-" && JS.is_lower d) eqn:Hjump.
    + apply andb_prop in Hjump as [Hdash Hlower].
      apply Ascii.eqb_eq in Hdash. subst c.
      destruct (toLower_toUpper _ Hlower) as [Hup Hback].
      rewrite kebabCase_cons, Hup, Hback, (IHs Hs). reflexivity.
    + rewrite kebabCase_cons, (toLower_fixed_not_upper _ Hc), Hc.
      rewrite IHc; [reflexivity |]. simpl. now f_equal.
Qed.

(** X11. The two name conversions undo each other on CSS property names:
    for every name without capital letters, turning it to camel case (as the
    style generator does with inline declarations) and back to hyphens (as
    the HTML generator does with style keys) returns the name. *)
Theorem kebab_camel_round_trip (prop : string) :
  toLowerCase prop = prop -> kebabCase (camelCase prop) = prop.
Proof. apply kebab_camel_pair. Qed.

Lemma kebab_camel_round_trip_witness :
  kebabCase (camelCase "-webkit-box-shadow") = "-webkit-box-shadow".
Proof. apply kebab_camel_round_trip. reflexivity. Defined.

Lemma includes_refl_append (t b : string) : JS.includes (t +:+ b) t = true.
Proof.
  apply includes_startsWith.
  induction t as [|c t IH]; [reflexivity |].
  simpl. now rewrite Ascii.eqb_refl, IH.
Qed.

(** X12. The HTML generator writes the href attribute only on an 'a' or a
    'button' element with a non-empty link, just before the tag closes; on
    any other tag the link does not show in the output at all. *)
Theorem href_only_on_links_and_buttons (state : InspectorState)
    (generatedClasses : string) (generatedStyles : list (string * string)) :
  (tag state <> "a" -> tag state <> "button" ->
   useGeneratedCode state generatedClasses generatedStyles
   = useGeneratedCode (writeKey KLink "" state) generatedClasses
       generatedStyles)
  /\ (tag state = "a" \/ tag state = "button" -> link state <> "" ->
      JS.includes
        (useGeneratedCode state generatedClasses generatedStyles)
        (" href=" +:+ doubleQuote +:+ link state +:+ doubleQuote +:+ ">")
      = true).
Proof.
  split.
  - intros Ha Hb. unfold useGeneratedCode. cbv zeta. simpl.
    apply String.eqb_neq in Ha, Hb. rewrite Ha, Hb.
    now rewrite andb_false_r.
  - intros Htag Hlink. unfold useGeneratedCode. cbv zeta.
    assert (Hcond : JS.truthy (link state)
              && (String.eqb (tag state) "a"
                  || String.eqb (tag state) "button") = true).
    { apply andb_true_intro. split; [now destruct (link state) |].
      destruct Htag as [-> | ->]; reflexivity. }
    rewrite Hcond. do 5 apply includes_append_r.
    set (rest := newline +:+ _).
    assert (E : (" href=" +:+ doubleQuote +:+ link state +:+ doubleQuote)
                +:+ ">" +:+ rest
                = (" href=" +:+ doubleQuote +:+ link state +:+ doubleQuote
                   +:+ ">") +:+ rest)
      by (now rewrite !append_assoc).
    rewrite E.
    apply includes_refl_append.
Qed.

Lemma href_only_on_links_and_buttons_witness :
  let state := writeKey KLink "https://x" neutralState in
  useGeneratedCode state "" [] = useGeneratedCode neutralState "" []
  /\ JS.includes
       (useGeneratedCode (writeKey KTag "button" state) "" [])
       (" href=" +:+ doubleQuote +:+ "https://x" +:+ doubleQuote +:+ ">")
     = true.
Proof.
  intros state. split.
  - apply (href_only_on_links_and_buttons state "" []); discriminate.
  - apply (href_only_on_links_and_buttons (writeKey KTag "button" state)
             "" []); [now right | discriminate].
Defined.

(** ** Tailwind helpers: class strings *)

Lemma splitSpacesFrom_nonempty (inRun : bool) (s : string) :
  exists piece rest, splitSpacesFrom inRun s = piece :: rest.
Proof.
  revert inRun. induction s as [|c s IH]; intros inRun; simpl;
    [now eexists _, _ |].
  destruct (JS.is_space c).
  - destruct inRun; [apply IH | now eexists _, _].
  - destruct (IH false) as (piece & rest & ->). now eexists _, _.
Qed.

Lemma classTokens_inRun (s : string) :
  JS.filterBoolean (splitSpacesFrom true s) = classTokens s.
Proof.
  unfold classTokens, splitSpaces. destruct s as [|c s]; [reflexivity |].
  simpl. now destruct (JS.is_space c).
Qed.

Lemma classTokens_space_cons (c : ascii) (s : string) :
  JS.is_space c = true -> classTokens (String c s) = classTokens s.
Proof.
  intros Hc. unfold classTokens at 1, splitSpaces. simpl. rewrite Hc.
  apply classTokens_inRun.
Qed.

(** The pieces of a text that goes on after a white space character. *)
Lemma splitSpaces_app (c : ascii) (a r : string) :
  JS.is_space c = true ->
  hd "" (splitSpacesFrom false (a +:+ String c r))
    = hd "" (splitSpacesFrom false a)
  /\ JS.filterBoolean (tl (splitSpacesFrom false (a +:+ String c r)))
     = JS.filterBoolean (tl (splitSpacesFrom false a)) ++ classTokens r
  /\ JS.filterBoolean (splitSpacesFrom true (a +:+ String c r))
     = JS.filterBoolean (splitSpacesFrom true a) ++ classTokens r.
Proof.
  intros Hc. induction a as [|d a (IH1 & IH2 & IH3)].
  - simpl. rewrite Hc. simpl. rewrite classTokens_inRun. now repeat split.
  - simpl. destruct (JS.is_space d).
    + simpl. now repeat split.
    + destruct (splitSpacesFrom_nonempty false (a +:+ String c r))
        as (p & ps & Hp).
      destruct (splitSpacesFrom_nonempty false a) as (q & qs & Hq).
      rewrite Hp, Hq in *. simpl in *. subst q.
      repeat split; [exact IH2 | now rewrite IH2].
Qed.

Lemma classTokens_hd_tl (s : string) :
  classTokens s
  = JS.filterBoolean [hd "" (splitSpacesFrom false s)]
    ++ JS.filterBoolean (tl (splitSpacesFrom false s)).
Proof.
  unfold classTokens, splitSpaces.
  destruct (splitSpacesFrom_nonempty false s) as (p & ps & ->).
  simpl. now destruct (JS.truthy p).
Qed.

Lemma classTokens_app (c : ascii) (a r : string) :
  JS.is_space c = true ->
  classTokens (a +:+ String c r) = classTokens a ++ classTokens r.
Proof.
  intros Hc. destruct (splitSpaces_app c a r Hc) as (H1 & H2 & _).
  rewrite (classTokens_hd_tl (a +:+ String c r)), (classTokens_hd_tl a).
  now rewrite H1, H2, app_assoc.
Qed.

Lemma classTokens_allSpaces (s : string) :
  allSpaces s = true -> classTokens s = [].
Proof.
  induction s as [|c s IH]; [reflexivity |]. simpl.
  intros [Hc Hs]%andb_prop. rewrite (classTokens_space_cons _ _ Hc). auto.
Qed.

Lemma classTokens_app_spaces (a sp : string) :
  allSpaces sp = true -> classTokens (a +:+ sp) = classTokens a.
Proof.
  destruct sp as [|c sp]; [now rewrite append_nil_r |]. simpl.
  intros [Hc Hsp]%andb_prop.
  now rewrite (classTokens_app _ _ _ Hc), (classTokens_allSpaces _ Hsp),
    app_nil_r.
Qed.

Lemma trimEnd_split (s : string) :
  exists sp, s = JS.trimEnd s +:+ sp /\ allSpaces sp = true.
Proof.
  induction s as [|c s (sp & Heq & Hsp)]; [now exists "" |]. simpl.
  destruct (JS.trimEnd s) as [|d t] eqn:Ht.
  - simpl in Heq. subst s. destruct (JS.is_space c) eqn:Hc.
    + exists (String c sp). simpl. now rewrite Hc.
    + now exists sp.
  - exists sp. split; [rewrite Heq at 1; reflexivity | exact Hsp].
Qed.

Lemma classTokens_trim (s : string) : classTokens (JS.trim s) = classTokens s.
Proof.
  unfold JS.trim.
  destruct (trimEnd_split (JS.trimStart s)) as (sp & Heq & Hsp).
  transitivity (classTokens (JS.trimStart s)).
  - rewrite Heq at 2. now rewrite classTokens_app_spaces.
  - clear sp Heq Hsp. induction s as [|c s IH]; [reflexivity |]. simpl.
    destruct (JS.is_space c) eqn:Hc; [| reflexivity].
    now rewrite classTokens_space_cons.
Qed.

Lemma splitSpacesFrom_spaceFree (inRun : bool) (s : string) :
  Forall (fun piece => spaceFree piece = true) (splitSpacesFrom inRun s).
Proof.
  revert inRun. induction s as [|c s IH]; intros inRun; simpl;
    [now repeat constructor |].
  destruct (JS.is_space c) eqn:Hc.
  - destruct inRun; [apply IH | constructor; [reflexivity | apply IH]].
  - specialize (IH false).
    destruct (splitSpacesFrom false s) as [|p ps];
      [repeat constructor; simpl; now rewrite Hc |].
    inversion IH; subst. constructor; [simpl; now rewrite Hc | assumption].
Qed.

Lemma classTokens_clean (s : string) : Forall cleanToken (classTokens s).
Proof.
  unfold classTokens, splitSpaces, JS.filterBoolean.
  apply List.Forall_forall. intros t [Hin Ht]%filter_In. split; [exact Ht |].
  pose proof (splitSpacesFrom_spaceFree false s) as H.
  rewrite List.Forall_forall in H. now apply H.
Qed.

Lemma classTokens_of_clean (t : string) : cleanToken t -> classTokens t = [t].
Proof.
  intros [Ht Hfree]. unfold classTokens, splitSpaces.
  assert (H : splitSpacesFrom false t = [t]).
  { clear Ht. induction t as [|c t IH]; [reflexivity |]. simpl in *.
    apply andb_prop in Hfree as [Hc Hfree]. apply negb_true_iff in Hc.
    now rewrite Hc, (IH Hfree). }
  rewrite H. now apply truthy_filterBoolean_one.
Qed.

Lemma classTokens_join (l : list string) :
  classTokens (JS.join " " l) = flat_map classTokens l.
Proof.
  induction l as [|x [|y l] IH]; [reflexivity | |].
  - simpl. now rewrite app_nil_r.
  - rewrite join_cons.
    change (x +:+ " " +:+ JS.join " " (y :: l))
      with (x +:+ String " " (JS.join " " (y :: l))).
    rewrite classTokens_app by reflexivity. now rewrite IH.
Qed.

Lemma classTokens_join_clean (l : list string) :
  Forall cleanToken l -> classTokens (JS.join " " l) = l.
Proof.
  intros Hl. rewrite classTokens_join.
  induction Hl as [|t l Ht Hl IH]; [reflexivity |]. simpl.
  now rewrite (classTokens_of_clean _ Ht), IH.
Qed.

Lemma uniqueInOrder_In (l seen : list string) (x : string) :
  In x (JS.uniqueInOrder seen l) <-> In x l /\ ~ In x seen.
Proof.
  revert seen. induction l as [|y l IH]; intros seen; simpl; [tauto |].
  destruct (JS.arrayIncludes seen y) eqn:Hy.
  - apply arrayIncludes_In in Hy. rewrite IH. split; [tauto |].
    intros [[<- | Hin] Hseen]; [contradiction | tauto].
  - assert (Hy' : ~ In y seen)
      by (intros H; apply arrayIncludes_In in H; congruence).
    simpl. rewrite IH. simpl. split.
    + intros [<- | [Hin Hseen]]; tauto.
    + intros [[<- | Hin] Hseen]; [tauto |].
      destruct (String.eqb_spec y x) as [-> | Hne]; tauto.
Qed.

Lemma setSpread_In (l : list string) (x : string) :
  In x (JS.setSpread l) <-> In x l.
Proof. unfold JS.setSpread. rewrite uniqueInOrder_In. simpl. tauto. Qed.

(** The loop of [formatTailwindClasses] keeps the first occurrences. *)
Lemma rememberClass_fold (l seen unique : list string) :
  snd (fold_left rememberClass l (seen, unique))
  = unique ++ JS.uniqueInOrder seen l.
Proof.
  revert seen unique. induction l as [|x l IH]; intros seen unique; simpl;
    [now rewrite app_nil_r |].
  destruct (JS.arrayIncludes seen x); rewrite IH; [reflexivity |].
  now rewrite <- app_assoc.
Qed.

Lemma formatTailwindClasses_tokens (classes : string) :
  formatTailwindClasses classes
  = JS.join " " (JS.setSpread (classTokens classes)).
Proof.
  unfold formatTailwindClasses.
  destruct classes as [|c s] eqn:Hs; [reflexivity |]. rewrite <- Hs.
  assert (Htruthy : JS.truthy classes = true) by now subst.
  rewrite Htruthy. simpl negb. simpl orb.
  destruct (String.eqb_spec (JS.trim classes) "") as [Hempty | _].
  - rewrite <- (classTokens_trim classes), Hempty. reflexivity.
  - cbv zeta. rewrite rememberClass_fold. simpl.
    fold (classTokens (JS.trim classes)). now rewrite classTokens_trim.
Qed.

Lemma formatTailwindClasses_classTokens (classes : string) :
  classTokens (formatTailwindClasses classes)
  = JS.setSpread (classTokens classes).
Proof.
  rewrite formatTailwindClasses_tokens.
  apply classTokens_join_clean. apply List.Forall_forall.
  intros t Ht. apply (proj1 (setSpread_In _ _)) in Ht.
  pose proof (classTokens_clean classes) as H.
  rewrite List.Forall_forall in H. now apply H.
Qed.

(** X13. [formatTailwindClasses] keeps each class name of its argument
    once, at the place of its first occurrence: the class names of the
    result are those of the argument, none appears twice, and formatting a
    formatted string changes nothing. Empty and blank strings give the
    empty string. *)
Theorem formatTailwindClasses_dedupes (classes : string) :
  let out := formatTailwindClasses classes in
  classTokens out = JS.setSpread (classTokens classes)
  /\ List.NoDup (classTokens out)
  /\ (forall cls, In cls (classTokens out) <-> In cls (classTokens classes))
  /\ formatTailwindClasses out = out
  /\ (classTokens classes = [] -> out = "").
Proof.
  intros out.
  assert (Hout : classTokens out = JS.setSpread (classTokens classes))
    by apply formatTailwindClasses_classTokens.
  split; [exact Hout |].
  split; [rewrite Hout; apply setSpread_NoDup |].
  split; [intros cls; rewrite Hout; apply setSpread_In |]. split.
  - rewrite formatTailwindClasses_tokens, Hout.
    unfold out. rewrite formatTailwindClasses_tokens. f_equal.
    apply uniqueInOrder_fixed; [apply setSpread_NoDup | intros x _ []].
  - intros Hnone. unfold out.
    now rewrite formatTailwindClasses_tokens, Hnone.
Qed.

Lemma formatTailwindClasses_dedupes_witness :
  formatTailwindClasses "   " = "".
Proof.
  apply (formatTailwindClasses_dedupes "   "). reflexivity.
Defined.

(** X14. The class names of [mergeClasses] are the class names of its
    arguments, in order; absent arguments contribute none. So formatting a
    merge gives each class name of the arguments once. *)
Theorem mergeClasses_tokens (classStrings : list (option string)) :
  classTokens (mergeClasses classStrings)
  = flat_map (fun o => match o with
                       | Some str => classTokens str
                       | None => []
                       end) classStrings
  /\ classTokens (formatTailwindClasses (mergeClasses classStrings))
     = JS.setSpread
         (flat_map (fun o => match o with
                             | Some str => classTokens str
                             | None => []
                             end) classStrings).
Proof.
  assert (H : classTokens (mergeClasses classStrings)
    = flat_map (fun o => match o with
                         | Some str => classTokens str
                         | None => []
                         end) classStrings).
  { unfold mergeClasses. rewrite classTokens_join.
    induction classStrings as [|[str|] l IH]; [reflexivity | | exact IH].
    cbn [flat_map]. destruct (JS.truthy str) eqn:Hstr.
    - cbn [app map flat_map]. now rewrite classTokens_trim, IH.
    - destruct str; [exact IH | discriminate Hstr]. }
  split; [exact H |].
  now rewrite formatTailwindClasses_classTokens, H.
Qed.

(** ** Tailwind helpers: validation *)

Lemma flat_map_nil {A B : Type} (f : A -> list B) (l : list A) :
  flat_map f l = [] <-> Forall (fun x => f x = []) l.
Proof.
  induction l as [|x l IH]; simpl; [split; [constructor | reflexivity] |].
  split.
  - intros [Hx Hl]%app_eq_nil. constructor; [exact Hx | now apply IH].
  - intros H. inversion H as [|? ? Hx Hl]; subst.
    now rewrite Hx, (proj2 IH Hl).
Qed.

Lemma classErrors_nil (cls : string) :
  classErrors cls = [] <-> (JS.truthy cls = true -> classPasses cls).
Proof.
  unfold classErrors, classPasses, isClassName.
  destruct (JS.truthy cls); cbn [negb andb].
  - destruct (allClassChars cls);
      destruct (Nat.eqb_spec (countChar "[" cls) (countChar "]" cls))
        as [Heq | Hne];
      cbn; split; intros H;
      first [ discriminate H
            | reflexivity
            | now split
            | destruct (H eq_refl) as [Hchars Hcount];
              first [discriminate Hchars | contradiction] ].
  - split; [intros _ H; discriminate H | reflexivity].
Qed.

Lemma valid_errors (className : string) :
  valid (validateTailwindClass className) = true
  <-> errors (validateTailwindClass className) = [].
Proof.
  unfold validateTailwindClass.
  destruct (negb (JS.truthy className) || _); simpl; [tauto |].
  destruct (flat_map classErrors _); simpl; split; congruence.
Qed.

Lemma validate_errors (className : string) :
  errors (validateTailwindClass className) = []
  <-> Forall classPasses (classTokens className).
Proof.
  rewrite <- (classTokens_trim className).
  unfold validateTailwindClass.
  destruct (JS.truthy className) eqn:Htruthy; simpl.
  - destruct (String.eqb_spec (JS.trim className) "") as [-> | _]; simpl;
      [split; [constructor | reflexivity] |].
    rewrite flat_map_nil, !List.Forall_forall.
    unfold classTokens, JS.filterBoolean. split.
    + intros H cls [Hin Hcls]%filter_In.
      now apply (proj1 (classErrors_nil cls) (H cls Hin)).
    + intros H cls Hin. apply classErrors_nil. intros Hcls.
      apply H. now apply filter_In.
  - destruct className; [| discriminate]. simpl.
    split; [constructor | reflexivity].
Qed.

(** X15. [validateTailwindClass] accepts a class string exactly when each of
    its class names is made of the characters a-z, A-Z, 0-9, '-', '_', ':',
    '[', ']' and '/' only and has as many '[' as ']'; it reports no error
    exactly in that case. Empty and blank strings are valid. *)
Theorem validate_accepts_iff (className : string) :
  (valid (validateTailwindClass className) = true
   <-> Forall classPasses (classTokens className))
  /\ (valid (validateTailwindClass className) = true
      <-> errors (validateTailwindClass className) = [])
  /\ (classTokens className = [] ->
      validateTailwindClass className = mkValidation true []).
Proof.
  split; [rewrite valid_errors; apply validate_errors |].
  split; [apply valid_errors |].
  intros Hnone.
  assert (Herr : errors (validateTailwindClass className) = [])
    by (apply validate_errors; rewrite Hnone; constructor).
  pose proof (proj2 (valid_errors className) Herr) as Hvalid.
  destruct (validateTailwindClass className) as [v e]. simpl in *.
  now subst.
Qed.

Lemma validate_accepts_iff_witness :
  validateTailwindClass "  " = mkValidation true [].
Proof. apply (validate_accepts_iff "  "). reflexivity. Defined.

Lemma includes_char_nil (c : ascii) : JS.includes "" (String c "") = false.
Proof. reflexivity. Qed.

(** A character that is not white space lies in one of the pieces. *)
Lemma splitSpacesFrom_cover (c : ascii) (s : string) (inRun : bool) :
  JS.includes s (String c "") = true -> JS.is_space c = false ->
  exists piece, In piece (splitSpacesFrom inRun s)
                /\ JS.includes piece (String c "") = true.
Proof.
  intros Hin Hc. revert inRun.
  induction s as [|d s IH]; intros inRun; [discriminate Hin |].
  rewrite includes_char_cons in Hin. simpl.
  destruct (JS.is_space d) eqn:Hd.
  - assert (Hs : JS.includes s (String c "") = true).
    { destruct (Ascii.eqb_spec c d) as [-> |]; [congruence | exact Hin]. }
    destruct (IH Hs true) as (piece & Hpiece & Hhas).
    exists piece. split; [| exact Hhas].
    destruct inRun; [exact Hpiece | now right].
  - destruct (splitSpacesFrom_nonempty false s) as (p & ps & Hp).
    rewrite Hp. destruct (Ascii.eqb c d) eqn:Hcd.
    + exists (String d p). split; [now left |].
      rewrite includes_char_cons, Hcd. reflexivity.
    + destruct (IH Hin false) as (piece & Hpiece & Hhas).
      rewrite Hp in Hpiece. destruct Hpiece as [<- | Hpiece].
      * exists (String d p). split; [now left |].
        rewrite includes_char_cons, Hhas. apply orb_true_r.
      * exists piece. split; [now right | exact Hhas].
Qed.

Lemma allClassChars_has (c : ascii) (t : string) :
  JS.includes t (String c "") = true -> isClassChar c = false ->
  allClassChars t = false.
Proof.
  intros Hin Hc. induction t as [|d t IH]; [discriminate Hin |].
  rewrite includes_char_cons in Hin. simpl.
  destruct (Ascii.eqb_spec c d) as [<- |]; [now rewrite Hc |].
  rewrite (IH Hin). apply andb_false_r.
Qed.

Lemma validate_rejects_char (c : ascii) (className : string) :
  JS.includes className (String c "") = true ->
  JS.is_space c = false -> isClassChar c = false ->
  valid (validateTailwindClass className) = false.
Proof.
  intros Hin Hspace Hclass.
  destruct (valid (validateTailwindClass className)) eqn:Hvalid;
    [| reflexivity].
  apply valid_errors, validate_errors in Hvalid.
  destruct (splitSpacesFrom_cover c className false Hin Hspace)
    as (piece & Hpiece & Hhas).
  rewrite List.Forall_forall in Hvalid.
  assert (Htoken : In piece (classTokens className)).
  { apply filter_In. split; [exact Hpiece |]. now destruct piece. }
  destruct (Hvalid piece Htoken) as [Hchars _].
  now rewrite (allClassChars_has c piece Hhas Hclass) in Hchars.
Qed.

Lemma includes_char_join (c : ascii) (sep token : string)
    (l : list string) :
  In token l -> JS.includes token (String c "") = true ->
  JS.includes (JS.join sep l) (String c "") = true.
Proof.
  intros Hin Hhas. induction l as [|x [|y l] IH]; [destruct Hin | |].
  - destruct Hin as [<- | []]. exact Hhas.
  - rewrite join_cons, !includes_char_app.
    destruct Hin as [<- | Hin]; [now rewrite Hhas |].
    rewrite (IH Hin). now rewrite !orb_true_r.
Qed.

Lemma hundredthsToString_point (n : Z) :
  Z.abs n mod 100 <> 0 ->
  JS.includes (JS.hundredthsToString n) "." = true.
Proof.
  intros Hn. unfold JS.hundredthsToString. cbv zeta.
  apply Z.eqb_neq in Hn. rewrite Hn. rewrite !includes_char_app.
  destruct (Z.abs n mod 100 mod 10 =? 0); simpl;
    now rewrite !orb_true_r.
Qed.

(** X16. The validator rejects every class string that holds a character
    which is neither white space nor in its character class. The class
    generator emits such strings: whenever the opacity, a whole number of
    at most fifteen digits, is not a multiple of 100, its output holds the
    token opacity-[<fraction>] with a decimal point, and the validator
    rejects it. (The bound is the range in which the quotient prints as the
    exact decimal; a slider value is far inside it.) *)
Theorem validator_rejects_generated_fractions (state : InspectorState)
    (bp : Breakpoint) (c : ascii) (className : string) :
  (JS.includes className (String c "") = true ->
   JS.is_space c = false -> isClassChar c = false ->
   valid (validateTailwindClass className) = false)
  /\ (JS.printsExactHundredths (Effects.opacity (effects state)) = true ->
      Z.abs (Effects.opacity (effects state)) mod 100 <> 0 ->
      valid (validateTailwindClass (useGeneratedClasses state bp)) = false).
Proof.
  split; [apply validate_rejects_char |].
  intros _ Hopacity. apply (validate_rejects_char "."); try reflexivity.
  set (n := Effects.opacity (effects state)) in *.
  set (token := breakpointPrefix bp +:+ "opacity-["
                +:+ JS.hundredthsToString n +:+ "]").
  assert (Hpoint : JS.includes token "." = true).
  { unfold token. rewrite !includes_char_app.
    rewrite (hundredthsToString_point n Hopacity).
    now rewrite !orb_true_r. }
  apply (includes_char_join "." " " token); [| exact Hpoint].
  apply filter_In.
  split; [| unfold token; apply truthy_append_r; reflexivity].
  unfold classes, effectsClasses, opacityClass. cbv zeta. fold n.
  assert (Hne : (n =? 100) = false).
  { apply Z.eqb_neq. intros ->. now apply Hopacity. }
  rewrite Hne. simpl pushIf. fold token.
  rewrite !in_app_iff. simpl. tauto.
Qed.

Lemma validator_rejects_generated_fractions_witness :
  valid (validateTailwindClass "w-[50%]") = false
  /\ valid (validateTailwindClass
              (useGeneratedClasses
                 (withEffects (Effects.mk 50 0 0 0 100 100 100 0 0 0 "none")
                    neutralState) Md)) = false.
Proof.
  split.
  - apply (validator_rejects_generated_fractions neutralState Base
             "%" "w-[50%]"); reflexivity.
  - apply (validator_rejects_generated_fractions
             (withEffects (Effects.mk 50 0 0 0 100 100 100 0 0 0 "none")
                neutralState) Md "." ""); [reflexivity |].
    discriminate.
Defined.

(** ** Tailwind helpers: tokens and families *)

(** X17. The token test looks at the normalised value only: a value is a
    token exactly when its normalised form is, so a unit or surrounding
    white space does not change the answer ('4px' and ' 4 ' are spacing
    tokens like '4'). A property outside the opacity, p-, m- and gap-
    families has no tokens. *)
Theorem isTailwindToken_ignores_units (property value : string) :
  TailwindUtils.isTailwindToken property value
  = TailwindUtils.isTailwindToken property
      (normalizeNumericValue (JString value))
  /\ (JS.startsWith property "opacity-" = false ->
      JS.startsWith property "p-" = false ->
      JS.startsWith property "m-" = false ->
      JS.startsWith property "gap-" = false ->
      TailwindUtils.isTailwindToken property value = false).
Proof.
  split.
  - unfold TailwindUtils.isTailwindToken. cbv zeta.
    now rewrite normalize_idempotent.
  - intros Ho Hp Hm Hg. unfold TailwindUtils.isTailwindToken. cbv zeta.
    now rewrite Ho, Hp, Hm, Hg.
Qed.

Lemma isTailwindToken_ignores_units_witness :
  TailwindUtils.isTailwindToken "p-x" " 4px " = true
  /\ TailwindUtils.isTailwindToken "font-" "4" = false.
Proof.
  destruct (isTailwindToken_ignores_units "p-x" " 4px ") as [Hunits _].
  destruct (isTailwindToken_ignores_units "font-" "4") as [_ Hfamily].
  split; [rewrite Hunits; reflexivity |].
  apply Hfamily; reflexivity.
Defined.

(** X18. Outside the families they know, the two copies of
    [getTailwindClass] disagree: for a non-empty value other than '0', the
    copy in utils returns <prefix><property> and drops the value, the copy
    in hooks.ts returns <prefix><property>-<value>. Both return the empty
    string for the values '' and '0'. *)
Theorem getTailwindClass_copies_differ
    (hundredthToFixed2 : string -> string) (property value : string)
    (bp : Breakpoint) :
  (value = "" \/ value = "0" ->
   TailwindUtils.getTailwindClass hundredthToFixed2 property (JString value)
     bp = ""
   /\ getTailwindClass property value bp = "")
  /\ (value <> "" -> value <> "0" ->
      forallb (fun family => negb (JS.startsWith property family))
        ["p-"; "m-"; "gap-"; "opacity-"; "left-"; "top-"; "right-";
         "bottom-"; "w-"; "h-"; "max-w-"; "max-h-"; "min-w-"; "min-h-";
         "position-"; "size-"] = true ->
      TailwindUtils.getTailwindClass hundredthToFixed2 property
        (JString value) bp = breakpointPrefix bp +:+ property
      /\ getTailwindClass property value bp
         = breakpointPrefix bp +:+ property +:+ "-" +:+ value).
Proof.
  split.
  - intros [-> | ->]; split; reflexivity.
  - intros Hne Hzero Hfamilies.
    assert (Htruthy : JS.truthy value = true) by now destruct value.
    assert (Hnot0 : String.eqb value "0" = false) by now apply String.eqb_neq.
    cbn [forallb] in Hfamilies.
    repeat match type of Hfamilies with
           | _ && _ = true => apply andb_prop in Hfamilies as [? Hfamilies]
           end.
    repeat match goal with
           | H : negb _ = true |- _ => apply negb_true_iff in H
           end.
    split.
    + unfold TailwindUtils.getTailwindClass. simpl falsy.
      rewrite Htruthy, Hnot0. simpl negb. cbv zeta.
      repeat match goal with
             | H : JS.startsWith property _ = false |- _ => rewrite H; clear H
             end.
      reflexivity.
    + unfold getTailwindClass. rewrite Htruthy, Hnot0. simpl negb. cbv zeta.
      repeat match goal with
             | H : JS.startsWith property _ = false |- _ => rewrite H; clear H
             end.
      reflexivity.
Qed.

Lemma getTailwindClass_copies_differ_witness :
  TailwindUtils.getTailwindClass (fun s => s) "font" (JString "bold") Sm
  = "sm:font"
  /\ getTailwindClass "font" "bold" Sm = "sm:font-bold"
  /\ getTailwindClass "font" "0" Sm = "".
Proof.
  destruct (getTailwindClass_copies_differ (fun s => s) "font" "bold" Sm)
    as [_ Hother].
  destruct (getTailwindClass_copies_differ (fun s => s) "font" "0" Sm)
    as [Hzero _].
  destruct Hother as [Hutils Hhooks];
    [discriminate | discriminate | reflexivity |].
  split; [exact Hutils |]. split; [exact Hhooks |].
  apply Hzero. now right.
Defined.

(** ** The hook's untyped code: merging and nested updates *)

#[local] Arguments Dynamic.objSet : simpl never.

Lemma objGet_replaceValue_eq (key : string) (v : Dynamic.value)
    (o : Dynamic.Fields) :
  Dynamic.hasKey key o = true ->
  Dynamic.objGet key (Dynamic.replaceValue key v o) = Some v.
Proof.
  unfold Dynamic.hasKey.
  induction o as [|[k w] o IH]; simpl; [discriminate |].
  destruct (String.eqb key k) eqn:Hk; simpl; now rewrite Hk.
Qed.

Lemma objGet_replaceValue_ne (key key' : string) (v : Dynamic.value)
    (o : Dynamic.Fields) :
  key' <> key ->
  Dynamic.objGet key' (Dynamic.replaceValue key v o) = Dynamic.objGet key' o.
Proof.
  intros Hne. induction o as [|[k w] o IH]; simpl; [reflexivity |].
  destruct (String.eqb_spec key k) as [-> | Hk]; simpl.
  - apply String.eqb_neq in Hne. now rewrite Hne.
  - now rewrite IH.
Qed.

Lemma objGet_insertIndex_eq (i : Z) (key : string) (v : Dynamic.value)
    (o : Dynamic.Fields) :
  Dynamic.hasKey key o = false ->
  Dynamic.objGet key (Dynamic.insertIndex i key v o) = Some v.
Proof.
  unfold Dynamic.hasKey.
  induction o as [|[k w] o IH]; simpl; [now rewrite String.eqb_refl |].
  destruct (String.eqb key k) eqn:Hk; [discriminate |]. intros Ho.
  destruct (Dynamic.arrayIndex k) as [j |]; [destruct (j <? i) |]; simpl;
    rewrite ?Hk, ?String.eqb_refl; auto.
Qed.

Lemma objGet_insertIndex_ne (i : Z) (key key' : string) (v : Dynamic.value)
    (o : Dynamic.Fields) :
  key' <> key ->
  Dynamic.objGet key' (Dynamic.insertIndex i key v o)
  = Dynamic.objGet key' o.
Proof.
  intros Hne. apply String.eqb_neq in Hne.
  induction o as [|[k w] o IH]; simpl; [now rewrite Hne |].
  destruct (Dynamic.arrayIndex k) as [j |]; [destruct (j <? i) |]; simpl;
    rewrite ?Hne, ?IH; reflexivity.
Qed.

Lemma objGet_app (key : string) (a b : Dynamic.Fields) :
  Dynamic.objGet key (a ++ b)
  = match Dynamic.objGet key a with
    | Some v => Some v
    | None => Dynamic.objGet key b
    end.
Proof.
  induction a as [|[k w] a IH]; simpl; [reflexivity |].
  now destruct (String.eqb key k).
Qed.

Lemma objGet_objSet_eq (key : string) (v : Dynamic.value)
    (o : Dynamic.Fields) :
  Dynamic.objGet key (Dynamic.objSet key v o) = Some v.
Proof.
  unfold Dynamic.objSet. destruct (Dynamic.hasKey key o) eqn:Hhas.
  - now apply objGet_replaceValue_eq.
  - destruct (Dynamic.arrayIndex key); [now apply objGet_insertIndex_eq |].
    rewrite objGet_app. unfold Dynamic.hasKey in Hhas.
    destruct (Dynamic.objGet key o); [discriminate |].
    simpl. now rewrite String.eqb_refl.
Qed.

Lemma objGet_objSet_ne (key key' : string) (v : Dynamic.value)
    (o : Dynamic.Fields) :
  key' <> key ->
  Dynamic.objGet key' (Dynamic.objSet key v o) = Dynamic.objGet key' o.
Proof.
  intros Hne. unfold Dynamic.objSet. destruct (Dynamic.hasKey key o).
  - now apply objGet_replaceValue_ne.
  - destruct (Dynamic.arrayIndex key); [now apply objGet_insertIndex_ne |].
    rewrite objGet_app. destruct (Dynamic.objGet key' o); [reflexivity |].
    simpl. apply String.eqb_neq in Hne. now rewrite Hne.
Qed.

Lemma keys_replaceValue (key : string) (v : Dynamic.value)
    (o : Dynamic.Fields) :
  Dynamic.keys (Dynamic.replaceValue key v o) = Dynamic.keys o.
Proof.
  unfold Dynamic.keys. induction o as [|[k w] o IH]; simpl; [reflexivity |].
  destruct (String.eqb key k); simpl; now rewrite ?IH.
Qed.

(** A key that is no array index leaves the listed keys in place. *)
Lemma keys_objSet (key : string) (v : Dynamic.value) (o : Dynamic.Fields) :
  Dynamic.arrayIndex key = None ->
  exists added, Dynamic.keys (Dynamic.objSet key v o)
                = Dynamic.keys o ++ added.
Proof.
  intros Hkey. unfold Dynamic.objSet. destruct (Dynamic.hasKey key o).
  - exists []. now rewrite keys_replaceValue, app_nil_r.
  - rewrite Hkey. exists [key]. unfold Dynamic.keys. now rewrite map_app.
Qed.

Lemma objGet_not_key (key : string) (o : Dynamic.Fields) :
  ~ In key (Dynamic.keys o) -> Dynamic.objGet key o = None.
Proof.
  induction o as [|[k w] o IH]; simpl; [reflexivity |]. intros Hnot.
  destruct (String.eqb_spec key k) as [-> | _]; [tauto |].
  apply IH. tauto.
Qed.

Lemma objGet_key (key : string) (o : Dynamic.Fields) :
  Dynamic.objGet key o = None -> ~ In key (Dynamic.keys o).
Proof.
  induction o as [|[k w] o IH]; simpl; [tauto |].
  destruct (String.eqb_spec key k) as [-> | Hne]; [discriminate |].
  intros H [Hk | Hin]; [congruence | now apply IH].
Qed.

(** An array index has one spelling. *)
Lemma arrayIndex_spelling (key : string) (i : Z) :
  Dynamic.arrayIndex key = Some i -> key = JS.numberToString i.
Proof.
  unfold Dynamic.arrayIndex.
  destruct (NilZero.int_of_string key) as [d |]; [| discriminate].
  cbv zeta.
  destruct (String.eqb_spec (JS.numberToString (Z.of_int d)) key)
    as [Heq | _]; [| discriminate].
  destruct (0 <=? Z.of_int d); [| discriminate].
  destruct (Z.of_int d <=? 4294967294); [| discriminate].
  simpl. intros [= <-]. now symmetry.
Qed.

Lemma ascendingFrom_lower (lo lo' : Z) (ks : list string) :
  lo' <= lo -> Dynamic.ascendingFrom lo ks = true ->
  Dynamic.ascendingFrom lo' ks = true.
Proof.
  intros Hlo. destruct ks as [|k ks]; [reflexivity |]. simpl.
  destruct (Dynamic.arrayIndex k) as [i |]; [| tauto].
  intros [Hi Hrest]%andb_prop. apply Z.ltb_lt in Hi.
  rewrite Hrest, andb_true_r. apply Z.ltb_lt. lia.
Qed.

Lemma ascendingFrom_app_key (lo : Z) (ks : list string) (key : string) :
  Dynamic.arrayIndex key = None ->
  Dynamic.ascendingFrom lo ks = true ->
  Dynamic.ascendingFrom lo (ks ++ [key]) = true.
Proof.
  intros Hkey. revert lo. induction ks as [|k ks IH]; intros lo; simpl.
  - now rewrite Hkey.
  - destruct (Dynamic.arrayIndex k) as [i |].
    + intros [Hi Hrest]%andb_prop. now rewrite Hi, IH.
    + intros Hrest. rewrite forallb_app, Hrest. simpl. now rewrite Hkey.
Qed.

Lemma ascendingFrom_insertIndex (lo i : Z) (key : string)
    (v : Dynamic.value) (o : Dynamic.Fields) :
  Dynamic.arrayIndex key = Some i -> lo < i ->
  ~ In key (Dynamic.keys o) ->
  Dynamic.ascendingFrom lo (Dynamic.keys o) = true ->
  Dynamic.ascendingFrom lo (Dynamic.keys (Dynamic.insertIndex i key v o))
  = true.
Proof.
  intros Hkey. revert lo. unfold Dynamic.keys.
  induction o as [|[k w] o IH]; intros lo Hlo Hnew Hasc.
  - simpl. rewrite Hkey. apply andb_true_intro. split; [| reflexivity].
    now apply Z.ltb_lt.
  - cbn [Dynamic.insertIndex]. cbn [map fst Dynamic.ascendingFrom] in Hasc.
    cbn [map fst In] in Hnew.
    destruct (Dynamic.arrayIndex k) as [j |] eqn:Hk.
    + apply andb_prop in Hasc as [Hj Hrest].
      destruct (j <? i) eqn:Hji.
      * cbn [map fst Dynamic.ascendingFrom]. rewrite Hk, Hj.
        apply IH; [now apply Z.ltb_lt | tauto | exact Hrest].
      * cbn [map fst Dynamic.ascendingFrom]. rewrite Hkey, Hk.
        assert (Hne : i <> j).
        { intros ->. apply Hnew. left.
          rewrite (arrayIndex_spelling _ _ Hk).
          now rewrite (arrayIndex_spelling _ _ Hkey). }
        apply Z.ltb_ge in Hji.
        apply andb_true_intro. split; [now apply Z.ltb_lt |].
        apply andb_true_intro. split; [apply Z.ltb_lt; lia | exact Hrest].
    + cbn [map fst Dynamic.ascendingFrom]. rewrite Hkey, Hk.
      apply andb_true_intro. split; [now apply Z.ltb_lt | exact Hasc].
Qed.

Lemma arrayIndex_nonnegative (key : string) (i : Z) :
  Dynamic.arrayIndex key = Some i -> -1 < i.
Proof.
  unfold Dynamic.arrayIndex.
  destruct (NilZero.int_of_string key) as [d |]; [| discriminate].
  cbv zeta. destruct (String.eqb _ key); [| discriminate].
  destruct (0 <=? Z.of_int d) eqn:Hd; [| discriminate].
  destruct (Z.of_int d <=? 4294967294); [| discriminate].
  simpl. intros [= <-]. apply Z.leb_le in Hd. lia.
Qed.

(** Writing a property keeps the keys in the order in which JavaScript
    lists them. *)
Lemma ownKeyOrder_objSet (key : string) (v : Dynamic.value)
    (o : Dynamic.Fields) :
  Dynamic.ownKeyOrder o = true ->
  Dynamic.ownKeyOrder (Dynamic.objSet key v o) = true.
Proof.
  unfold Dynamic.ownKeyOrder, Dynamic.objSet. intros Ho.
  destruct (Dynamic.hasKey key o) eqn:Hhas.
  - now rewrite keys_replaceValue.
  - assert (Hnew : ~ In key (Dynamic.keys o)).
    { apply objGet_key. unfold Dynamic.hasKey in Hhas.
      now destruct (Dynamic.objGet key o). }
    destruct (Dynamic.arrayIndex key) as [i |] eqn:Hkey.
    + apply ascendingFrom_insertIndex; try assumption.
      now apply (arrayIndex_nonnegative key).
    + unfold Dynamic.keys. rewrite map_app.
      now apply ascendingFrom_app_key.
Qed.

Lemma deepMerge_fold (target source : Dynamic.Fields) :
  Dynamic.deepMerge target source
  = fold_left (mergeEntry target) source target.
Proof.
  unfold Dynamic.deepMerge. cbn [Dynamic.deepMergeInto].
  match goal with
  | |- fold_left ?F source target = _ =>
      cut (forall acc,
             fold_left F source acc
             = fold_left (mergeEntry target) source acc);
        [intros Hcut; apply Hcut |]
  end.
  induction source as [|[k sv] source IH]; intros acc; [reflexivity |].
  simpl. rewrite IH. f_equal. destruct sv; reflexivity.
Qed.

Lemma mergeEntry_lookup (target result : Dynamic.Fields) (key k : string)
    (sv : Dynamic.value) :
  Dynamic.objGet key (mergeEntry target result (k, sv))
  = if String.eqb key k
    then mergedValue (Dynamic.objGet key result) (Dynamic.objGet key target)
           sv
    else Dynamic.objGet key result.
Proof.
  unfold mergeEntry, mergedValue.
  destruct (String.eqb_spec key k) as [-> | Hne].
  - destruct sv; try apply objGet_objSet_eq; try reflexivity.
    destruct (Dynamic.objGet k target) as [[]|]; apply objGet_objSet_eq.
  - destruct sv; try (now apply objGet_objSet_ne); try reflexivity.
    destruct (Dynamic.objGet k target) as [[]|]; now apply objGet_objSet_ne.
Qed.

Lemma merge_fold_lookup (target source result : Dynamic.Fields)
    (key : string) :
  List.NoDup (Dynamic.keys source) ->
  Dynamic.objGet key (fold_left (mergeEntry target) source result)
  = match Dynamic.objGet key source with
    | Some sv =>
        mergedValue (Dynamic.objGet key result) (Dynamic.objGet key target)
          sv
    | None => Dynamic.objGet key result
    end.
Proof.
  revert result. induction source as [|[k sv] source IH]; intros result Hnd;
    [reflexivity |].
  inversion Hnd as [|? ? Hk Hrest]; subst.
  cbn [fold_left Dynamic.objGet]. rewrite (IH _ Hrest), mergeEntry_lookup.
  destruct (String.eqb_spec key k) as [-> | Hne]; [| reflexivity].
  now rewrite (objGet_not_key _ _ Hk).
Qed.

Lemma merge_fold_keys (target source result : Dynamic.Fields) :
  Forall (fun k => Dynamic.arrayIndex k = None) (Dynamic.keys source) ->
  exists added,
    Dynamic.keys (fold_left (mergeEntry target) source result)
    = Dynamic.keys result ++ added.
Proof.
  revert result. induction source as [|[k sv] source IH]; intros result Hk.
  - exists []. simpl. now rewrite app_nil_r.
  - cbn [fold_left]. cbn [Dynamic.keys map fst] in Hk.
    apply Forall_cons in Hk as [Hk Hrest].
    destruct (IH (mergeEntry target result (k, sv)) Hrest) as [added ->].
    assert (Hstep : exists a, Dynamic.keys (mergeEntry target result (k, sv))
                              = Dynamic.keys result ++ a).
    { unfold mergeEntry.
      destruct sv; try (now apply keys_objSet);
        try (exists []; now rewrite app_nil_r).
      destruct (Dynamic.objGet k target) as [[]|]; now apply keys_objSet. }
    destruct Hstep as [a ->]. exists (a ++ added). now rewrite app_assoc.
Qed.

Lemma merge_fold_order (target source result : Dynamic.Fields) :
  Dynamic.ownKeyOrder result = true ->
  Dynamic.ownKeyOrder (fold_left (mergeEntry target) source result) = true.
Proof.
  revert result. induction source as [|[k sv] source IH]; intros result Ho;
    [exact Ho |].
  cbn [fold_left]. apply IH. unfold mergeEntry.
  destruct sv; try (now apply ownKeyOrder_objSet); try exact Ho.
  destruct (Dynamic.objGet k target) as [[]|]; now apply ownKeyOrder_objSet.
Qed.

(** X19. [deepMerge] key by key, for a source of plain data (distinct keys,
    none of them '__proto__' at any depth). A key the source lacks, or
    holds as undefined, keeps the target's value. When source and target
    both hold an object under the key, the result holds their deep merge.
    In every other case the source value replaces the target's, null
    included. The result lists its keys as JavaScript does when the target
    does: array indices first, in ascending order, then the other keys.
    When no key of the source is an array index, the target's keys all
    stay in their order and the new keys come after them. An empty source
    changes nothing. *)
Theorem deepMerge_by_key (target source : Dynamic.Fields) (key : string) :
  (List.NoDup (Dynamic.keys source) ->
   Dynamic.plainKeys (Dynamic.VObject source) = true ->
   Dynamic.objGet key (Dynamic.deepMerge target source)
   = match Dynamic.objGet key source with
     | None | Some Dynamic.VUndefined => Dynamic.objGet key target
     | Some (Dynamic.VObject sourceFields) =>
         match Dynamic.objGet key target with
         | Some (Dynamic.VObject targetFields) =>
             Some (Dynamic.VObject
                     (Dynamic.deepMerge targetFields sourceFields))
         | _ => Some (Dynamic.VObject sourceFields)
         end
     | Some sourceValue => Some sourceValue
     end)
  /\ (Dynamic.ownKeyOrder target = true ->
      Dynamic.ownKeyOrder (Dynamic.deepMerge target source) = true)
  /\ (Forall (fun k => Dynamic.arrayIndex k = None) (Dynamic.keys source) ->
      exists added,
        Dynamic.keys (Dynamic.deepMerge target source)
        = Dynamic.keys target ++ added)
  /\ Dynamic.deepMerge target [] = target.
Proof.
  split; [| split; [| split; [| reflexivity]]].
  - intros Hnd _. rewrite deepMerge_fold, (merge_fold_lookup _ _ _ _ Hnd).
    unfold mergedValue.
    destruct (Dynamic.objGet key source) as [[]|]; reflexivity.
  - intros Ho. rewrite deepMerge_fold. now apply merge_fold_order.
  - intros Hk. rewrite deepMerge_fold. now apply merge_fold_keys.
Qed.

Lemma deepMerge_by_key_witness :
  let target :=
    [("padding", Dynamic.VObject [("l", Dynamic.VString "4");
                                  ("t", Dynamic.VString "4")]);
     ("tag", Dynamic.VString "div")] in
  let source :=
    [("padding", Dynamic.VObject [("l", Dynamic.VString "8")]);
     ("tag", Dynamic.VUndefined)] in
  let indexed :=
    [("1", Dynamic.VNumber 2); ("b", Dynamic.VNumber 3)] in
  Dynamic.objGet "padding" (Dynamic.deepMerge target source)
  = Some (Dynamic.VObject [("l", Dynamic.VString "8");
                           ("t", Dynamic.VString "4")])
  /\ Dynamic.objGet "tag" (Dynamic.deepMerge target source)
     = Some (Dynamic.VString "div")
  /\ Dynamic.ownKeyOrder (Dynamic.deepMerge target indexed) = true
  /\ Dynamic.keys (Dynamic.deepMerge target indexed)
     = ["1"; "padding"; "tag"; "b"]
  /\ exists added,
       Dynamic.keys (Dynamic.deepMerge target source)
       = Dynamic.keys target ++ added.
Proof.
  intros target source indexed.
  assert (Hnd : List.NoDup (Dynamic.keys source)).
  { repeat constructor; simpl; intuition discriminate. }
  split; [| split; [| split; [| split]]].
  - rewrite (proj1 (deepMerge_by_key target source "padding") Hnd eq_refl).
    reflexivity.
  - rewrite (proj1 (deepMerge_by_key target source "tag") Hnd eq_refl).
    reflexivity.
  - apply (deepMerge_by_key target indexed ""). reflexivity.
  - reflexivity.
  - apply (deepMerge_by_key target source "").
    repeat constructor.
Defined.

Lemma applyStateChanges_fold_ext (prev changes acc : Dynamic.Fields) :
  Forall (fun entry => snd entry <> Dynamic.VNull) changes ->
  fold_left (Dynamic.applyChange prev) changes acc
  = fold_left (mergeEntry prev) changes acc.
Proof.
  intros Hnull. revert acc.
  induction Hnull as [|[k v] changes Hv _ IH]; intros acc; [reflexivity |].
  cbn [fold_left]. rewrite IH. f_equal. simpl in Hv.
  unfold Dynamic.applyChange, mergeEntry.
  destruct v;
    first [ reflexivity | congruence
          | now destruct (Dynamic.objGet k prev) as [[]|] ].
Qed.

Lemma applyChange_lookup (prev acc : Dynamic.Fields) (key k : string)
    (v : Dynamic.value) :
  Dynamic.objGet key (Dynamic.applyChange prev acc (k, v))
  = if String.eqb key k
    then match v with
         | Dynamic.VNull => Dynamic.objGet key acc
         | _ => mergedValue (Dynamic.objGet key acc)
                  (Dynamic.objGet key prev) v
         end
    else Dynamic.objGet key acc.
Proof.
  unfold Dynamic.applyChange, mergedValue.
  destruct (String.eqb_spec key k) as [-> | Hne].
  - destruct v; try apply objGet_objSet_eq; try reflexivity.
    destruct (Dynamic.objGet k prev) as [[]|]; apply objGet_objSet_eq.
  - destruct v; try (now apply objGet_objSet_ne); try reflexivity.
    destruct (Dynamic.objGet k prev) as [[]|]; now apply objGet_objSet_ne.
Qed.

Lemma applyStateChanges_null (prev changes acc : Dynamic.Fields)
    (key : string) :
  List.NoDup (Dynamic.keys changes) ->
  Dynamic.objGet key changes = Some Dynamic.VNull ->
  Dynamic.objGet key (fold_left (Dynamic.applyChange prev) changes acc)
  = Dynamic.objGet key acc.
Proof.
  revert acc. induction changes as [|[k v] changes IH]; intros acc Hnd Hkey;
    [discriminate Hkey |].
  inversion Hnd as [|? ? Hk Hrest]; subst.
  cbn [fold_left Dynamic.objGet] in Hkey |- *.
  destruct (String.eqb_spec key k) as [-> | Hne].
  - injection Hkey as ->.
    assert (Hskip : forall l a,
      ~ In k (Dynamic.keys l) ->
      Dynamic.objGet k (fold_left (Dynamic.applyChange prev) l a)
      = Dynamic.objGet k a).
    { clear. induction l as [|[k' v'] l IHl]; intros a Hnot; [reflexivity |].
      simpl in Hnot. cbn [fold_left]. rewrite IHl by tauto.
      rewrite applyChange_lookup.
      destruct (String.eqb_spec k k') as [-> | _]; [tauto | reflexivity]. }
    now rewrite Hskip.
  - rewrite (IH _ Hrest Hkey), applyChange_lookup.
    apply String.eqb_neq in Hne. now rewrite Hne.
Qed.

(** X20. [applyStateChanges] is [deepMerge] of the changes into the previous
    state, except that it also skips the keys whose change is null: when no
    change is null the two give the same state, and a key changed to null
    keeps its previous value (where [deepMerge] would store the null). *)
Theorem applyStateChanges_is_deepMerge (changes prev : Dynamic.Fields)
    (key : string) :
  (Forall (fun entry => snd entry <> Dynamic.VNull) changes ->
   Dynamic.applyStateChanges changes prev = Dynamic.deepMerge prev changes)
  /\ (List.NoDup (Dynamic.keys changes) ->
      Dynamic.objGet key changes = Some Dynamic.VNull ->
      Dynamic.objGet key (Dynamic.applyStateChanges changes prev)
      = Dynamic.objGet key prev
      /\ Dynamic.objGet key (Dynamic.deepMerge prev changes)
         = Some Dynamic.VNull).
Proof.
  split.
  - intros Hnull. unfold Dynamic.applyStateChanges.
    rewrite deepMerge_fold. now apply applyStateChanges_fold_ext.
  - intros Hnd Hkey. split.
    + now apply applyStateChanges_null.
    + rewrite deepMerge_fold, (merge_fold_lookup _ _ _ _ Hnd), Hkey.
      reflexivity.
Qed.

Lemma applyStateChanges_is_deepMerge_witness :
  let prev := [("tag", Dynamic.VString "div");
               ("link", Dynamic.VString "https://x")] in
  Dynamic.applyStateChanges [("tag", Dynamic.VString "a")] prev
  = Dynamic.deepMerge prev [("tag", Dynamic.VString "a")]
  /\ Dynamic.objGet "link"
       (Dynamic.applyStateChanges [("link", Dynamic.VNull)] prev)
     = Some (Dynamic.VString "https://x").
Proof.
  intros prev. split.
  - apply (applyStateChanges_is_deepMerge [("tag", Dynamic.VString "a")]
             prev "tag").
    repeat constructor. discriminate.
  - apply (applyStateChanges_is_deepMerge [("link", Dynamic.VNull)]
             prev "link"); [| reflexivity].
    repeat constructor. simpl. tauto.
Defined.

(** X21. [updateNestedState] on a non-base breakpoint writes into the bucket
    only: under [key] the bucket then holds an object whose [nestedKey] is
    the value and whose other keys are those the bucket held there before
    (none when it held no object); the other keys of the bucket, the other
    buckets and the base state are unchanged. On 'base' the same write goes
    to the base state when it holds an object under [key]; when it does not
    (a string, an array, a missing key) the call changes nothing. *)
Theorem updateNestedState_by_key (key nestedKey : string)
    (v : Dynamic.value) (breakpoint : option Breakpoint)
    (st : Dynamic.Store) :
  let bp := match breakpoint with
            | Some b => b
            | None => Dynamic.currentBreakpoint st
            end in
  let st' := Dynamic.updateNestedState key nestedKey v breakpoint st in
  (bp <> Base ->
   Dynamic.state st' = Dynamic.state st
   /\ (forall other, other <> bp ->
       Dynamic.breakpointStates st' other
       = Dynamic.breakpointStates st other)
   /\ (forall key', key' <> key ->
       Dynamic.objGet key' (Dynamic.breakpointStates st' bp)
       = Dynamic.objGet key' (Dynamic.breakpointStates st bp))
   /\ exists group,
       Dynamic.objGet key (Dynamic.breakpointStates st' bp)
       = Some (Dynamic.VObject group)
       /\ Dynamic.objGet nestedKey group = Some v
       /\ forall sibling, sibling <> nestedKey ->
          Dynamic.objGet sibling group
          = Dynamic.objGet sibling
              (Dynamic.spreadOrEmpty
                 (Dynamic.objGet key (Dynamic.breakpointStates st bp))))
  /\ (bp = Base ->
      (forall other,
       Dynamic.breakpointStates st' other
       = Dynamic.breakpointStates st other)
      /\ match Dynamic.objGet key (Dynamic.state st) with
         | Some (Dynamic.VObject group) =>
             Dynamic.objGet key (Dynamic.state st')
             = Some (Dynamic.VObject (Dynamic.objSet nestedKey v group))
             /\ forall key', key' <> key ->
                Dynamic.objGet key' (Dynamic.state st')
                = Dynamic.objGet key' (Dynamic.state st)
         | _ => st' = st
         end).
Proof.
  intros bp st'. split.
  - intros Hbp. unfold st', Dynamic.updateNestedState. fold bp.
    destruct (isBase bp) eqn:Hbase; [now apply isBase_spec in Hbase |].
    cbv zeta. simpl. split; [reflexivity |]. split; [| split].
    + intros other Hother. unfold Dynamic.setBucket.
      now destruct (decide (other = bp)).
    + intros key' Hkey. unfold Dynamic.setBucket.
      destruct (decide (bp = bp)); [| congruence].
      now apply objGet_objSet_ne.
    + eexists. unfold Dynamic.setBucket.
      destruct (decide (bp = bp)); [| congruence].
      split; [apply objGet_objSet_eq |].
      split; [apply objGet_objSet_eq |].
      intros sibling Hsibling. now apply objGet_objSet_ne.
  - intros Hbp. unfold st', Dynamic.updateNestedState. fold bp.
    rewrite Hbp. simpl isBase. cbv iota.
    destruct (Dynamic.objGet key (Dynamic.state st)) as [[]|];
      try (split; reflexivity).
    simpl. split; [reflexivity |].
    split; [apply objGet_objSet_eq |].
    intros key' Hkey. now apply objGet_objSet_ne.
Qed.

Lemma updateNestedState_by_key_witness :
  let st := Dynamic.mkStore [("tag", Dynamic.VString "div")]
              (fun _ => []) Base in
  Dynamic.updateNestedState "tag" "l" (Dynamic.VString "8") None st = st
  /\ Dynamic.state
       (Dynamic.updateNestedState "padding" "l" (Dynamic.VString "8")
          (Some Md) st)
     = Dynamic.state st.
Proof.
  intros st. split.
  - destruct (updateNestedState_by_key "tag" "l" (Dynamic.VString "8")
                None st) as [_ Hbase].
    destruct Hbase as [_ Hsame]; [reflexivity |]. exact Hsame.
  - destruct (updateNestedState_by_key "padding" "l" (Dynamic.VString "8")
                (Some Md) st) as [Hbucket _].
    destruct Hbucket as [Hstate _]; [discriminate |]. exact Hstate.
Defined.

(** ** CSS export *)

(** X22. The CSS export leaves the margin declaration out only when
    margin.x and margin.y are both exactly '0'. For every other pair it
    writes 'margin: <y>px <x>px;' with the normalised values, and an empty
    side counts as 0: with both margins empty the export still holds
    'margin: 0px 0px;'. *)
Theorem export_margin_unless_zero (state : InspectorState) :
  let x := Margin.x (margin state) in
  let y := Margin.y (margin state) in
  (x <> "0" \/ y <> "0" ->
   In ("  margin: " +:+ exportedLength y +:+ "px " +:+ exportedLength x
       +:+ "px;") (exportLines state))
  /\ (x = "" -> y = "" -> In "  margin: 0px 0px;" (exportLines state))
  /\ (x = "0" -> y = "0" ->
      Forall (fun line => JS.startsWith line "  margin:" = false)
        (exportLines state)).
Proof.
  intros x y.
  assert (Hline : x <> "0" \/ y <> "0" ->
    In ("  margin: " +:+ exportedLength y +:+ "px " +:+ exportedLength x
        +:+ "px;") (exportLines state)).
  { intros Hxy.
    assert (Hcond : isNot x "0" || isNot y "0" = true).
    { unfold isNot. apply orb_true_iff.
      destruct Hxy as [H | H]; [left | right];
        apply negb_true_iff; now apply String.eqb_neq. }
    unfold exportLines. cbv zeta. fold x y. rewrite Hcond.
    do 10 (apply in_or_app; right). apply in_or_app. left. now left. }
  split; [exact Hline |]. split.
  - intros Hx Hy.
    assert (H : x <> "0" \/ y <> "0") by (left; rewrite Hx; discriminate).
    apply Hline in H. now rewrite Hx, Hy in H.
  - intros Hx Hy. unfold exportLines. cbv zeta. fold x y. rewrite Hx, Hy.
    repeat (apply Forall_app; split);
      try (apply Forall_pushIf; reflexivity).
    + constructor; [| constructor].
      now destruct (JS.truthy (elementId state)).
    + constructor.
    + now repeat constructor.
Qed.

Lemma export_margin_unless_zero_witness :
  In "  margin: 0px 0px;" (exportLines neutralState)
  /\ In "  margin: 8px 0px;"
       (exportLines (withMargin (Margin.mk "" "8px") neutralState))
  /\ Forall (fun line => JS.startsWith line "  margin:" = false)
       (exportLines (withMargin (Margin.mk "0" "0") neutralState)).
Proof.
  destruct (export_margin_unless_zero neutralState) as (_ & Hempty & _).
  destruct (export_margin_unless_zero
              (withMargin (Margin.mk "" "8px") neutralState))
    as (Hline & _ & _).
  destruct (export_margin_unless_zero
              (withMargin (Margin.mk "0" "0") neutralState))
    as (_ & _ & Hzero).
  split; [apply Hempty; reflexivity |].
  split; [apply Hline; right; discriminate |].
  apply Hzero; reflexivity.
Defined.

Lemma trimEnd_append_kept (a b : string) :
  JS.trimEnd b = b -> b <> "" -> JS.trimEnd (a +:+ b) = a +:+ b.
Proof.
  intros Hb Hne. induction a as [|c a IH]; [exact Hb |].
  simpl. rewrite IH. destruct (a +:+ b) eqn:Hab; [| reflexivity].
  destruct a; simpl in Hab; [congruence | discriminate].
Qed.

Lemma normalize_digits_px (n : string) :
  isDigits n = true -> normalizeNumericValue (JString (n +:+ "px")) = n.
Proof.
  intros [Htruthy Hdigits]%andb_prop.
  pose proof (allDigits_allNumeric _ Hdigits) as Hnum.
  assert (Htrim : JS.trim (n +:+ "px") = n +:+ "px").
  { unfold JS.trim. rewrite trimStart_fixed.
    - now apply trimEnd_append_kept.
    - destruct n as [|c n]; [discriminate Htruthy |]. simpl in Hnum |- *.
      apply andb_prop in Hnum as [Hc _]. now apply numeric_not_space. }
  rewrite normalize_cases by (simpl; now destruct n).
  cbv zeta. simpl toString. rewrite Htrim.
  rewrite (numeric_run_longest n "px" Hnum eq_refl).
  destruct n as [|c n]; [discriminate Htruthy |]. simpl in Hnum |- *.
  apply andb_prop in Hnum as [-> _]. reflexivity.
Qed.

(** X23. The class generator and the CSS export treat a border width with a
    unit differently. For a stored width <n>px (n digits) and a border
    colour, the class generator strips the unit before it appends its own
    and emits border-[<n>px], while the CSS export appends 'px' to the
    stored text and writes 'border: <n>pxpx <style> <colour>;'. *)
Theorem export_border_width_not_normalised (state : InspectorState)
    (bp : Breakpoint) (n : string) :
  isDigits n = true ->
  Border.width (border state) = n +:+ "px" ->
  Border.color (border state) <> "" ->
  In (breakpointPrefix bp +:+ "border-[" +:+ n +:+ "px]")
     (classes (breakpointPrefix bp) state)
  /\ In ("  border: " +:+ n +:+ "pxpx " +:+ Border.style (border state)
         +:+ " " +:+ Border.color (border state) +:+ ";")
        (exportLines state).
Proof.
  intros Hn Hwidth Hcolor.
  assert (Htruthy : JS.truthy (n +:+ "px") = true)
    by (apply truthy_append_r; reflexivity).
  assert (Hnot0 : isNot (n +:+ "px") "0" = true).
  { unfold isNot. apply negb_true_iff, String.eqb_neq.
    apply andb_prop in Hn as [Hne _].
    destruct n as [|c [|d n]]; [discriminate Hne | discriminate ..]. }
  split.
  - unfold classes, borderClasses. cbv zeta.
    rewrite Hwidth, Htruthy, Hnot0, (normalize_digits_px _ Hn).
    rewrite !in_app_iff. simpl. tauto.
  - unfold exportLines. cbv zeta. rewrite Hwidth, Hnot0.
    assert (Hc : JS.truthy (Border.color (border state)) = true)
      by now destruct (Border.color (border state)).
    rewrite Hc. do 17 (apply in_or_app; right). apply in_or_app. left.
    left. now rewrite !append_assoc.
Qed.

Lemma export_border_width_not_normalised_witness :
  let state :=
    writeKey KBorder (Border.mk "2px" "solid" "#000" (Radius.mk 0 0 0 0 0))
      neutralState in
  In "border-[2px]" (classes "" state)
  /\ In "  border: 2pxpx solid #000;" (exportLines state).
Proof.
  intros state.
  apply (export_border_width_not_normalised state Base "2");
    [reflexivity | reflexivity | discriminate].
Defined.

(** ** State store: resolving twice *)

Lemma spread_twice {A : Type} (a : A) (b : option A) :
  spread (spread a b) b = spread a b.
Proof. now destruct b. Qed.

Lemma mergeGroup_twice {F P : Type} (merge : F -> P -> F) (none : P)
    (s : F) (o : option P) :
  (forall g p, merge (merge g p) p = merge g p) ->
  mergeGroup merge none (mergeGroup merge none s o) o
  = mergeGroup merge none s o.
Proof. intros H. unfold mergeGroup. apply H. Qed.

Lemma padding_merge_twice (g : Padding.full) (p : Padding.partial) :
  Padding.merge (Padding.merge g p) p = Padding.merge g p.
Proof. unfold Padding.merge. simpl. now rewrite !spread_twice. Qed.

Lemma margin_merge_twice (g : Margin.full) (p : Margin.partial) :
  Margin.merge (Margin.merge g p) p = Margin.merge g p.
Proof. unfold Margin.merge. simpl. now rewrite !spread_twice. Qed.

Lemma position_merge_twice (g : Position.full) (p : Position.partial) :
  Position.merge (Position.merge g p) p = Position.merge g p.
Proof. unfold Position.merge. simpl. now rewrite !spread_twice. Qed.

Lemma size_merge_twice (g : Size.full) (p : Size.partial) :
  Size.merge (Size.merge g p) p = Size.merge g p.
Proof. unfold Size.merge. simpl. now rewrite !spread_twice. Qed.

Lemma typography_merge_twice (g : Typography.full) (p : Typography.partial) :
  Typography.merge (Typography.merge g p) p = Typography.merge g p.
Proof. unfold Typography.merge. simpl. now rewrite !spread_twice. Qed.

Lemma transforms_merge_twice (g : Transforms.full) (p : Transforms.partial) :
  Transforms.merge (Transforms.merge g p) p = Transforms.merge g p.
Proof. unfold Transforms.merge. simpl. now rewrite !spread_twice. Qed.

Lemma transforms3D_merge_twice (g : Transforms3D.full)
    (p : Transforms3D.partial) :
  Transforms3D.merge (Transforms3D.merge g p) p = Transforms3D.merge g p.
Proof. unfold Transforms3D.merge. simpl. now rewrite !spread_twice. Qed.

Lemma effects_merge_twice (g : Effects.full) (p : Effects.partial) :
  Effects.merge (Effects.merge g p) p = Effects.merge g p.
Proof. unfold Effects.merge. simpl. now rewrite !spread_twice. Qed.

Lemma radius_merge_twice (g : Radius.full) (p : Radius.partial) :
  Radius.merge (Radius.merge g p) p = Radius.merge g p.
Proof. unfold Radius.merge. simpl. now rewrite !spread_twice. Qed.

Lemma appearance_merge_twice (g : Appearance.full) (p : Appearance.partial) :
  Appearance.merge (Appearance.merge g p) p = Appearance.merge g p.
Proof. unfold Appearance.merge. simpl. now rewrite !spread_twice. Qed.

Create HintDb merge_twice.
#[local] Hint Resolve padding_merge_twice margin_merge_twice
  position_merge_twice size_merge_twice typography_merge_twice
  transforms_merge_twice transforms3D_merge_twice effects_merge_twice
  radius_merge_twice appearance_merge_twice : merge_twice.

(** X24. Resolving is idempotent: laying the overrides of a breakpoint over
    the state they already resolved to gives that same state. *)
Theorem getEffectiveState_idempotent (st : Store) (bp : Breakpoint) :
  getEffectiveState
    (mkStore (getEffectiveState st bp) (breakpointStates st)
       (currentBreakpoint st)) bp
  = getEffectiveState st bp.
Proof.
  unfold getEffectiveState. simpl.
  generalize (bucket (breakpointStates st) bp). intros o.
  rewrite !spread_twice.
  rewrite !mergeGroup_twice by auto with merge_twice.
  destruct (border' o) as [ob |]; reflexivity.
Qed.
